(** * Prediction module of the women's-health application

    A shallow embedding of [src/lib/ml-predictions.ts]: the rule-based
    estimators [predictPCOS], [predictMenopause] and [predictNextCycle],
    and the three wrappers that try the remote model first and fall back
    to the local rules.

    Numbers are the source's: JavaScript numbers are IEEE 754 binary64
    values, and so are Rocq's primitive floats (round to nearest even,
    one NaN, signed zeros), hence [+], [*], [/], [sqrt] and the
    comparisons below are the ones the program runs. *)

From Stdlib Require Import ZArith QArith Qround List Bool String Lia.
From Stdlib Require Import Uint63 Floats.
Import ListNotations.

(** ** The JavaScript run-time library, as far as the module uses it *)

Module JS.

Open Scope float_scope.

Notation "x >=? y" := (PrimFloat.leb y x) (at level 70, no associativity) : float_scope.
Notation "x >? y" := (PrimFloat.ltb y x) (at level 70, no associativity) : float_scope.

(** An integer as a number (exact while [|z| <= 2^53]). *)
Definition Z2f (z : Z) : float :=
  if (z <? 0)%Z then - (of_uint63 (Uint63.of_Z (- z)))
  else of_uint63 (Uint63.of_Z z).

Definition nat2f (n : nat) : float := Z2f (Z.of_nat n).

(** The mathematical integer obtained by truncating a finite number
    towards zero; [None] for NaN and the infinities. *)
Definition truncate (x : float) : option Z :=
  match Prim2SF x with
  | S754_nan | S754_infinity _ => None
  | S754_zero _ => Some 0%Z
  | S754_finite s m e =>
      let a := if (0 <=? e)%Z then Z.shiftl (Zpos m) e
               else Z.shiftr (Zpos m) (- e) in
      Some (if s then (- a)%Z else a)
  end.

(** [ToBoolean] on a number: [0], [-0] and [NaN] are falsy. *)
Definition truthy (x : float) : bool := negb (is_nan x || is_zero x).

(** [Math.round]: the nearest integer, ties towards +infinity; NaN, the
    infinities, the zeros and numbers that are already integers are
    returned unchanged, and a result of zero keeps the sign of [x]. *)
Definition Math_round (x : float) : float :=
  match Prim2SF x with
  | S754_finite s m e =>
      if (0 <=? e)%Z then x
      else
        let v := if s then Zneg m else Zpos m in
        let n := Z.shiftr (2 * v + Z.shiftl 1 (- e)) (1 - e) in
        if (n =? 0)%Z then (if s then neg_zero else zero) else Z2f n
  | _ => x
  end.

(** [Math.max] and [Math.min] on two arguments. *)
Definition Math_max (a b : float) : float :=
  if is_nan a || is_nan b then nan
  else if a <? b then b
  else if b <? a then a
  else if get_sign a then b else a.

Definition Math_min (a b : float) : float :=
  if is_nan a || is_nan b then nan
  else if a <? b then a
  else if b <? a then b
  else if get_sign a then a else b.

Definition Math_sqrt (x : float) : float := sqrt x.

(** [Math.pow(x, 2)], taken as the correctly rounded square. *)
Definition Math_pow_2 (x : float) : float := x * x.

(** *** Arrays *)

(** [a.slice(-n)]: the last [n] elements, the whole array when it is
    shorter. *)
Definition slice_last {A} (n : nat) (a : list A) : list A :=
  skipn (List.length a - n) a.

(** [a.map((x, i) => f x i)], the index counted from [i0]. *)
Fixpoint mapi_from {A B} (f : A -> nat -> B) (i0 : nat) (a : list A) : list B :=
  match a with
  | [] => []
  | x :: a' => f x i0 :: mapi_from f (S i0) a'
  end.

Definition mapi {A B} (f : A -> nat -> B) (a : list A) : list B :=
  mapi_from f 0 a.

(** [a.reduce((acc, x, i) => f acc x i, init)], the index counted from
    [i0]. *)
Fixpoint reducei_from {A B} (f : B -> A -> nat -> B) (i0 : nat) (init : B)
    (a : list A) : B :=
  match a with
  | [] => init
  | x :: a' => reducei_from f (S i0) (f init x i0) a'
  end.

Definition reducei {A B} (f : B -> A -> nat -> B) (init : B) (a : list A) : B :=
  reducei_from f 0 init a.

Definition reduce {A B} (f : B -> A -> B) (init : B) (a : list A) : B :=
  reducei (fun acc x _ => f acc x) init a.

(** [a[i]] on an array of numbers used in arithmetic: reading past the
    end gives [undefined], which arithmetic turns into NaN. *)
Definition index (a : list float) (i : nat) : float := nth i a nan.

(** *** Dates

    A [Date] holds a time value: milliseconds since the epoch, or NaN
    (an invalid date, [None] here).  Time values are integers of
    magnitude at most 8.64e15, exactly representable as numbers, so
    they are kept in [Z]; the day-of-month crosses to numbers in
    [Date_getDate] and back in [Date_setDate]. *)

Definition Date := option Z.

Open Scope Z_scope.

Definition msPerDay : Z := 86400000.

Definition Day (t : Z) : Z := t / msPerDay.
Definition TimeWithinDay (t : Z) : Z := t mod msPerDay.

Definition DaysInYear (y : Z) : Z :=
  if negb (y mod 4 =? 0) then 365
  else if negb (y mod 100 =? 0) then 366
  else if negb (y mod 400 =? 0) then 365
  else 366.

Definition DayFromYear (y : Z) : Z :=
  365 * (y - 1970) + (y - 1969) / 4 - (y - 1901) / 100 + (y - 1601) / 400.

(** The largest year [y] with [DayFromYear y <= Day t]: an estimate from
    the mean length of the Gregorian year, corrected by one either way. *)
Definition YearFromTime (t : Z) : Z :=
  let d := Day t in
  let y := 1970 + (400 * d) / 146097 in
  if d <? DayFromYear y then y - 1
  else if DayFromYear (y + 1) <=? d then y + 1
  else y.

Definition InLeapYear (t : Z) : Z :=
  if DaysInYear (YearFromTime t) =? 366 then 1 else 0.

Definition DayWithinYear (t : Z) : Z := Day t - DayFromYear (YearFromTime t).

Definition MonthFromTime (t : Z) : Z :=
  let d := DayWithinYear t in
  let l := InLeapYear t in
  if d <? 31 then 0
  else if d <? 59 + l then 1
  else if d <? 90 + l then 2
  else if d <? 120 + l then 3
  else if d <? 151 + l then 4
  else if d <? 181 + l then 5
  else if d <? 212 + l then 6
  else if d <? 243 + l then 7
  else if d <? 273 + l then 8
  else if d <? 304 + l then 9
  else if d <? 334 + l then 10
  else 11.

Definition DateFromTime (t : Z) : Z :=
  let d := DayWithinYear t in
  let l := InLeapYear t in
  match MonthFromTime t with
  | 0 => d + 1
  | 1 => d - 30
  | 2 => d - 58 - l
  | 3 => d - 89 - l
  | 4 => d - 119 - l
  | 5 => d - 150 - l
  | 6 => d - 180 - l
  | 7 => d - 211 - l
  | 8 => d - 242 - l
  | 9 => d - 272 - l
  | 10 => d - 303 - l
  | _ => d - 333 - l
  end.

(** Number of days of year [y] before its month [m] (0..11). *)
Definition DaysBeforeMonth (y m : Z) : Z :=
  let l := if DaysInYear y =? 366 then 1 else 0 in
  match m with
  | 0 => 0
  | 1 => 31
  | 2 => 59 + l
  | 3 => 90 + l
  | 4 => 120 + l
  | 5 => 151 + l
  | 6 => 181 + l
  | 7 => 212 + l
  | 8 => 243 + l
  | 9 => 273 + l
  | 10 => 304 + l
  | _ => 334 + l
  end.

(** [MakeDay(year, month, date)]: the day number of day [date] of the
    month; [date], an arbitrary number, has been truncated by the
    caller ([None] if it was not finite). *)
Definition MakeDay (year month : Z) (date : option Z) : option Z :=
  match date with
  | None => None
  | Some dt =>
      let ym := year + month / 12 in
      let mn := month mod 12 in
      Some (DayFromYear ym + DaysBeforeMonth ym mn + dt - 1)
  end.

Definition MakeDate (day : option Z) (time : Z) : option Z :=
  match day with
  | None => None
  | Some d => Some (d * msPerDay + time)
  end.

Definition TimeClip (time : option Z) : Date :=
  match time with
  | None => None
  | Some t => if 8640000000000000 <? Z.abs t then None else Some t
  end.

(** The time zone of the host.  [LocalTZA tz t isUTC] is the offset of
    local time from UTC, in milliseconds: the one in force at the
    instant [t] when [isUTC] is [true], the one chosen for the local
    wall-clock time [t] otherwise.  Where daylight saving is observed
    the offset changes with [t]. *)
Record TimeZone := {
  LocalTZA : Z -> bool -> Z
}.

Definition LocalTime (tz : TimeZone) (t : Z) : Z := t + LocalTZA tz t true.
Definition UTC (tz : TimeZone) (t : Z) : Z := t - LocalTZA tz t false.

(** [new Date(d)] for a [Date] [d]: a fresh object with the time value
    of [d], passed through [TimeClip]. *)
Definition new_Date (d : Date) : Date := TimeClip d.

(** [d.getDate()]: the day of the month in local time, NaN when [d] is
    invalid. *)
Definition Date_getDate (tz : TimeZone) (d : Date) : float :=
  match d with
  | None => nan
  | Some t => Z2f (DateFromTime (LocalTime tz t))
  end.

(** [d.setDate(dt)]: the date [d] becomes.  The day of the month is
    replaced in local time, the local time of day is kept, and the
    result is taken back to UTC with the offset of the new local
    time. *)
Definition Date_setDate (tz : TimeZone) (d : Date) (dt : float) : Date :=
  match d with
  | None => None
  | Some t =>
      let t' := LocalTime tz t in
      let newDate :=
        MakeDate (MakeDay (YearFromTime t') (MonthFromTime t') (truncate dt))
                 (TimeWithinDay t') in
      TimeClip (option_map (UTC tz) newDate)
  end.

(** [d.toISOString()] throws a RangeError on an invalid date; the text
    itself is represented by the time value it prints. *)
Definition Date_toISOString (d : Date) : option Z := d.

Close Scope Z_scope.

End JS.

(** ** PCOS prediction engine *)

Module PCOS.

Import JS.
Open Scope string_scope.
Open Scope float_scope.

Record PCOSInputData := {
  age : float;
  weight : float;
  bmi : float;
  cycleRegular : bool;
  cycleLength : float;
  weightGain : bool;
  hairGrowth : bool;
  skinDarkening : bool;
  hairLoss : bool;
  pimples : bool;
  fastFood : bool;
  regularExercise : bool;
  follicleLeft : float;
  follicleRight : float;
  endometrium : float
}.

Inductive Severity := none | low | medium | high.

Record PCOSRecommendations := {
  diet : list string;
  exercise : list string;
  lifestyle : list string;
  needsDoctor : bool
}.

Module Breakdown.
Record t := {
  cycleScore : float;
  hormonalScore : float;
  ultrasoundScore : float;
  metabolicScore : float
}.
End Breakdown.

Record PCOSResult := {
  hasPCOS : bool;
  riskPercentage : float;
  severity : Severity;
  breakdown : Breakdown.t;
  recommendations : PCOSRecommendations
}.

Definition getPCOSRecommendations (severity : Severity) : PCOSRecommendations :=
  match severity with
  | none =>
    {| diet :=
         [ "Maintain balanced diet with whole grains";
           "Include fresh fruits and vegetables";
           "Stay hydrated with 2-3 liters water daily";
           "Include lean protein sources" ];
       exercise :=
         [ "Continue regular physical activity";
           "30 minutes of moderate exercise daily";
           "Mix of cardio and strength training" ];
       lifestyle :=
         [ "Maintain healthy sleep schedule";
           "Regular health check-ups annually";
           "Stress management practices" ];
       needsDoctor := false |}
  | low =>
    {| diet :=
         [ "Low glycemic index foods (millets, oats, brown rice)";
           "Fresh vegetables (spinach, broccoli, carrot, cucumber)";
           "Fruits in moderation (apple, berries, guava)";
           "Lean protein sources (dal, paneer, eggs, fish)";
           "Healthy fats (nuts, seeds, olive oil)";
           "Drink 2–3 liters of water daily" ];
       exercise :=
         [ "Brisk walking – 30 minutes daily";
           "Yoga (Surya Namaskar, Anulom Vilom)";
           "Light stretching exercises";
           "Minimum 5 days per week" ];
       lifestyle :=
         [ "Sleep 7–8 hours daily";
           "Reduce stress through meditation";
           "Avoid late-night meals";
           "Maintain a regular daily routine" ];
       needsDoctor := false |}
  | medium =>
    {| diet :=
         [ "Strict low-GI diet to reduce insulin resistance";
           "High-fiber foods (vegetables, salads, sprouts)";
           "Protein in every meal (eggs, pulses, fish)";
           "Small and frequent meals";
           "Anti-inflammatory foods (turmeric, berries, nuts)";
           "Completely avoid sugar, fast food, bakery items" ];
       exercise :=
         [ "Cardio workouts (walking/jogging) – 30–40 minutes";
           "Strength training – 3 to 4 days per week";
           "Yoga for hormone balance";
           "Beginner-level HIIT exercises" ];
       lifestyle :=
         [ "Fixed sleep and wake-up time";
           "Weight monitoring every week";
           "Reduce screen time";
           "Stress management is mandatory" ];
       needsDoctor := true |}
  | high =>
    {| diet :=
         [ "Very strict low-glycemic-index diet";
           "High-fiber vegetables in every meal";
           "Lean protein with each meal";
           "Anti-inflammatory foods only";
           "Complete elimination of sugar, maida, fried food";
           "Avoid alcohol, soft drinks, and packaged foods";
           "Calorie-controlled meals under medical guidance" ];
       exercise :=
         [ "HIIT workouts (doctor-approved)";
           "Resistance training for insulin sensitivity";
           "Cardio exercises – 45 to 60 minutes daily";
           "Daily yoga for hormonal balance";
           "Consistency is critical" ];
       lifestyle :=
         [ "Strict daily routine";
           "Mental health care and counseling if needed";
           "Avoid crash dieting";
           "Track menstrual cycle and symptoms monthly";
           "Long-term lifestyle discipline required" ];
       needsDoctor := true |}
  end.

(** The local constants of [predictPCOS], one definition each. *)

Definition cycleScore (data : PCOSInputData) : float :=
  if cycleRegular data then 0 else 1.

Definition hormonalScore (data : PCOSInputData) : float :=
  (if hairGrowth data then 1 else 0) +
  (if skinDarkening data then 1 else 0) +
  (if hairLoss data then 1 else 0) +
  (if pimples data then 1 else 0).

Definition totalFollicles (data : PCOSInputData) : float :=
  follicleLeft data + follicleRight data.

Definition ultrasoundScore (data : PCOSInputData) : float :=
  if totalFollicles data >=? 10 then 1 else 0.

Definition metabolicScore (data : PCOSInputData) : float :=
  if bmi data >=? 25 then 1 else 0.

Definition lifestyleScore (data : PCOSInputData) : float :=
  (if weightGain data then 0.5 else 0) +
  (if fastFood data then 0.5 else 0) +
  (if negb (regularExercise data) then 0.5 else 0).

Definition totalScore (data : PCOSInputData) : float :=
  2 * cycleScore data +
  2 * ultrasoundScore data +
  hormonalScore data +
  metabolicScore data +
  lifestyleScore data.

Definition predictPCOS (data : PCOSInputData) : PCOSResult :=
  let hasPCOS := totalScore data >=? 4 in
  let riskPercentage := Math_round ((totalScore data / 9) * 100) in
  let riskPercentage := Math_max (if hasPCOS then 30 else 0) riskPercentage in
  let riskPercentage := Math_min 100 riskPercentage in
  let severity :=
    if negb hasPCOS then none
    else if riskPercentage <? 50 then low
    else if riskPercentage <? 70 then medium
    else high in
  let recommendations := getPCOSRecommendations severity in
  {| hasPCOS := hasPCOS;
     riskPercentage := riskPercentage;
     severity := severity;
     breakdown :=
       {| Breakdown.cycleScore := cycleScore data * 2;
          Breakdown.hormonalScore := hormonalScore data;
          Breakdown.ultrasoundScore := ultrasoundScore data * 2;
          Breakdown.metabolicScore := metabolicScore data |};
     recommendations := recommendations |}.

End PCOS.

(** ** Menopause prediction engine *)

Module Menopause.

Import JS.
Open Scope string_scope.
Open Scope float_scope.

Record MenopauseInputData := {
  age : float;
  estrogenLevel : float;
  fshLevel : float;
  yearsSinceLastPeriod : float;
  irregularPeriods : bool;
  missedPeriods : bool;
  hotFlashes : bool;
  nightSweats : bool;
  sleepProblems : bool;
  vaginalDryness : bool;
  jointPain : bool
}.

Inductive Stage := Pre_Menopause | Peri_Menopause | Post_Menopause.

Record MenopauseRecommendations := {
  diet : list string;
  exercise : list string;
  lifestyle : list string;
  needsDoctor : bool
}.

Module Breakdown.
Record t := {
  ageScore : float;
  hormoneScore : float;
  symptomScore : float;
  periodScore : float
}.
End Breakdown.

Record MenopauseResult := {
  stage : Stage;
  riskPercentage : float;
  hasMenopauseSymptoms : bool;
  breakdown : Breakdown.t;
  recommendations : MenopauseRecommendations
}.

Definition getMenopauseRecommendations (stage : Stage) : MenopauseRecommendations :=
  match stage with
  | Pre_Menopause =>
    {| diet :=
         [ "Maintain balanced nutrition";
           "Include calcium-rich foods";
           "Stay hydrated";
           "Moderate caffeine intake" ];
       exercise :=
         [ "Regular cardio and strength training";
           "Maintain bone health with weight-bearing exercises";
           "Stay active 30 minutes daily" ];
       lifestyle :=
         [ "Regular health check-ups";
           "Stress management";
           "Quality sleep habits" ];
       needsDoctor := false |}
  | Peri_Menopause =>
    {| diet :=
         [ "Low-GI foods: oats, brown rice, whole wheat roti";
           "High-fiber foods: salads, sprouts, flax seeds";
           "Protein sources: eggs, pulses, soy, paneer";
           "Healthy fats: nuts, seeds, olive oil";
           "Calcium-rich foods: milk, curd, ragi";
           "Vitamin-D foods or supplements (doctor advice)";
           "Avoid: Sugar, bakery items, excess caffeine" ];
       exercise :=
         [ "Brisk walking – 30 to 40 minutes daily";
           "Yoga: Anulom-Vilom, Bhramari, Surya Namaskar";
           "Strength training – 2 to 3 days per week";
           "Light cardio (cycling, skipping)" ];
       lifestyle :=
         [ "Fixed sleep and wake-up time";
           "Daily meditation or breathing exercises";
           "Stress management is very important";
           "Maintain healthy body weight" ];
       needsDoctor := true |}
  | Post_Menopause =>
    {| diet :=
         [ "High-calcium foods: milk, cheese, curd, sesame seeds";
           "Vitamin-D rich foods or supplements";
           "High-protein diet: lentils, eggs, fish, tofu";
           "Anti-inflammatory foods: turmeric, berries, green tea";
           "Plenty of fruits and vegetables";
           "Avoid: Fried food, excess salt, sugary foods" ];
       exercise :=
         [ "Weight-bearing exercises: walking, stair climbing";
           "Light strength training (resistance bands, dumbbells)";
           "Balance exercises to prevent falls";
           "Stretching and flexibility exercises" ];
       lifestyle :=
         [ "Regular medical check-ups";
           "Bone density test (doctor advice)";
           "Avoid smoking and alcohol";
           "Maintain a stress-free routine" ];
       needsDoctor := true |}
  end.

Definition Stage_eqb (a b : Stage) : bool :=
  match a, b with
  | Pre_Menopause, Pre_Menopause
  | Peri_Menopause, Peri_Menopause
  | Post_Menopause, Post_Menopause => true
  | _, _ => false
  end.

(** The local constants of [predictMenopause], one definition each. *)

Definition stage_of (data : MenopauseInputData) : Stage :=
  if yearsSinceLastPeriod data >=? 1 then Post_Menopause
  else if (age data >=? 40) &&
          (irregularPeriods data || missedPeriods data || hotFlashes data)
  then Peri_Menopause
  else Pre_Menopause.

Definition ageScore (data : MenopauseInputData) : float :=
  if age data >=? 55 then 4
  else if age data >=? 50 then 3
  else if age data >=? 45 then 2
  else if age data >=? 40 then 1
  else 0.

Definition hormoneScore (data : MenopauseInputData) : float :=
  let hormoneScore := 0 in
  let hormoneScore :=
    if fshLevel data >=? 40 then hormoneScore + 2
    else if fshLevel data >=? 25 then hormoneScore + 1
    else hormoneScore in
  if estrogenLevel data <=? 30 then hormoneScore + 2
  else if estrogenLevel data <=? 50 then hormoneScore + 1
  else hormoneScore.

Definition symptomScore (data : MenopauseInputData) : float :=
  (if irregularPeriods data then 1 else 0) +
  (if missedPeriods data then 1 else 0) +
  (if hotFlashes data then 1 else 0) +
  (if nightSweats data then 1 else 0) +
  (if sleepProblems data then 1 else 0) +
  (if vaginalDryness data then 1 else 0) +
  (if jointPain data then 1 else 0).

Definition periodScore (data : MenopauseInputData) : float :=
  if yearsSinceLastPeriod data >=? 2 then 4
  else if yearsSinceLastPeriod data >=? 1 then 3
  else if yearsSinceLastPeriod data >=? 0.5 then 2
  else if yearsSinceLastPeriod data >? 0 then 1
  else 0.

Definition maxScore : float := 19.

Definition totalScore (data : MenopauseInputData) : float :=
  ageScore data + hormoneScore data + symptomScore data + periodScore data.

Definition predictMenopause (data : MenopauseInputData) : MenopauseResult :=
  let stage := stage_of data in
  let riskPercentage := Math_round ((totalScore data / maxScore) * 100) in
  let riskPercentage := Math_min 100 (Math_max 0 riskPercentage) in
  let hasMenopauseSymptoms := negb (Stage_eqb stage Pre_Menopause) in
  let recommendations := getMenopauseRecommendations stage in
  {| stage := stage;
     riskPercentage := riskPercentage;
     hasMenopauseSymptoms := hasMenopauseSymptoms;
     breakdown :=
       {| Breakdown.ageScore := ageScore data;
          Breakdown.hormoneScore := hormoneScore data;
          Breakdown.symptomScore := symptomScore data;
          Breakdown.periodScore := periodScore data |};
     recommendations := recommendations |}.

End Menopause.

(** ** Menstrual cycle prediction *)

Module Cycle.

Import JS.
Open Scope float_scope.

Inductive Cramps := cramps_none | cramps_mild | cramps_severe.
Inductive Mood := mood_stable | mood_irritable | mood_depressed.
Inductive Confidence := high | medium | low.

(** Every field of [symptoms] is optional; [None] is [undefined]. *)
Record Symptoms := {
  cramps : option Cramps;
  mood : option Mood;
  acne : option bool;
  bloating : option bool;
  fatigue : option bool
}.

Record CycleData := {
  cycleHistory : list float;
  lastPeriodStart : Date;
  symptoms : option Symptoms;
  stressLevel : option float;
  sleepHours : option float
}.

(** [pcosRiskFlag] is declared [boolean]; the value the function stores
    there is a boolean or [undefined] ([None]). *)
Record CyclePrediction := {
  predictedStartDate : Date;
  confidenceLevel : Confidence;
  averageCycleLength : float;
  cycleVariability : float;
  isIrregular : bool;
  pcosRiskFlag : option bool;
  delayAdjustment : float
}.

(** [a && b] and [a || b] on values that are booleans or [undefined]:
    the operators return one of their operands. *)
Definition ToBoolean (a : option bool) : bool :=
  match a with Some true => true | _ => false end.

Definition js_and (a b : option bool) : option bool :=
  if ToBoolean a then b else a.

Definition js_or (a b : option bool) : option bool :=
  if ToBoolean a then a else b.

(** [symptoms?.acne], [symptoms?.cramps === 'severe'] and
    [symptoms?.mood === 'irritable']. *)
Definition symptoms_acne (symptoms : option Symptoms) : option bool :=
  match symptoms with
  | None => None
  | Some s => acne s
  end.

Definition cramps_is_severe (symptoms : option Symptoms) : bool :=
  match symptoms with
  | Some {| cramps := Some cramps_severe |} => true
  | _ => false
  end.

Definition mood_is_irritable (symptoms : option Symptoms) : bool :=
  match symptoms with
  | Some {| mood := Some mood_irritable |} => true
  | _ => false
  end.

(** The local constants of [predictNextCycle], one definition each. *)

Definition recentCycles (cycleHistory : list float) : list float :=
  slice_last 6 cycleHistory.

Definition weights (cycleHistory : list float) : list float :=
  mapi (fun _ i => nat2f i + 1) (recentCycles cycleHistory).

Definition totalWeight (cycleHistory : list float) : float :=
  reduce (fun a b => a + b) 0 (weights cycleHistory).

Definition weightedAverage (cycleHistory : list float) : float :=
  reducei (fun sum cycle i => sum + cycle * index (weights cycleHistory) i)
          0 (recentCycles cycleHistory)
  / totalWeight cycleHistory.

Definition mean (cycleHistory : list float) : float :=
  reduce (fun a b => a + b) 0 (recentCycles cycleHistory)
  / nat2f (List.length (recentCycles cycleHistory)).

Definition variance (cycleHistory : list float) : float :=
  reduce (fun sum cycle => sum + Math_pow_2 (cycle - mean cycleHistory))
         0 (recentCycles cycleHistory)
  / nat2f (List.length (recentCycles cycleHistory)).

Definition variability (cycleHistory : list float) : float :=
  Math_sqrt (variance cycleHistory).

Definition longCycles (cycleHistory : list float) : nat :=
  List.length (filter (fun c => c >? 35) (recentCycles cycleHistory)).

Definition predictNextCycle (tz : TimeZone) (data : CycleData) : CyclePrediction :=
  let cycleHistory := cycleHistory data in
  let lastPeriodStart := lastPeriodStart data in
  let symptoms := symptoms data in
  let stressLevel := stressLevel data in
  let sleepHours := sleepHours data in
  match cycleHistory with
  | [] =>
      let predictedDate := new_Date lastPeriodStart in
      let predictedDate :=
        Date_setDate tz predictedDate (Date_getDate tz predictedDate + 28) in
      {| predictedStartDate := predictedDate;
         confidenceLevel := low;
         averageCycleLength := 28;
         cycleVariability := 0;
         isIrregular := false;
         pcosRiskFlag := Some false;
         delayAdjustment := 0 |}
  | _ :: _ =>
      let recentCycles := recentCycles cycleHistory in
      let weightedAverage := weightedAverage cycleHistory in
      let variability := variability cycleHistory in
      let confidenceLevel :=
        if (variability <=? 2) && (3 <=? List.length cycleHistory)%nat then high
        else if (variability <=? 5) || (6 <=? List.length cycleHistory)%nat then medium
        else low in
      let isIrregular :=
        (variability >? 7) || existsb (fun c => (c <? 21) || (c >? 35)) recentCycles in
      let longCycles := longCycles cycleHistory in
      let pcosRiskFlag :=
        js_or (Some (3 <=? longCycles)%nat)
              (js_and (js_and (Some isIrregular) (symptoms_acne symptoms))
                      (Some (cramps_is_severe symptoms || mood_is_irritable symptoms))) in
      let delayAdjustment := 0 in
      let delayAdjustment :=
        if match stressLevel with
           | Some stressLevel => truthy stressLevel && (stressLevel >=? 4)
           | None => false
           end
        then delayAdjustment + 2 else delayAdjustment in
      let delayAdjustment :=
        if match sleepHours with
           | Some sleepHours => truthy sleepHours && (sleepHours <? 6)
           | None => false
           end
        then delayAdjustment + 1 else delayAdjustment in
      let predictedDate := new_Date lastPeriodStart in
      let predictedDate :=
        Date_setDate tz predictedDate
          (Date_getDate tz predictedDate + Math_round weightedAverage + delayAdjustment) in
      {| predictedStartDate := predictedDate;
         confidenceLevel := confidenceLevel;
         averageCycleLength := Math_round weightedAverage;
         cycleVariability := Math_round (variability * 10) / 10;
         isIrregular := isIrregular;
         pcosRiskFlag := pcosRiskFlag;
         delayAdjustment := delayAdjustment |}
  end.

End Cycle.

(** ** Predictions through the remote model, with the local fallback

    The wrappers are [async] functions that await one step after the
    other, so they are sequential programs over a host: what [fetch]
    answers, what the response body holds and whether an insertion into
    the database succeeds are the host's.  A step either completes with
    a value or throws an error that carries a message; [try]/[catch] is
    a match on the completion.  Console output is left out. *)

Module Api.

Import JS.
Open Scope string_scope.
Open Scope float_scope.

(** How an awaited call or a statement ends: normally with a value, or
    with a thrown error (a rejected promise), kept by its [message]. *)
Inductive Completion (A : Type) : Type :=
| Normal (a : A)
| Throw (message : string).
Arguments Normal {A} a.
Arguments Throw {A} message.

Record MLPredictionMeta := {
  usedAPI : bool;
  error : option string
}.

(** [{ ...r, _meta }]: the fields of [r] and the added [_meta]. *)
Record WithMeta (A : Type) := {
  spread : A;
  _meta : MLPredictionMeta
}.
Arguments spread {A} w.
Arguments _meta {A} w.

Inductive Endpoint := predict_pcos | predict_menopause | predict_cycle.

(** A property key that objects do not inherit from [Object.prototype].
    Looking up an inherited key such as [constructor] or [toString] in
    an object literal yields a function, which is no severity; the
    model's answers are taken to carry no such label. *)
Definition Object_prototype_keys : list string :=
  [ "constructor"; "hasOwnProperty"; "isPrototypeOf"; "propertyIsEnumerable";
    "toLocaleString"; "toString"; "valueOf"; "__proto__";
    "__defineGetter__"; "__defineSetter__"; "__lookupGetter__"; "__lookupSetter__" ].

Definition inherited (key : string) : bool :=
  existsb (String.eqb key) Object_prototype_keys.

Record Label := {
  key : string;
  key_not_inherited : inherited key = false
}.

(** What the model answers for PCOS; [recommendations] may be missing,
    and reading a property of it then throws a TypeError. *)
Record PCOSApiRecommendations := {
  api_diet : list string;
  api_exercise : list string;
  api_lifestyle : list string;
  api_doctor : bool
}.

Record PCOSApiResult := {
  api_hasPCOS : bool;
  api_riskPercentage : float;
  api_severity : Label;
  api_breakdown : PCOS.Breakdown.t;
  api_recommendations : option PCOSApiRecommendations
}.

Record CycleApiResult := {
  api_predictedStartDate : Date;
  api_confidenceLevel : Cycle.Confidence;
  api_averageCycleLength : float;
  api_cycleVariability : float;
  api_isIrregular : bool;
  api_pcosRiskFlag : option bool;
  api_delayAdjustment : float
}.

(** The object sent as the request body. *)
Definition Body (e : Endpoint) : Type :=
  match e with
  | predict_pcos => PCOS.PCOSInputData
  | predict_menopause => Menopause.MenopauseInputData
  | predict_cycle => (Cycle.CycleData * Z)%type
  end.

(** The object [response.json()] resolves to. *)
Definition Payload (e : Endpoint) : Type :=
  match e with
  | predict_pcos => PCOSApiResult
  | predict_menopause => Menopause.MenopauseResult
  | predict_cycle => CycleApiResult
  end.

Record Response (J : Type) := {
  ok : bool;
  text : Completion string;
  json : Completion J
}.
Arguments ok {J} r.
Arguments text {J} r.
Arguments json {J} r.

Inductive RiskCategory := risk_low | risk_medium | risk_high.

Inductive Row :=
| PCOSAssessment (user_id : string) (risk_score : float)
    (risk_category : RiskCategory) (responses : PCOS.PCOSInputData)
    (recommendations : PCOS.PCOSRecommendations) (created_at : Z)
| MenopauseAssessment (user_id : string) (risk_score : float)
    (risk_category : RiskCategory) (responses : Menopause.MenopauseInputData)
    (recommendations : Menopause.MenopauseRecommendations) (created_at : Z)
| CyclePredictionRow (user_id : string) (predicted_start_date : Z)
    (confidence_level : Cycle.Confidence) (created_at : Z).

(** What an awaited [insert] resolves to: the database's [error], if
    it refused the row. *)
Record InsertResult := {
  insert_error : option string
}.

(** The world outside the module: the remote model behind [fetch], the
    database client behind [supabase.from(table).insert], the clock. *)
Record Host := {
  fetch : forall e : Endpoint, Body e -> Completion (Response (Payload e));
  supabase_insert : Row -> Completion InsertResult;
  now : Z
}.

(** An asynchronous computation: it adds the rows it asks the database
    to insert to those asked for so far, and completes. *)
Definition Async (A : Type) : Type := list Row -> list Row * Completion A.

Definition ret {A} (a : A) : Async A := fun rows => (rows, Normal a).

Definition throw {A} (message : string) : Async A := fun rows => (rows, Throw message).

Definition bind {A B} (c : Async A) (k : A -> Async B) : Async B :=
  fun rows =>
    match c rows with
    | (rows', Normal a) => k a rows'
    | (rows', Throw message) => (rows', Throw message)
    end.

Notation "x <- c ;; k" := (bind c (fun x => k))
  (at level 61, c at next level, right associativity).
Notation "c ;;; k" := (bind c (fun _ => k))
  (at level 61, right associativity).

(** [await c] for a call that touches no table. *)
Definition await {A} (c : Completion A) : Async A := fun rows => (rows, c).

(** [await supabase.from(table).insert(row)]. *)
Definition insert (h : Host) (row : Row) : Async InsertResult :=
  fun rows => ((rows ++ [row])%list, supabase_insert h row).

(** [try { body } catch (error) { return handler(error.message) }],
    run with no row asked for yet. *)
Definition try_catch {A} (body : Async A) (handler : string -> A) : list Row * A :=
  match body [] with
  | (rows, Normal a) => (rows, a)
  | (rows, Throw message) => (rows, handler message)
  end.

(** [severityMap[label]]: the own properties of the literal. *)
Definition severityMap (label : Label) : option PCOS.Severity :=
  if String.eqb (key label) "Low" then Some PCOS.low
  else if String.eqb (key label) "Medium" then Some PCOS.medium
  else if String.eqb (key label) "High" then Some PCOS.high
  else if String.eqb (key label) "None" then Some PCOS.none
  else None.

(** [x ?? d]. *)
Definition nullish {A} (x : option A) (d : A) : A :=
  match x with
  | Some a => a
  | None => d
  end.

(** [if (userId)]: a user id that is given and not the empty string. *)
Definition given (userId : option string) : option string :=
  match userId with
  | Some u => if String.eqb u "" then None else Some u
  | None => None
  end.

(** Each wrapper returns the rows it asked the database to insert and
    its result. *)

Definition predictPCOSFromAPI (h : Host) (data : PCOS.PCOSInputData)
    (userId : option string) : list Row * WithMeta PCOS.PCOSResult :=
  try_catch
    (response <- await (fetch h predict_pcos data) ;;
     (if negb (ok response)
      then errorText <- await (text response) ;; throw "Backend validation failed"
      else ret tt) ;;;
     result <- await (json response) ;;
     recs <- match api_recommendations result with
             | Some r => ret r
             | None => throw "Cannot read properties of undefined"
             end ;;
     let formattedResult :=
       {| PCOS.hasPCOS := api_hasPCOS result;
          PCOS.riskPercentage := api_riskPercentage result;
          PCOS.severity := nullish (severityMap (api_severity result)) PCOS.none;
          PCOS.breakdown := api_breakdown result;
          PCOS.recommendations :=
            {| PCOS.diet := api_diet recs;
               PCOS.exercise := api_exercise recs;
               PCOS.lifestyle := api_lifestyle recs;
               PCOS.needsDoctor := api_doctor recs |} |} in
     match given userId with
     | Some u =>
         insert h
           (PCOSAssessment u (PCOS.riskPercentage formattedResult)
              match PCOS.severity formattedResult with
              | PCOS.none | PCOS.low => risk_low
              | PCOS.medium => risk_medium
              | PCOS.high => risk_high
              end
              data (PCOS.recommendations formattedResult) (now h)) ;;;
         ret tt
     | None => ret tt
     end ;;;
     ret {| spread := formattedResult;
            _meta := {| usedAPI := true; error := None |} |})
    (fun message =>
       let localResult := PCOS.predictPCOS data in
       {| spread := localResult;
          _meta := {| usedAPI := false; error := Some message |} |}).

Definition predictMenopauseFromAPI (h : Host) (data : Menopause.MenopauseInputData)
    (userId : option string) : list Row * WithMeta Menopause.MenopauseResult :=
  try_catch
    (response <- await (fetch h predict_menopause data) ;;
     (if negb (ok response)
      then errorText <- await (text response) ;; throw "Backend validation failed"
      else ret tt) ;;;
     result <- await (json response) ;;
     match given userId with
     | Some u =>
         insert h
           (MenopauseAssessment u (Menopause.riskPercentage result)
              (if Menopause.riskPercentage result <? 40 then risk_low
               else if Menopause.riskPercentage result <? 70 then risk_medium
               else risk_high)
              data (Menopause.recommendations result) (now h)) ;;;
         ret tt
     | None => ret tt
     end ;;;
     ret {| spread := result;
            _meta := {| usedAPI := true; error := None |} |})
    (fun message =>
       let localResult := Menopause.predictMenopause data in
       {| spread := localResult;
          _meta := {| usedAPI := false; error := Some message |} |}).

(** [d.toISOString()] inside the [try]. *)
Definition toISOString (d : Date) : Completion Z :=
  match Date_toISOString d with
  | Some t => Normal t
  | None => Throw "Invalid time value"
  end.

Definition predictCycleFromAPI (tz : TimeZone) (h : Host) (data : Cycle.CycleData)
    (userId : option string) : list Row * WithMeta Cycle.CyclePrediction :=
  try_catch
    (iso <- await (toISOString (Cycle.lastPeriodStart data)) ;;
     response <- await (fetch h predict_cycle (data, iso)) ;;
     (if negb (ok response) then throw "Backend error" else ret tt) ;;;
     result <- await (json response) ;;
     let formatted :=
       {| Cycle.predictedStartDate := new_Date (api_predictedStartDate result);
          Cycle.confidenceLevel := api_confidenceLevel result;
          Cycle.averageCycleLength := api_averageCycleLength result;
          Cycle.cycleVariability := api_cycleVariability result;
          Cycle.isIrregular := api_isIrregular result;
          Cycle.pcosRiskFlag := api_pcosRiskFlag result;
          Cycle.delayAdjustment := api_delayAdjustment result |} in
     match given userId with
     | Some u =>
         day <- await (toISOString (Cycle.predictedStartDate formatted)) ;;
         insert h
           (CyclePredictionRow u (Day day) (Cycle.confidenceLevel formatted) (now h)) ;;;
         ret tt
     | None => ret tt
     end ;;;
     ret {| spread := formatted;
            _meta := {| usedAPI := true; error := None |} |})
    (fun message =>
       let localResult := Cycle.predictNextCycle tz data in
       {| spread := localResult;
          _meta := {| usedAPI := false; error := Some message |} |}).

(** The remote call fails: [fetch] throws, or the response is not ok. *)
Definition fetch_fails {e : Endpoint} (h : Host) (body : Body e) : Prop :=
  match fetch h e body with
  | Throw _ => True
  | Normal response => ok response = false
  end.

End Api.
(** ** Notification schedule *)

Module Notification.

Import JS.
Open Scope float_scope.

Record t := {
  date : Date;
  message : string;
  daysBefore : float
}.

(** [xs.forEach(x => { notifications.push(f x) })] on an array that
    starts empty: the pushes, in the order of [xs]. *)
Definition forEach_push {A B} (f : A -> B) (xs : list A) (notifications : list B) : list B :=
  fold_left (fun notifications x => notifications ++ [f x]) xs notifications.

Open Scope string_scope.
Open Scope float_scope.

Definition getNotificationSchedule (tz : TimeZone) (predictedDate : Date)
    (isIrregular : bool) : list t :=
  let notifications := [] in
  if isIrregular then
    forEach_push
      (fun daysBefore =>
         let notifDate := new_Date predictedDate in
         let notifDate :=
           Date_setDate tz notifDate (Date_getDate tz notifDate - daysBefore) in
         {| date := notifDate;
            message :=
              if daysBefore =? 5 then "Your period may start in about 5 days (estimate) 🌸"
              else if daysBefore =? 3 then "Your period may start soon. This is an estimate 🌸"
              else "Your period may start tomorrow. Take care 💗";
            daysBefore := daysBefore |})
      [5; 3; 1] notifications
  else
    forEach_push
      (fun daysBefore =>
         let notifDate := new_Date predictedDate in
         let notifDate :=
           Date_setDate tz notifDate (Date_getDate tz notifDate - daysBefore) in
         {| date := notifDate;
            message :=
              if daysBefore =? 3 then "Your period is expected in 3 days 🌸"
              else if daysBefore =? 2 then "Your period may start in 2 days. Stay prepared 💕"
              else "Your period may start tomorrow. Take care 💗";
            daysBefore := daysBefore |})
      [3; 2; 1] notifications.

End Notification.

(** * Specification-side definitions

    What the statements below compare the program with: the scores in
    exact rational arithmetic, the statistics by their textbook
    formulas, and calendar arithmetic on time values. *)

Import JS.
Open Scope string_scope.
Open Scope float_scope.

(** The scores [predictPCOS] can reach: the multiples of one half up to
    10.5. *)
Definition half_scores : list float :=
  [0; 0.5; 1; 1.5; 2; 2.5; 3; 3.5; 4; 4.5; 5; 5.5; 6; 6.5; 7; 7.5; 8; 8.5;
   9; 9.5; 10; 10.5].

(** The number nearest to a rational, for the rationals met below
    (quotients of small integers). *)
Definition Q2f (q : Q) : float := Z2f (Qnum q) / Z2f (Zpos (Qden q)).

Definition indicator (b : bool) : Q := if b then 1%Q else 0%Q.

Definition count_true (bs : list bool) : Q :=
  inject_Z (Z.of_nat (List.length (filter (fun b => b) bs))).

(** The nearest integer to a rational, halves upwards. *)
Definition round_half_up (q : Q) : Z := Qfloor (q + (1 # 2))%Q.

(** The weighted total of the PCOS score as the claim words it. *)
Definition spec_PCOS_total (data : PCOS.PCOSInputData) : Q :=
  (2 * indicator (negb (PCOS.cycleRegular data))
   + 2 * indicator (PCOS.follicleLeft data + PCOS.follicleRight data >=? 10)
   + count_true [PCOS.hairGrowth data; PCOS.skinDarkening data;
                 PCOS.hairLoss data; PCOS.pimples data]
   + indicator (PCOS.bmi data >=? 25)
   + (1 # 2) * count_true [PCOS.weightGain data; PCOS.fastFood data;
                           negb (PCOS.regularExercise data)])%Q.

Definition spec_PCOS_hasPCOS (data : PCOS.PCOSInputData) : bool :=
  Qle_bool 4 (spec_PCOS_total data).

Definition spec_PCOS_risk (data : PCOS.PCOSInputData) : Z :=
  Z.min 100
    (Z.max (if spec_PCOS_hasPCOS data then 30 else 0)
           (round_half_up (spec_PCOS_total data / 9 * 100)%Q)).

(** The integer a number holds, 0 when it holds none. *)
Definition integer_of (x : float) : Z :=
  match truncate x with Some n => n | None => 0%Z end.

(** The date [n] calendar days after [d] on the host's clock: the same
    local time of day, [n] days on, read back with the offset the zone
    gives that local time (an hour more or less than [n] times 24 hours
    when daylight saving starts or ends in between); invalid when [d]
    is, or when it falls outside the range of time values. *)
Definition Date_plus_days (tz : TimeZone) (d : Date) (n : Z) : Date :=
  match TimeClip d with
  | None => None
  | Some t => TimeClip (Some (UTC tz (LocalTime tz t + n * msPerDay)%Z))
  end.

(** A zone without daylight saving: one offset at all times. *)
Definition constant_offset (tz : TimeZone) : Prop :=
  forall t t' isUTC isUTC', LocalTZA tz t isUTC = LocalTZA tz t' isUTC'.

(** The instant [n] times 24 hours after [d]. *)
Definition Date_plus_hours_24 (d : Date) (n : Z) : Date :=
  match TimeClip d with
  | None => None
  | Some t => TimeClip (Some (t + n * msPerDay)%Z)
  end.

(** Offsets from UTC stay below a day, as those of every zone do. *)
Definition offsets_below_a_day (tz : TimeZone) : Prop :=
  forall t isUTC, (Z.abs (LocalTZA tz t isUTC) <= msPerDay)%Z.

(** Two hosts whose zones give the same offset at the instant [t], and
    at the local time of day of [t], [n] days on. *)
Definition same_offsets (tz1 tz2 : TimeZone) (t n : Z) : Prop :=
  LocalTZA tz1 t true = LocalTZA tz2 t true /\
  LocalTZA tz1 (LocalTime tz1 t + n * msPerDay)%Z false
  = LocalTZA tz2 (LocalTime tz1 t + n * msPerDay)%Z false.

(** Numbers that hold an integer, as values of [Prim2SF]: zero, or a
    mantissa that is [|v|] shifted left by the negated exponent. *)
Definition SFinteger (x : spec_float) (v : Z) : Prop :=
  match x with
  | S754_zero _ => v = 0%Z
  | S754_finite s m e =>
      (e <= 0)%Z /\ Zpos m = (Z.abs v * 2 ^ (- e))%Z /\
      (if s then (v < 0)%Z else (0 < v)%Z)
  | _ => False
  end.

(** Numbers that are infinite or finite with an exponent of at least
    [lo], of sign [s]. *)
Definition SFbig (x : spec_float) (s : bool) (lo : Z) : Prop :=
  x = S754_infinity s \/ exists m e, x = S754_finite s m e /\ (lo <= e)%Z.

(** A shifted mantissa with nothing shifted out. *)
Definition rec0 (m : Z) : shr_record :=
  {| shr_m := m; shr_r := false; shr_s := false |}.

(** Integer intervals, to check by computation that the additions
    [setDate] is given are exact. *)
Fixpoint Zrange (lo : Z) (n : nat) : list Z :=
  match n with
  | O => []
  | S n' => lo :: Zrange (lo + 1) n'
  end.

Definition holds_integer (x : float) (z : Z) : bool :=
  match truncate x with
  | Some n => (n =? z)%Z
  | None => false
  end.

(** The delay as the claim words it: 2 when a stress level is given and
    is at least 4, plus 1 when sleep hours are given, not zero and below
    6. *)
Definition stress_is_high (data : Cycle.CycleData) : bool :=
  match Cycle.stressLevel data with
  | Some s => s >=? 4
  | None => false
  end.

Definition sleep_is_short (data : Cycle.CycleData) : bool :=
  match Cycle.sleepHours data with
  | Some s => negb (s =? 0) && (s <? 6)
  | None => false
  end.

Definition spec_delay (data : Cycle.CycleData) : Z :=
  ((if stress_is_high data then 2 else 0)
   + (if sleep_is_short data then 1 else 0))%Z.

(** The statistics of the cycle prediction by their usual formulas: the
    last [k] entries of the history, the weights 1, 2, ..., [k] (the
    latest entry weighs most), the weighted mean, the population
    standard deviation, and rounding to one decimal place.  Sums run
    over the entries in order, starting from 0. *)
Definition last_entries {A} (k : nat) (l : list A) : list A :=
  rev (firstn k (rev l)).

Definition weights_1_to (k : nat) : list float := map nat2f (seq 1 k).

Definition sum (xs : list float) : float := fold_left PrimFloat.add xs 0.

Definition weighted_mean (xs ws : list float) : float :=
  sum (map (fun p => fst p * snd p) (combine xs ws)) / sum ws.

Definition population_std (xs : list float) : float :=
  let n := nat2f (List.length xs) in
  let mu := sum xs / n in
  sqrt (sum (map (fun x => (x - mu) * (x - mu)) xs) / n).

Definition round_1_decimal (x : float) : float := Math_round (x * 10) / 10.

(** ** Sample inputs *)

(* A zone without daylight saving, [offset] milliseconds east of UTC. *)
Definition fixed_zone (offset : Z) : TimeZone :=
  {| LocalTZA := fun _ _ => offset |}.

(* India: +05:30 all year. *)
Definition kolkata : TimeZone := fixed_zone 19800000.

(* Bogota: -05:00 all year. *)
Definition bogota : TimeZone := fixed_zone (-18000000).

(* New York in 2024: -05:00, and -04:00 from 10 March 07:00 UTC to
   3 November 06:00 UTC; a local time that the clocks skip is read
   with the offset before the change, one that occurs twice as the
   first of the two. *)
Definition new_york_2024 : TimeZone :=
  {| LocalTZA := fun t isUTC =>
       if isUTC
       then if ((1710054000000 <=? t) && (t <? 1730613600000))%Z
            then (-14400000)%Z else (-18000000)%Z
       else if ((1710039600000 <=? t) && (t <? 1730599200000))%Z
            then (-14400000)%Z else (-18000000)%Z |}.

(* Every factor of the PCOS score present: the total is 10.5. *)
Definition every_factor_input : PCOS.PCOSInputData :=
  {| PCOS.age := 30; PCOS.weight := 80; PCOS.bmi := 31;
     PCOS.cycleRegular := false; PCOS.cycleLength := 45;
     PCOS.weightGain := true; PCOS.hairGrowth := true;
     PCOS.skinDarkening := true; PCOS.hairLoss := true;
     PCOS.pimples := true; PCOS.fastFood := true;
     PCOS.regularExercise := false; PCOS.follicleLeft := 6;
     PCOS.follicleRight := 6; PCOS.endometrium := 8 |}.

(* A woman of 52, eight months after her last period. *)
Definition perimenopause_input : Menopause.MenopauseInputData :=
  {| Menopause.age := 52;
     Menopause.estrogenLevel := 28;
     Menopause.fshLevel := 45;
     Menopause.yearsSinceLastPeriod := 0.75;
     Menopause.irregularPeriods := true;
     Menopause.missedPeriods := true;
     Menopause.hotFlashes := true;
     Menopause.nightSweats := false;
     Menopause.sleepProblems := true;
     Menopause.vaginalDryness := false;
     Menopause.jointPain := false |}.

(* No history; 15 January 2024, 10:00 UTC. *)
Definition no_history_input : Cycle.CycleData :=
  {| Cycle.cycleHistory := [];
     Cycle.lastPeriodStart := Some 1705312800000%Z;
     Cycle.symptoms := None;
     Cycle.stressLevel := Some 5;
     Cycle.sleepHours := None |}.

(* Four cycles, high stress and short nights; 15 January 2024, 10:00
   UTC. *)
Definition stressed_input : Cycle.CycleData :=
  {| Cycle.cycleHistory := [28; 30; 27; 29];
     Cycle.lastPeriodStart := Some 1705312800000%Z;
     Cycle.symptoms := None;
     Cycle.stressLevel := Some 4;
     Cycle.sleepHours := Some 5 |}.

(* No history; 1 March 2024, 15:00 UTC, nine days before the clocks
   change in New York. *)
Definition early_march_input : Cycle.CycleData :=
  {| Cycle.cycleHistory := [];
     Cycle.lastPeriodStart := Some 1709305200000%Z;
     Cycle.symptoms := None;
     Cycle.stressLevel := None;
     Cycle.sleepHours := None |}.

(* The same history as above from 1 March 2024, 15:00 UTC: the
   prediction falls after the clocks change in New York. *)
Definition march_input : Cycle.CycleData :=
  {| Cycle.cycleHistory := [28; 30; 27; 29];
     Cycle.lastPeriodStart := Some 1709305200000%Z;
     Cycle.symptoms := None;
     Cycle.stressLevel := Some 4;
     Cycle.sleepHours := Some 5 |}.

(* One cycle of 40 days and no symptoms reported. *)
Definition long_cycle_input : Cycle.CycleData :=
  {| Cycle.cycleHistory := [40];
     Cycle.lastPeriodStart := Some 1705312800000%Z;
     Cycle.symptoms := None;
     Cycle.stressLevel := None;
     Cycle.sleepHours := None |}.

(* A host without network. *)
Definition offline_host : Api.Host :=
  {| Api.fetch := fun e _ => Api.Throw "Failed to fetch";
     Api.supabase_insert := fun _ => Api.Normal {| Api.insert_error := None |};
     Api.now := 1705312800000%Z |}.

(* A host whose model answers every request, here with a high PCOS
   risk. *)
Definition model_answer : Api.PCOSApiResult :=
  {| Api.api_hasPCOS := true;
     Api.api_riskPercentage := 82;
     Api.api_severity := {| Api.key := "High"; Api.key_not_inherited := eq_refl |};
     Api.api_breakdown :=
       {| PCOS.Breakdown.cycleScore := 2;
          PCOS.Breakdown.hormonalScore := 4;
          PCOS.Breakdown.ultrasoundScore := 2;
          PCOS.Breakdown.metabolicScore := 1 |};
     Api.api_recommendations :=
       Some {| Api.api_diet := ["Low glycemic index diet"];
               Api.api_exercise := ["Daily walk"];
               Api.api_lifestyle := ["Regular sleep"];
               Api.api_doctor := true |} |}.

Definition answering_host : Api.Host :=
  {| Api.fetch := fun e =>
       match e return Api.Body e -> Api.Completion (Api.Response (Api.Payload e)) with
       | Api.predict_pcos => fun _ =>
           Api.Normal {| Api.ok := true;
                         Api.text := Api.Normal "";
                         Api.json := Api.Normal model_answer |}
       | _ => fun _ => Api.Throw "Failed to fetch"
       end;
     Api.supabase_insert := fun _ => Api.Normal {| Api.insert_error := None |};
     Api.now := 1705312800000%Z |}.

Close Scope string_scope.

(** * Further specification-side definitions *)

(** The ten risk factors the PCOS score counts, with their weights in
    half points. *)
Definition PCOS_factors (data : PCOS.PCOSInputData) : list bool :=
  [ negb (PCOS.cycleRegular data);
    PCOS.follicleLeft data + PCOS.follicleRight data >=? 10;
    PCOS.hairGrowth data; PCOS.skinDarkening data;
    PCOS.hairLoss data; PCOS.pimples data;
    PCOS.bmi data >=? 25;
    PCOS.weightGain data; PCOS.fastFood data;
    negb (PCOS.regularExercise data) ].

Definition PCOS_weights : list Z := [4; 4; 2; 2; 2; 2; 2; 1; 1; 1]%Z.

Fixpoint weighted_count (ws : list Z) (bs : list bool) : Z :=
  match ws, bs with
  | w :: ws', b :: bs' => ((if b then w else 0) + weighted_count ws' bs')%Z
  | _, _ => 0%Z
  end.

Definition PCOS_half_points (data : PCOS.PCOSInputData) : Z :=
  weighted_count PCOS_weights (PCOS_factors data).

(** Every factor present in the first list is present in the second. *)
Fixpoint no_fewer (bs bs' : list bool) : bool :=
  match bs, bs' with
  | b :: l, b' :: l' => implb b b' && no_fewer l l'
  | [], [] => true
  | _, _ => false
  end.

Definition severity_rank (s : PCOS.Severity) : Z :=
  match s with
  | PCOS.none => 0
  | PCOS.low => 1
  | PCOS.medium => 2
  | PCOS.high => 3
  end%Z.

(** [riskPercentage], [hasPCOS] and [severity] of [predictPCOS] as
    functions of the total score. *)
Definition PCOS_verdict (total : float) : float * bool * PCOS.Severity :=
  let hasPCOS := total >=? 4 in
  let risk :=
    Math_min 100 (Math_max (if hasPCOS then 30 else 0)
                           (Math_round ((total / 9) * 100))) in
  (risk, hasPCOS,
   if negb hasPCOS then PCOS.none
   else if risk <? 50 then PCOS.low
   else if risk <? 70 then PCOS.medium
   else PCOS.high).

Definition verdict_no_lower (v v' : float * bool * PCOS.Severity) : bool :=
  let '(risk, has, sev) := v in
  let '(risk', has', sev') := v' in
  (risk <=? risk') && implb has has' && (severity_rank sev <=? severity_rank sev')%Z.

(* A regular cycle and one complaint: the total is 1. *)
Definition few_factors_input : PCOS.PCOSInputData :=
  {| PCOS.age := 24; PCOS.weight := 55; PCOS.bmi := 21;
     PCOS.cycleRegular := true; PCOS.cycleLength := 28;
     PCOS.weightGain := false; PCOS.hairGrowth := false;
     PCOS.skinDarkening := false; PCOS.hairLoss := false;
     PCOS.pimples := true; PCOS.fastFood := false;
     PCOS.regularExercise := true; PCOS.follicleLeft := 3;
     PCOS.follicleRight := 4; PCOS.endometrium := 7 |}.

(** The sum of the four menopause scores, as an integer. *)
Definition Menopause_points (data : Menopause.MenopauseInputData) : Z :=
  (integer_of (Menopause.ageScore data) + integer_of (Menopause.hormoneScore data)
   + integer_of (Menopause.symptomScore data) + integer_of (Menopause.periodScore data))%Z.

Definition Menopause_symptoms (data : Menopause.MenopauseInputData) : list bool :=
  [ Menopause.irregularPeriods data; Menopause.missedPeriods data;
    Menopause.hotFlashes data; Menopause.nightSweats data;
    Menopause.sleepProblems data; Menopause.vaginalDryness data;
    Menopause.jointPain data ].

(** The comparisons [predictMenopause] makes on the numbers of its
    input, followed by the symptoms it counts. *)
Definition Menopause_reads (data : Menopause.MenopauseInputData) : list bool :=
  [ Menopause.age data >=? 40; Menopause.age data >=? 45;
    Menopause.age data >=? 50; Menopause.age data >=? 55;
    Menopause.fshLevel data >=? 40; Menopause.fshLevel data >=? 25;
    Menopause.estrogenLevel data <=? 30; Menopause.estrogenLevel data <=? 50;
    Menopause.yearsSinceLastPeriod data >=? 2;
    Menopause.yearsSinceLastPeriod data >=? 1;
    Menopause.yearsSinceLastPeriod data >=? 0.5;
    Menopause.yearsSinceLastPeriod data >? 0 ]
  ++ Menopause_symptoms data.

(** [riskPercentage] of [predictMenopause] as a function of the total. *)
Definition Menopause_risk (total : float) : float :=
  Math_min 100 (Math_max 0 (Math_round ((total / Menopause.maxScore) * 100))).

(* The same woman five years on, two years after her last period. *)
Definition postmenopause_input : Menopause.MenopauseInputData :=
  {| Menopause.age := 57;
     Menopause.estrogenLevel := 18;
     Menopause.fshLevel := 60;
     Menopause.yearsSinceLastPeriod := 2;
     Menopause.irregularPeriods := true;
     Menopause.missedPeriods := true;
     Menopause.hotFlashes := true;
     Menopause.nightSweats := true;
     Menopause.sleepProblems := true;
     Menopause.vaginalDryness := false;
     Menopause.jointPain := true |}.

(* Five cycles of 28 days. *)
Definition steady_input : Cycle.CycleData :=
  {| Cycle.cycleHistory := [28; 28; 28; 28; 28];
     Cycle.lastPeriodStart := Some 1705312800000%Z;
     Cycle.symptoms := None;
     Cycle.stressLevel := Some 2;
     Cycle.sleepHours := Some 8 |}.

(* A history whose latest entry is not a number. *)
Definition gap_input : Cycle.CycleData :=
  {| Cycle.cycleHistory := [28; 30; nan];
     Cycle.lastPeriodStart := Some 1705312800000%Z;
     Cycle.symptoms := None;
     Cycle.stressLevel := None;
     Cycle.sleepHours := None |}.

Definition Row_user_id (row : Api.Row) : string :=
  match row with
  | Api.PCOSAssessment u _ _ _ _ _ => u
  | Api.MenopauseAssessment u _ _ _ _ _ => u
  | Api.CyclePredictionRow u _ _ _ => u
  end.







(** The rows that record a result for the user [u]. *)
Definition PCOS_row (u : string) (data : PCOS.PCOSInputData) (r : PCOS.PCOSResult)
    (now : Z) : Api.Row :=
  Api.PCOSAssessment u (PCOS.riskPercentage r)
    match PCOS.severity r with
    | PCOS.medium => Api.risk_medium
    | PCOS.high => Api.risk_high
    | _ => Api.risk_low
    end
    data (PCOS.recommendations r) now.

Definition Menopause_row (u : string) (data : Menopause.MenopauseInputData)
    (r : Menopause.MenopauseResult) (now : Z) : Api.Row :=
  Api.MenopauseAssessment u (Menopause.riskPercentage r)
    (if Menopause.riskPercentage r <? 40 then Api.risk_low
     else if Menopause.riskPercentage r <? 70 then Api.risk_medium
     else Api.risk_high)
    data (Menopause.recommendations r) now.

Definition Cycle_row (u : string) (r : Cycle.CyclePrediction) (now : Z) : Api.Row :=
  Api.CyclePredictionRow u
    match Cycle.predictedStartDate r with
    | Some t => Day t
    | None => 0%Z
    end
    (Cycle.confidenceLevel r) now.

(** At most one insertion is asked for, and only for a user id that is
    given and not empty, which the row carries. *)
Definition one_row_for (userId : option string) (rows : list Api.Row) : Prop :=
  rows = [] \/
  exists row u,
    rows = [row] /\ userId = Some u /\ u <> EmptyString /\ Row_user_id row = u.

(* A host whose model answers and whose database refuses every row. *)
Definition refusing_host : Api.Host :=
  {| Api.fetch := Api.fetch answering_host;
     Api.supabase_insert := fun _ =>
       Api.Normal {| Api.insert_error := Some "new row violates row-level security policy"%string |};
     Api.now := 1705312800000%Z |}.

(* Cycles that swing between three and seven weeks. *)
Definition erratic_input : Cycle.CycleData :=
  {| Cycle.cycleHistory := [21; 49; 24; 45];
     Cycle.lastPeriodStart := Some 1705312800000%Z;
     Cycle.symptoms := None;
     Cycle.stressLevel := None;
     Cycle.sleepHours := None |}.

(** * Theorems *)

(** Case analysis over the conditions of a score and over the members of
    a list of values. *)
Ltac pick_member :=
  repeat first [ left; reflexivity | right ].

Ltac split_if_conditions :=
  repeat match goal with
         | |- context [if ?c then _ else _] => destruct c
         end.

Ltac each_member H :=
  simpl In in H; repeat (destruct H as [<- | H]); [ .. | contradiction ].

(** ** The model at work *)

Example Math_round_ties :
  (Math_round 2.5, Math_round (-2.5), Math_round (-0.5)) = (3, -2, -0).
Proof. reflexivity. Qed.

Example predictPCOS_every_factor :
  let r := PCOS.predictPCOS every_factor_input in
  (PCOS.totalScore every_factor_input, PCOS.hasPCOS r, PCOS.riskPercentage r,
   PCOS.severity r)
  = (10.5, true, 100, PCOS.high).
Proof. vm_compute. reflexivity. Qed.

Example predictMenopause_perimenopause :
  let r := Menopause.predictMenopause perimenopause_input in
  (Menopause.stage r, Menopause.riskPercentage r, Menopause.hasMenopauseSymptoms r)
  = (Menopause.Peri_Menopause, 68, true).
Proof. vm_compute. reflexivity. Qed.

(* 15 January plus 29 + 3 days is 16 February, at the same time of day. *)
Example predictNextCycle_stressed :
  let r := Cycle.predictNextCycle kolkata stressed_input in
  (Cycle.predictedStartDate r, Cycle.confidenceLevel r, Cycle.averageCycleLength r,
   Cycle.isIrregular r, Cycle.pcosRiskFlag r, Cycle.delayAdjustment r)
  = (Some (1705312800000 + 32 * 86400000)%Z, Cycle.high, 29, false, Some false, 3).
Proof. vm_compute. reflexivity. Qed.

Example predictPCOSFromAPI_answered :
  let out := Api.predictPCOSFromAPI answering_host every_factor_input (Some "user-1"%string) in
  (List.length (fst out), Api.usedAPI (Api._meta (snd out)),
   PCOS.severity (Api.spread (snd out)), PCOS.riskPercentage (Api.spread (snd out)))
  = (1%nat, true, PCOS.high, 82).
Proof. vm_compute. reflexivity. Qed.

(** ** The PCOS score *)

Lemma PCOS_totalScore_values (data : PCOS.PCOSInputData) :
  In (PCOS.totalScore data) half_scores.
Proof.
  unfold PCOS.totalScore, PCOS.cycleScore, PCOS.ultrasoundScore,
    PCOS.hormonalScore, PCOS.metabolicScore, PCOS.lifestyleScore.
  split_if_conditions; vm_compute; pick_member.
Qed.

Ltac by_total_score data :=
  unfold PCOS.predictPCOS;
  cbn [PCOS.severity PCOS.hasPCOS PCOS.riskPercentage];
  generalize (PCOS_totalScore_values data);
  generalize (PCOS.totalScore data);
  unfold half_scores; simpl In;
  intros t Ht;
  repeat (destruct Ht as [<- | Ht]); [ .. | contradiction ].

(** C1: the severity returned by [predictPCOS] is ['none'] exactly when
    [hasPCOS] is false; when [hasPCOS] is true it is ['low'] exactly
    when [riskPercentage] is below 50, ['medium'] exactly when it is at
    least 50 and below 70, and ['high'] exactly when it is at least
    70. *)
Theorem predictPCOS_severity_buckets (data : PCOS.PCOSInputData) :
  let r := PCOS.predictPCOS data in
  (PCOS.severity r = PCOS.none <-> PCOS.hasPCOS r = false) /\
  (PCOS.severity r = PCOS.low <->
     PCOS.hasPCOS r = true /\ (PCOS.riskPercentage r <? 50) = true) /\
  (PCOS.severity r = PCOS.medium <->
     PCOS.hasPCOS r = true /\
     (PCOS.riskPercentage r >=? 50) = true /\ (PCOS.riskPercentage r <? 70) = true) /\
  (PCOS.severity r = PCOS.high <->
     PCOS.hasPCOS r = true /\ (PCOS.riskPercentage r >=? 70) = true).
Proof.
  intro r; subst r.
  by_total_score data;
    vm_compute; repeat split; intros; intuition congruence.
Qed.

(** C2: [predictPCOS] computes the weighted total
    2·irregular + 2·(follicles >= 10) + (number of hormonal symptoms)
    + (bmi >= 25) + 0.5 per lifestyle factor, reports [hasPCOS] exactly
    when the total is at least 4, and returns as [riskPercentage] the
    rounding of total/9·100, raised to 30 when [hasPCOS] holds and
    capped at 100.  The total and the percentage of the program, computed
    on binary64 numbers, are the values of exact rational arithmetic. *)
Theorem predictPCOS_weighted_total (data : PCOS.PCOSInputData) :
  let r := PCOS.predictPCOS data in
  PCOS.totalScore data = Q2f (spec_PCOS_total data) /\
  (PCOS.hasPCOS r = true <-> (4 <= spec_PCOS_total data)%Q) /\
  PCOS.riskPercentage r = Z2f (spec_PCOS_risk data).
Proof.
  intro r; subst r.
  assert (Hle : forall b, Qle_bool 4 (spec_PCOS_total data) = b ->
                (b = true <-> (4 <= spec_PCOS_total data)%Q)).
  { intros b <-. apply Qle_bool_iff. }
  specialize (Hle _ eq_refl). revert Hle.
  generalize (4 <= spec_PCOS_total data)%Q.
  unfold PCOS.predictPCOS, spec_PCOS_risk, spec_PCOS_hasPCOS.
  cbn [PCOS.hasPCOS PCOS.riskPercentage].
  unfold spec_PCOS_total, PCOS.totalScore, PCOS.cycleScore, PCOS.ultrasoundScore,
    PCOS.hormonalScore, PCOS.metabolicScore, PCOS.lifestyleScore,
    PCOS.totalFollicles.
  destruct (PCOS.cycleRegular data), (PCOS.hairGrowth data),
    (PCOS.skinDarkening data), (PCOS.hairLoss data), (PCOS.pimples data),
    (PCOS.weightGain data), (PCOS.fastFood data), (PCOS.regularExercise data),
    (PCOS.bmi data >=? 25),
    (PCOS.follicleLeft data + PCOS.follicleRight data >=? 10);
    vm_compute; intros P HP; (split; [ reflexivity | split; [ tauto | reflexivity ] ]).
Qed.

(** ** The menopause score *)

(** C4: the stage is ['Post-Menopause'] exactly when
    [yearsSinceLastPeriod >= 1]; otherwise ['Peri-Menopause'] exactly
    when [age >= 40] and one of [irregularPeriods], [missedPeriods],
    [hotFlashes] holds; otherwise ['Pre-Menopause']; and
    [hasMenopauseSymptoms] is true exactly when the stage is not
    ['Pre-Menopause']. *)
Theorem predictMenopause_stage_rule (data : Menopause.MenopauseInputData) :
  let r := Menopause.predictMenopause data in
  let perimenopausal :=
    (Menopause.age data >=? 40) = true /\
    (Menopause.irregularPeriods data = true \/
     Menopause.missedPeriods data = true \/
     Menopause.hotFlashes data = true) in
  (Menopause.stage r = Menopause.Post_Menopause <->
     (Menopause.yearsSinceLastPeriod data >=? 1) = true) /\
  (Menopause.stage r = Menopause.Peri_Menopause <->
     (Menopause.yearsSinceLastPeriod data >=? 1) = false /\ perimenopausal) /\
  (Menopause.stage r = Menopause.Pre_Menopause <->
     (Menopause.yearsSinceLastPeriod data >=? 1) = false /\ ~ perimenopausal) /\
  (Menopause.hasMenopauseSymptoms r = true <->
     Menopause.stage r <> Menopause.Pre_Menopause).
Proof.
  intros r perimenopausal; subst r perimenopausal.
  unfold Menopause.predictMenopause.
  cbn [Menopause.stage Menopause.hasMenopauseSymptoms].
  unfold Menopause.stage_of.
  destruct (Menopause.yearsSinceLastPeriod data >=? 1),
    (Menopause.age data >=? 40),
    (Menopause.irregularPeriods data), (Menopause.missedPeriods data),
    (Menopause.hotFlashes data);
    cbn; intuition congruence.
Qed.

Lemma Menopause_ageScore_values data :
  In (Menopause.ageScore data) [0; 1; 2; 3; 4].
Proof.
  unfold Menopause.ageScore. split_if_conditions; vm_compute; pick_member.
Qed.

Lemma Menopause_hormoneScore_values data :
  In (Menopause.hormoneScore data) [0; 1; 2; 3; 4].
Proof.
  unfold Menopause.hormoneScore. split_if_conditions; vm_compute; pick_member.
Qed.

Lemma Menopause_symptomScore_values data :
  In (Menopause.symptomScore data) [0; 1; 2; 3; 4; 5; 6; 7].
Proof.
  unfold Menopause.symptomScore. split_if_conditions; vm_compute; pick_member.
Qed.

Lemma Menopause_periodScore_values data :
  In (Menopause.periodScore data) [0; 1; 2; 3; 4].
Proof.
  unfold Menopause.periodScore. split_if_conditions; vm_compute; pick_member.
Qed.

Lemma Menopause_totalScore_values data :
  In (Menopause.totalScore data)
     [0; 1; 2; 3; 4; 5; 6; 7; 8; 9; 10; 11; 12; 13; 14; 15; 16; 17; 18; 19].
Proof.
  unfold Menopause.totalScore.
  generalize (Menopause_ageScore_values data), (Menopause_hormoneScore_values data),
    (Menopause_symptomScore_values data), (Menopause_periodScore_values data).
  generalize (Menopause.ageScore data), (Menopause.hormoneScore data),
    (Menopause.symptomScore data), (Menopause.periodScore data).
  intros a h s p Ha Hh Hs Hp.
  each_member Ha; each_member Hh; each_member Hs; each_member Hp;
    vm_compute; pick_member.
Qed.

(** C8: the [riskPercentage] of [predictPCOS] is an integer between 0
    and 100, at least 30 whenever [hasPCOS] is true; the
    [riskPercentage] of [predictMenopause] is an integer between 0 and
    100; and there is an input whose PCOS total exceeds 9, the
    unclamped percentage being above 100. *)
Theorem riskPercentage_bounds :
  (forall data : PCOS.PCOSInputData,
     let r := PCOS.predictPCOS data in
     exists n : Z,
       PCOS.riskPercentage r = Z2f n /\
       ((if PCOS.hasPCOS r then 30 else 0) <= n <= 100)%Z) /\
  (forall data : Menopause.MenopauseInputData,
     exists n : Z,
       Menopause.riskPercentage (Menopause.predictMenopause data) = Z2f n /\
       (0 <= n <= 100)%Z) /\
  (exists data : PCOS.PCOSInputData,
     (PCOS.totalScore data >? 9) = true /\
     (Math_round ((PCOS.totalScore data / 9) * 100) >? 100) = true).
Proof.
  split; [ | split ].
  - intros data r; subst r.
    exists (integer_of (PCOS.riskPercentage (PCOS.predictPCOS data))).
    by_total_score data;
      vm_compute; (split; [ reflexivity | split; intro H; discriminate H ]).
  - intros data.
    exists (integer_of (Menopause.riskPercentage (Menopause.predictMenopause data))).
    unfold Menopause.predictMenopause. cbn [Menopause.riskPercentage].
    generalize (Menopause_totalScore_values data).
    generalize (Menopause.totalScore data). intros t Ht.
    each_member Ht;
      vm_compute; (split; [ reflexivity | split; intro H; discriminate H ]).
  - exists every_factor_input. vm_compute. split; reflexivity.
Qed.

(** ** Binary64 rounding

    Facts about the rounding of the standard library's specification of
    binary64 arithmetic ([SpecFloat]), which the primitive operations
    follow: sums of integers below [2^53] are exact, and a sum with a
    number of at least [2^44] stays that large. *)

Section BinaryRounding.

Open Scope Z_scope.

Lemma digits2_pos_size p : digits2_pos p = Pos.size p.
Proof. induction p; cbn; congruence. Qed.

Lemma Zdigits2_log2 p : Zdigits2 (Zpos p) = Z.log2 (Zpos p) + 1.
Proof.
  cbn [Zdigits2]. rewrite digits2_pos_size.
  destruct p; cbn; lia.
Qed.

Lemma iter_xO_mul m d : Zpos (Pos.iter xO m d) = Zpos m * 2 ^ Zpos d.
Proof.
  induction d using Pos.peano_ind.
  - cbn. lia.
  - rewrite Pos.iter_succ, Pos2Z.inj_succ, Z.pow_succ_r by lia.
    rewrite Pos2Z.inj_xO, IHd. lia.
Qed.

Lemma shl_align_fst m e e' :
  e' <= e -> Zpos (fst (shl_align m e e')) = Zpos m * 2 ^ (e - e').
Proof.
  intros H. unfold shl_align.
  destruct (e' - e) as [ | p | p ] eqn:E; cbn [fst]; try lia.
  - replace (e - e') with 0 by lia. lia.
  - rewrite iter_xO_mul. f_equal. f_equal. lia.
Qed.

Lemma shl_align_spec m e e' :
  shl_align m e e' =
  if e' <? e then (Z.to_pos (Zpos m * 2 ^ (e - e')), e') else (m, e).
Proof.
  unfold shl_align. destruct (Z.ltb_spec e' e).
  - destruct (e' - e) as [ | p | p ] eqn:E; try lia.
    f_equal. apply Pos2Z.inj. rewrite iter_xO_mul.
    replace (e - e') with (Zpos p) by lia.
    rewrite Z2Pos.id; [ reflexivity | ].
    apply Z.mul_pos_pos; [ lia | apply Z.pow_pos_nonneg; lia ].
  - destruct (e' - e) as [ | p | p ] eqn:E; try lia; reflexivity.
Qed.

Lemma shr_1_floor r : 0 <= shr_m r -> shr_m (shr_1 r) = shr_m r / 2 /\ 0 <= shr_m (shr_1 r).
Proof.
  destruct r as [m r s]. cbn [shr_m]. intros H.
  destruct m as [ | p | p ]; try lia; cbn.
  - split; reflexivity || lia.
  - destruct p; cbn [shr_m].
    + rewrite Pos2Z.inj_xI. split; [ | lia ].
      apply Z.div_unique with 1; lia.
    + rewrite Pos2Z.inj_xO. split; [ | lia ].
      apply Z.div_unique with 0; lia.
    + split; reflexivity || lia.
Qed.

Lemma pow2_xO p : 2 ^ Zpos p~0 = 2 ^ Zpos p * 2 ^ Zpos p.
Proof. rewrite Pos2Z.inj_xO, <- Z.pow_add_r by lia. f_equal. lia. Qed.

Lemma pow2_xI p : 2 ^ Zpos p~1 = 2 * (2 ^ Zpos p * 2 ^ Zpos p).
Proof.
  rewrite <- pow2_xO.
  replace (Zpos p~1) with (Z.succ (Zpos p~0)) by lia.
  apply Z.pow_succ_r. lia.
Qed.

Lemma pow2_pos n : 0 <= n -> 0 < 2 ^ n.
Proof. intros. apply Z.pow_pos_nonneg; lia. Qed.

Lemma iter_shr_floor p : forall r, 0 <= shr_m r ->
  shr_m (iter_pos shr_1 p r) = shr_m r / 2 ^ Zpos p /\ 0 <= shr_m (iter_pos shr_1 p r).
Proof.
  induction p as [ p IH | p IH | ]; intros r Hr; cbn [iter_pos].
  - destruct (shr_1_floor r Hr) as [E1 H1].
    destruct (IH _ H1) as [E2 H2]. destruct (IH _ H2) as [E3 H3].
    split; [ | exact H3 ]. rewrite E3, E2, E1, pow2_xI.
    pose proof (pow2_pos (Zpos p) ltac:(lia)).
    rewrite !Z.div_div by lia. reflexivity.
  - destruct (IH _ Hr) as [E2 H2]. destruct (IH _ H2) as [E3 H3].
    split; [ | exact H3 ]. rewrite E3, E2, pow2_xO.
    pose proof (pow2_pos (Zpos p) ltac:(lia)).
    rewrite Z.div_div by lia. reflexivity.
  - destruct (shr_1_floor r Hr) as [E1 H1]. split; [ | exact H1 ].
    rewrite E1. reflexivity.
Qed.

(* exact shifts *)
Lemma shr_1_even m : 0 <= m -> Z.even m = true -> shr_1 (rec0 m) = rec0 (m / 2).
Proof.
  intros H E. destruct m as [ | p | p ]; try lia.
  - reflexivity.
  - destruct p; try discriminate E. cbn. unfold rec0. f_equal.
    rewrite Pos2Z.inj_xO. apply Z.div_unique with 0; lia.
Qed.

Lemma divide_even m n : 0 < n -> (2 ^ n | m) -> Z.even m = true.
Proof.
  intros Hn [q ->]. replace n with (Z.succ (n - 1)) by lia.
  rewrite Z.pow_succ_r by lia. rewrite Z.even_mul, Z.even_mul. cbn. apply orb_true_r.
Qed.

Lemma divide_half m n : 0 < n -> (2 ^ n | m) -> (2 ^ (n - 1) | m / 2).
Proof.
  intros Hn [q ->]. exists q. replace n with (Z.succ (n - 1)) at 1 by lia.
  rewrite Z.pow_succ_r by lia.
  replace (q * (2 * 2 ^ (n - 1))) with (q * 2 ^ (n - 1) * 2) by lia.
  apply Z.div_mul. lia.
Qed.

Lemma iter_shr_exact p : forall m, 0 <= m -> (2 ^ Zpos p | m) ->
  iter_pos shr_1 p (rec0 m) = rec0 (m / 2 ^ Zpos p).
Proof.
  induction p as [ p IH | p IH | ]; intros m Hm Hd; cbn [iter_pos].
  - pose proof (pow2_pos (Zpos p) ltac:(lia)) as Hp.
    rewrite shr_1_even;
      [ | exact Hm | apply (divide_even m (Zpos p~1)); [ lia | exact Hd ] ].
    assert (H1 : (2 ^ (Zpos p + Zpos p) | m / 2)).
    { replace (Zpos p + Zpos p) with (Zpos p~1 - 1) by lia. apply divide_half; [ lia | exact Hd ]. }
    rewrite Z.pow_add_r in H1 by lia.
    assert (H2 : (2 ^ Zpos p | m / 2)).
    { destruct H1 as [q Hq]. exists (q * 2 ^ Zpos p). lia. }
    rewrite IH by (try exact H2; apply Z.div_pos; lia).
    assert (H3 : (2 ^ Zpos p | m / 2 / 2 ^ Zpos p)).
    { destruct H1 as [q Hq]. exists q. rewrite Hq.
      replace (q * (2 ^ Zpos p * 2 ^ Zpos p)) with (q * 2 ^ Zpos p * 2 ^ Zpos p) by lia.
      rewrite Z.div_mul by lia. reflexivity. }
    rewrite IH by (try exact H3; apply Z.div_pos; try lia; apply Z.div_pos; lia).
    rewrite pow2_xI, !Z.div_div by lia. reflexivity.
  - pose proof (pow2_pos (Zpos p) ltac:(lia)) as Hp.
    rewrite pow2_xO in Hd.
    assert (H2 : (2 ^ Zpos p | m)).
    { destruct Hd as [q Hq]. exists (q * 2 ^ Zpos p). lia. }
    rewrite IH by assumption.
    assert (H3 : (2 ^ Zpos p | m / 2 ^ Zpos p)).
    { destruct Hd as [q Hq]. exists q. rewrite Hq.
      replace (q * (2 ^ Zpos p * 2 ^ Zpos p)) with (q * 2 ^ Zpos p * 2 ^ Zpos p) by lia.
      rewrite Z.div_mul by lia. reflexivity. }
    rewrite IH by (try exact H3; apply Z.div_pos; lia).
    rewrite pow2_xO, Z.div_div by lia. reflexivity.
  - apply shr_1_even; [ exact Hm | ]. eapply divide_even; [ | exact Hd ]. lia.
Qed.

Lemma fexp64_eq e : fexp prec emax e = Z.max (e - 53) (-1074).
Proof. reflexivity. Qed.

Lemma shr_fexp_exact M e :
  0 < M ->
  let f := fexp prec emax (Zdigits2 M + e) in
  e <= f -> (2 ^ (f - e) | M) ->
  shr_fexp prec emax M e loc_Exact = (rec0 (M / 2 ^ (f - e)), f).
Proof.
  intros HM f Hef Hd. unfold shr_fexp. fold f. cbn [shr_record_of_loc].
  unfold shr. destruct (f - e) as [ | p | p ] eqn:E; try lia.
  - replace f with e by lia. f_equal. unfold rec0. f_equal.
    change (2 ^ 0) with 1. now rewrite Z.div_1_r.
  - fold (rec0 M). rewrite iter_shr_exact by (try exact Hd; lia).
    f_equal. lia.
Qed.

Lemma digits_exact_div M n :
  0 < M -> 0 <= n -> (2 ^ n | M) ->
  0 < M / 2 ^ n /\ Zdigits2 (M / 2 ^ n) = Zdigits2 M - n.
Proof.
  intros HM Hn [q Hq]. pose proof (pow2_pos n Hn) as Hp.
  assert (Hq0 : 0 < q) by nia.
  rewrite Hq, Z.div_mul by lia. split; [ exact Hq0 | ].
  destruct q as [ | q | q ]; try lia.
  assert (Hpos : 0 < Zpos q * 2 ^ n) by nia.
  destruct (Zpos q * 2 ^ n) as [ | r | r ] eqn:Er; try lia.
  rewrite !Zdigits2_log2, <- Er, Z.log2_mul_pow2 by lia. lia.
Qed.

Lemma binary_round_aux_exact s M e :
  0 < M ->
  let f := fexp prec emax (Zdigits2 M + e) in
  e <= f -> (2 ^ (f - e) | M) -> f <= 971 ->
  binary_round_aux prec emax s M e loc_Exact
  = S754_finite s (Z.to_pos (M / 2 ^ (f - e))) f.
Proof.
  intros HM f Hef Hd Hf. unfold binary_round_aux.
  rewrite (shr_fexp_exact M e HM Hef Hd). fold f.
  cbn [rec0 shr_m loc_of_shr_record round_nearest_even].
  destruct (digits_exact_div M (f - e) HM ltac:(lia) Hd) as [Hq Hdig].
  set (m := M / 2 ^ (f - e)) in *.
  assert (Hfm : fexp prec emax (Zdigits2 m + f) = f).
  { rewrite Hdig. replace (Zdigits2 M - (f - e) + f) with (Zdigits2 M + e) by lia.
    reflexivity. }
  pose proof (shr_fexp_exact m f Hq) as H. cbv zeta in H. rewrite Hfm in H.
  rewrite Z.sub_diag in H. change (2 ^ 0) with 1 in H. rewrite Z.div_1_r in H.
  rewrite H by (try lia; exists m; lia).
  cbn [rec0 shr_m]. destruct m as [ | p | p ]; try lia.
  cbn [Z.to_pos].
  change (emax - prec) with 971. destruct (Z.leb_spec f 971); [ reflexivity | lia ].
Qed.

Lemma binary_round_int s v k :
  0 < v < 2 ^ 53 -> 0 <= k ->
  let d := Z.log2 v + 1 in
  binary_round prec emax s (Z.to_pos (v * 2 ^ k)) (- k)
  = S754_finite s (Z.to_pos (v * 2 ^ (53 - d))) (d - 53).
Proof.
  intros Hv Hk d. pose proof (pow2_pos k Hk) as Hp.
  assert (Hd : 1 <= d <= 53).
  { subst d. pose proof (Z.log2_nonneg v). 
    assert (Z.log2 v < 53) by (apply Z.log2_lt_pow2; lia). lia. }
  assert (HM : 0 < v * 2 ^ k) by nia.
  unfold binary_round.
  assert (Hdig : Zpos (digits2_pos (Z.to_pos (v * 2 ^ k))) + - k = d).
  { change (Zpos (digits2_pos ?p)) with (Zdigits2 (Zpos p)).
    rewrite Z2Pos.id by exact HM.
    destruct (v * 2 ^ k) as [ | r | r ] eqn:Er; try lia.
    rewrite Zdigits2_log2, <- Er, Z.log2_mul_pow2 by lia. subst d. lia. }
  rewrite Hdig, shl_align_spec, fexp64_eq.
  replace (Z.max (d - 53) (-1074)) with (d - 53) by lia.
  destruct (Z.ltb_spec (d - 53) (- k)) as [Hlt | Hge].
  - rewrite !Z2Pos.id by (try apply Z.mul_pos_pos; try apply pow2_pos; lia).
    assert (E : v * 2 ^ k * 2 ^ (- k - (d - 53)) = v * 2 ^ (53 - d)).
    { rewrite <- Z.mul_assoc, <- Z.pow_add_r by lia. do 2 f_equal. lia. }
    rewrite E.
    assert (HM' : 0 < v * 2 ^ (53 - d)) by (pose proof (pow2_pos (53 - d)); nia).
    pose proof (binary_round_aux_exact s (v * 2 ^ (53 - d)) (d - 53) HM') as H.
    cbv zeta in H.
    assert (Hf : fexp prec emax (Zdigits2 (v * 2 ^ (53 - d)) + (d - 53)) = d - 53).
    { destruct (v * 2 ^ (53 - d)) as [ | r | r ] eqn:Er; try lia.
      rewrite Zdigits2_log2, <- Er, Z.log2_mul_pow2, fexp64_eq by lia. subst d. lia. }
    rewrite Hf, Z.sub_diag in H. change (2 ^ 0) with 1 in H.
    rewrite Z.div_1_r in H. apply H; try lia. exists (v * 2 ^ (53 - d)). lia.
  - rewrite Z2Pos.id by exact HM.
    pose proof (binary_round_aux_exact s (v * 2 ^ k) (- k) HM) as H.
    cbv zeta in H.
    assert (Hf : fexp prec emax (Zdigits2 (v * 2 ^ k) + - k) = d - 53).
    { destruct (v * 2 ^ k) as [ | r | r ] eqn:Er; try lia.
      rewrite Zdigits2_log2, <- Er, Z.log2_mul_pow2, fexp64_eq by lia. subst d. lia. }
    rewrite Hf in H.
    assert (E : v * 2 ^ k / 2 ^ (d - 53 - - k) = v * 2 ^ (53 - d)).
    { replace k with ((53 - d) + (d - 53 - - k)) at 1 by lia.
      rewrite Z.pow_add_r, Z.mul_assoc by lia.
      apply Z.div_mul. pose proof (pow2_pos (d - 53 - - k)). lia. }
    rewrite E in H. apply H; try lia.
    exists (v * 2 ^ (53 - d)). rewrite <- Z.mul_assoc, <- Z.pow_add_r by lia.
    do 2 f_equal. lia.
Qed.

Lemma SFinteger_round s v k :
  0 < v < 2 ^ 53 -> 0 <= k ->
  SFinteger (binary_round prec emax s (Z.to_pos (v * 2 ^ k)) (- k))
            (if s then - v else v).
Proof.
  intros Hv Hk. rewrite binary_round_int by assumption.
  assert (Hd : 1 <= Z.log2 v + 1 <= 53).
  { pose proof (Z.log2_nonneg v).
    assert (Z.log2 v < 53) by (apply Z.log2_lt_pow2; lia). lia. }
  cbn [SFinteger]. split; [ lia | ]. split.
  - rewrite Z2Pos.id by (pose proof (pow2_pos (53 - (Z.log2 v + 1))); nia).
    replace (Z.abs (if s then - v else v)) with v by (destruct s; lia).
    do 2 f_equal. lia.
  - destruct s; lia.
Qed.

Lemma SFadd_exact x y vx vy :
  SFinteger x vx -> SFinteger y vy -> Z.abs (vx + vy) < 2 ^ 53 ->
  SFinteger (SF64add x y) (vx + vy).
Proof.
  destruct x as [ sx | sx | | sx mx ex ], y as [ sy | sy | | sy my ey ];
    cbn [SFinteger]; try contradiction.
  - intros -> -> _. destruct sx, sy; reflexivity.
  - intros -> H _. exact H.
  - intros H -> _. rewrite Z.add_0_r. exact H.
  - intros (Hex & Hmx & Hsx) (Hey & Hmy & Hsy) Hsum.
    unfold SF64add, SFadd.
    set (ez := Z.min ex ey).
    pose proof (shl_align_fst mx ex ez ltac:(lia)) as Ex.
    pose proof (shl_align_fst my ey ez ltac:(lia)) as Ey.
    rewrite Ex, Ey, Hmx, Hmy.
    rewrite <- !Z.mul_assoc, <- !Z.pow_add_r by lia.
    replace (- ex + (ex - ez)) with (- ez) by lia.
    replace (- ey + (ey - ez)) with (- ez) by lia.
    pose proof (pow2_pos (- ez) ltac:(lia)) as Hp.
    assert (E : cond_Zopp sx (Z.abs vx * 2 ^ (- ez)) + cond_Zopp sy (Z.abs vy * 2 ^ (- ez))
                = (vx + vy) * 2 ^ (- ez)).
    { unfold cond_Zopp. destruct sx, sy; lia. }
    rewrite E. unfold binary_normalize.
    destruct ((vx + vy) * 2 ^ (- ez)) as [ | p | p ] eqn:Ep.
    + cbn [SFinteger]. nia.
    + assert (Hv : 0 < vx + vy) by nia.
      pose proof (SFinteger_round false (vx + vy) (- ez) ltac:(lia) ltac:(lia)) as H.
      rewrite Ep, Z.opp_involutive in H. exact H.
    + assert (Hv : vx + vy < 0) by nia.
      pose proof (SFinteger_round true (- (vx + vy)) (- ez) ltac:(lia) ltac:(lia)) as H.
      replace (- (vx + vy) * 2 ^ (- ez)) with (- ((vx + vy) * 2 ^ (- ez))) in H by lia.
      rewrite Ep, !Z.opp_involutive in H. exact H.
Qed.

(** Lower bounds on the exponent of a rounded sum *)

Lemma shr_fexp_floor M e l :
  0 < M ->
  let f := fexp prec emax (Zdigits2 M + e) in
  exists r, shr_fexp prec emax M e l = (r, Z.max e f) /\
            shr_m r = M / 2 ^ Z.max 0 (f - e).
Proof.
  intros HM f. unfold shr_fexp. fold f.
  assert (Hr : shr_m (shr_record_of_loc M l) = M)
    by (destruct l as [ | [ | | ] ]; reflexivity).
  unfold shr. destruct (f - e) as [ | p | p ] eqn:E.
  - exists (shr_record_of_loc M l). split; [ f_equal; lia | ].
    rewrite Hr. cbn. now rewrite Z.div_1_r.
  - exists (iter_pos shr_1 p (shr_record_of_loc M l)). split; [ f_equal; lia | ].
    destruct (iter_shr_floor p (shr_record_of_loc M l)) as [H _]; [ rewrite Hr; lia | ].
    rewrite H, Hr. do 2 f_equal.
  - exists (shr_record_of_loc M l). split; [ f_equal; lia | ].
    rewrite Hr. cbn. now rewrite Z.div_1_r.
Qed.

Lemma Zdigits2_pos_log2 M : 0 < M -> Zdigits2 M = Z.log2 M + 1.
Proof. destruct M as [ | p | p ]; try lia. intros _. apply Zdigits2_log2. Qed.

Lemma shifted_pos M e :
  0 < M -> -1073 <= Zdigits2 M + e ->
  0 < M / 2 ^ Z.max 0 (fexp prec emax (Zdigits2 M + e) - e).
Proof.
  intros HM Hd. rewrite fexp64_eq.
  rewrite Zdigits2_pos_log2 in * by exact HM.
  pose proof (Z.log2_nonneg M) as Hl.
  set (n := Z.max 0 _).
  assert (Hn : 0 <= n <= Z.log2 M) by (subst n; lia).
  apply Z.div_str_pos. split; [ apply pow2_pos; lia | ].
  transitivity (2 ^ Z.log2 M).
  - apply Z.pow_le_mono_r; lia.
  - apply Z.log2_spec. exact HM.
Qed.

Lemma round_nearest_even_bounds m l :
  m <= round_nearest_even m l <= m + 1.
Proof.
  destruct l as [ | [ | | ] ]; cbn; try lia. destruct (Z.even m); lia.
Qed.

Lemma binary_round_aux_big s M e l :
  0 < M -> -1073 <= Zdigits2 M + e ->
  binary_round_aux prec emax s M e l = S754_infinity s \/
  exists m' e', binary_round_aux prec emax s M e l = S754_finite s m' e' /\
                Z.max e (fexp prec emax (Zdigits2 M + e)) <= e'.
Proof.
  intros HM Hd. unfold binary_round_aux.
  destruct (shr_fexp_floor M e l HM) as (r1 & E1 & Hr1). rewrite E1.
  pose proof (shifted_pos M e HM Hd) as Hm1. rewrite <- Hr1 in Hm1.
  set (e1 := Z.max e _) in *.
  pose proof (round_nearest_even_bounds (shr_m r1) (loc_of_shr_record r1)) as Hrne.
  set (m2 := round_nearest_even _ _) in *.
  assert (Hm2 : 0 < m2) by lia.
  assert (He1 : -1074 <= e1) by (subst e1; rewrite fexp64_eq; lia).
  assert (Hd2 : -1073 <= Zdigits2 m2 + e1).
  { rewrite Zdigits2_pos_log2 by exact Hm2. pose proof (Z.log2_nonneg m2). lia. }
  destruct (shr_fexp_floor m2 e1 loc_Exact Hm2) as (r2 & E2 & Hr2). rewrite E2.
  pose proof (shifted_pos m2 e1 Hm2 Hd2) as Hm3. rewrite <- Hr2 in Hm3.
  destruct (shr_m r2) as [ | p | p ]; try lia.
  destruct (Z.leb _ (emax - prec)); [ right | now left ].
  eexists _, _. split; [ reflexivity | lia ].
Qed.

Lemma binary_round_big s (M : positive) e :
  -1073 <= Zdigits2 (Zpos M) + e ->
  binary_round prec emax s M e = S754_infinity s \/
  exists m' e', binary_round prec emax s M e = S754_finite s m' e' /\
                fexp prec emax (Zdigits2 (Zpos M) + e) <= e'.
Proof.
  intros Hd. unfold binary_round.
  change (Zpos (digits2_pos M)) with (Zdigits2 (Zpos M)).
  set (f := fexp prec emax _). rewrite shl_align_spec.
  destruct (Z.ltb_spec f e) as [Hlt | Hge].
  - assert (HM1 : 0 < Zpos M * 2 ^ (e - f)) by (pose proof (pow2_pos (e - f)); nia).
    rewrite Z2Pos.id by exact HM1.
    assert (Hdig : Zdigits2 (Zpos M * 2 ^ (e - f)) + f = Zdigits2 (Zpos M) + e).
    { rewrite (Zdigits2_pos_log2 _ HM1), Zdigits2_log2, Z.log2_mul_pow2 by lia. lia. }
    destruct (binary_round_aux_big s _ f loc_Exact HM1) as [H | (m' & e' & H & He)].
    + rewrite Hdig. exact Hd.
    + now left.
    + right. exists m', e'. split; [ exact H | lia ].
  - destruct (binary_round_aux_big s (Zpos M) e loc_Exact ltac:(lia) Hd)
      as [H | (m' & e' & H & He)].
    + now left.
    + right. exists m', e'. split; [ exact H | ]. fold f in He. lia.
Qed.

Lemma binary_normalize_big sx Mx Y ez ex :
  0 < Mx -> 2 * Z.abs Y <= Mx -> 52 + ex <= Z.log2 Mx + ez -> -1000 <= ex ->
  let r := binary_normalize prec emax (cond_Zopp sx Mx + Y) ez false in
  r = S754_infinity sx \/
  exists m' e', r = S754_finite sx m' e' /\ ex - 1 <= e'.
Proof.
  intros HM HY Hlog Hex r. subst r. unfold binary_normalize.
  assert (Hhalf : forall p, Mx <= 2 * Zpos p -> Z.log2 Mx <= Z.log2 (Zpos p) + 1).
  { intros p Hp. transitivity (Z.log2 (2 * Zpos p)).
    - apply Z.log2_le_mono. lia.
    - rewrite Z.log2_double by lia. lia. }
  destruct sx; cbn [cond_Zopp].
  - destruct (- Mx + Y) as [ | p | p ] eqn:E; try lia.
    specialize (Hhalf p ltac:(lia)).
    assert (Hd : 52 + ex <= Zdigits2 (Zpos p) + ez) by (rewrite Zdigits2_log2; lia).
    destruct (binary_round_big true p ez ltac:(lia)) as [H | (m' & e' & H & He)].
    + now left.
    + right. exists m', e'. split; [ exact H | ]. rewrite fexp64_eq in He. lia.
  - destruct (Mx + Y) as [ | p | p ] eqn:E; try lia.
    specialize (Hhalf p ltac:(lia)).
    assert (Hd : 52 + ex <= Zdigits2 (Zpos p) + ez) by (rewrite Zdigits2_log2; lia).
    destruct (binary_round_big false p ez ltac:(lia)) as [H | (m' & e' & H & He)].
    + now left.
    + right. exists m', e'. split; [ exact H | ]. rewrite fexp64_eq in He. lia.
Qed.

Lemma big_plus_small mx ex my ey vy :
  2 ^ 52 <= Zpos mx -> -8 <= ex ->
  ey <= 0 -> Zpos my = Z.abs vy * 2 ^ (- ey) -> Z.abs vy <= 2 ^ 40 ->
  let ez := Z.min ex ey in
  let Mx := Zpos (fst (shl_align mx ex ez)) in
  let My := Zpos (fst (shl_align my ey ez)) in
  0 < Mx /\ 2 * My <= Mx /\ 52 + ex <= Z.log2 Mx + ez.
Proof.
  intros Hmx Hex Hey Hmy Hvy ez Mx My. subst Mx My.
  rewrite !shl_align_fst by lia. rewrite Hmy.
  rewrite <- Z.mul_assoc, <- Z.pow_add_r by lia.
  replace (- ey + (ey - ez)) with (- ez) by lia.
  pose proof (pow2_pos (ex - ez) ltac:(lia)) as Ha.
  pose proof (pow2_pos (- ez) ltac:(lia)) as HK.
  assert (HaK : 2 ^ (- ez) <= 256 * 2 ^ (ex - ez)).
  { change 256 with (2 ^ 8). rewrite <- Z.pow_add_r by lia.
    apply Z.pow_le_mono_r; lia. }
  split; [ nia | ]. split.
  - change (2 ^ 52) with 4503599627370496 in Hmx.
    change (2 ^ 40) with 1099511627776 in Hvy. nia.
  - rewrite Z.log2_mul_pow2 by lia.
    assert (52 <= Z.log2 (Zpos mx)) by (apply Z.log2_le_pow2; lia). lia.
Qed.

Lemma valid_mantissa s m e :
  valid_binary (S754_finite s m e) = true ->
  Zpos m < 2 ^ 53 /\ (-1074 < e -> 2 ^ 52 <= Zpos m).
Proof.
  cbn [valid_binary]. unfold bounded, canonical_mantissa.
  intros H. apply andb_prop in H. destruct H as [H _].
  apply Z.eqb_eq in H. rewrite fexp64_eq in H.
  change (Zpos (digits2_pos m)) with (Zdigits2 (Zpos m)) in H.
  rewrite Zdigits2_log2 in H. split.
  - apply Z.log2_lt_pow2; lia.
  - intros He. apply Z.log2_le_pow2; lia.
Qed.

Lemma SFadd_big x y s lo vy :
  valid_binary x = true -> SFbig x s lo -> -8 <= lo ->
  SFinteger y vy -> Z.abs vy <= 2 ^ 40 ->
  SFbig (SF64add x y) s (lo - 1) /\ SFbig (SF64add y x) s (lo - 1).
Proof.
  intros Hv [-> | (mx & ex & -> & Hlo)] Hlo8 Hy Hvy.
  - destruct y as [ sy | sy | | sy my ey ]; cbn in Hy; try contradiction;
      split; left; reflexivity.
  - destruct y as [ sy | sy | | sy my ey ]; cbn [SFinteger] in Hy; try contradiction.
    + split; right; exists mx, ex; split; (reflexivity || lia).
    + destruct Hy as (Hey & Hmy & Hsy).
      destruct (valid_mantissa _ _ _ Hv) as [_ Hmx]. specialize (Hmx ltac:(lia)).
      destruct (big_plus_small mx ex my ey vy Hmx ltac:(lia) Hey Hmy Hvy)
        as (HM & HY & Hlog).
      assert (Habs : forall b M, 0 < M -> Z.abs (cond_Zopp b M) = M)
        by (intros [ | ] M HMp; cbn; lia).
      pose proof (binary_normalize_big s
                    (Zpos (fst (shl_align mx ex (Z.min ex ey))))
                    (cond_Zopp sy (Zpos (fst (shl_align my ey (Z.min ex ey)))))
                    (Z.min ex ey) ex HM) as H.
      cbv zeta in H. rewrite Habs in H by lia.
      specialize (H HY Hlog ltac:(lia)).
      assert (Hbig : SFbig (SF64add (S754_finite s mx ex) (S754_finite sy my ey)) s (lo - 1)).
      { unfold SF64add, SFadd.
        destruct H as [H | (m' & e' & H & He)]; [ left; exact H | right ].
        exists m', e'. split; [ exact H | lia ]. }
      split; [ exact Hbig | ].
      unfold SF64add, SFadd in *. rewrite (Z.min_comm ey ex), Z.add_comm. exact Hbig.
Qed.

End BinaryRounding.

(** ** The calendar *)

Lemma DayFromYear_YearFromTime t :
  (DayFromYear (YearFromTime t) <= Day t < DayFromYear (YearFromTime t + 1))%Z.
Proof.
  unfold YearFromTime.
  set (d := Day t). clearbody d.
  set (y := (1970 + (400 * d) / 146097)%Z).
  assert (Hy : (146097 * (y - 1970) <= 400 * d < 146097 * (y - 1970) + 146097)%Z).
  { subst y. pose proof (Z.div_mod (400 * d) 146097 ltac:(lia)).
    pose proof (Z.mod_pos_bound (400 * d) 146097 ltac:(lia)). lia. }
  clearbody y.
  unfold DayFromYear.
  destruct (Z.ltb_spec d (365 * (y - 1970) + (y - 1969) / 4 - (y - 1901) / 100 + (y - 1601) / 400)%Z);
  [| destruct (Z.leb_spec (365 * (y + 1 - 1970) + (y + 1 - 1969) / 4 - (y + 1 - 1901) / 100 + (y + 1 - 1601) / 400)%Z d)];
  Z.div_mod_to_equations; lia.
Qed.

Lemma DaysInYear_DayFromYear y :
  (DayFromYear (y + 1) = DayFromYear y + DaysInYear y)%Z.
Proof.
  unfold DayFromYear, DaysInYear.
  destruct (Z.eqb_spec (y mod 4) 0), (Z.eqb_spec (y mod 100) 0),
    (Z.eqb_spec (y mod 400) 0); cbn [negb];
    Z.div_mod_to_equations; lia.
Qed.

Lemma DayWithinYear_range t :
  (0 <= DayWithinYear t < 365 + InLeapYear t)%Z.
Proof.
  unfold DayWithinYear, InLeapYear.
  pose proof (DayFromYear_YearFromTime t) as H.
  rewrite DaysInYear_DayFromYear in H.
  assert (Hd : (DaysInYear (YearFromTime t) = 365 \/ DaysInYear (YearFromTime t) = 366)%Z).
  { unfold DaysInYear. split_if_conditions; auto. }
  destruct (Z.eqb_spec (DaysInYear (YearFromTime t)) 366); lia.
Qed.

Lemma DateFromTime_range t : (1 <= DateFromTime t <= 31)%Z.
Proof.
  pose proof (DayWithinYear_range t) as H.
  unfold DateFromTime, MonthFromTime.
  assert (Hl : (InLeapYear t = 0 \/ InLeapYear t = 1)%Z).
  { unfold InLeapYear. split_if_conditions; auto. }
  repeat match goal with
         | |- context [(?a <? ?b)%Z] => destruct (Z.ltb_spec a b)
         end; lia.
Qed.

Lemma MakeDay_same_month t n :
  MakeDay (YearFromTime t) (MonthFromTime t) (Some (DateFromTime t + n)%Z)
  = Some (Day t + n)%Z.
Proof.
  unfold MakeDay. f_equal.
  assert (Hm : (0 <= MonthFromTime t < 12)%Z).
  { unfold MonthFromTime. split_if_conditions; lia. }
  rewrite Z.div_small, Z.mod_small, Z.add_0_r by exact Hm.
  unfold DateFromTime, DaysBeforeMonth, DayWithinYear, InLeapYear.
  destruct (MonthFromTime t) as [ | p | p ]; [ lia | | lia ].
  do 4 (destruct p as [ p | p | ]; try lia).
Qed.

Lemma setDate_adds_days tz t x n :
  truncate x = Some (DateFromTime (LocalTime tz t) + n)%Z ->
  Date_setDate tz (Some t) x
  = TimeClip (Some (UTC tz (LocalTime tz t + n * msPerDay)%Z)).
Proof.
  intros Hx. unfold Date_setDate.
  rewrite Hx, MakeDay_same_month. cbn [MakeDate option_map].
  do 3 f_equal.
  unfold Day, TimeWithinDay.
  pose proof (Z.div_mod (LocalTime tz t) msPerDay ltac:(discriminate)). lia.
Qed.

Lemma TimeClip_Some d t :
  TimeClip d = Some t -> d = Some t /\ (Z.abs t <= 8640000000000000)%Z.
Proof.
  destruct d as [ u | ]; cbn; [ | discriminate ].
  destruct (Z.ltb_spec 8640000000000000 (Z.abs u)); [ discriminate | ].
  intros E. injection E as <-. now split.
Qed.

(** A time of day more than [2^43] days away is no time value, in any
    zone. *)
Lemma plus_days_far tz t n :
  offsets_below_a_day tz -> (Z.abs t <= 8640000000000000)%Z ->
  (2 ^ 43 <= Z.abs n)%Z ->
  TimeClip (Some (UTC tz (LocalTime tz t + n * msPerDay)%Z)) = None.
Proof.
  intros Hz Ht Hn. unfold UTC, LocalTime.
  pose proof (Hz t true) as H1.
  pose proof (Hz (t + LocalTZA tz t true + n * msPerDay)%Z false) as H2.
  cbn [TimeClip]. unfold msPerDay in *.
  change (2 ^ 43)%Z with 8796093022208%Z in Hn.
  destruct (Z.ltb_spec 8640000000000000
              (Z.abs (t + LocalTZA tz t true + n * 86400000
                      - LocalTZA tz (t + LocalTZA tz t true + n * 86400000) false)));
    [ reflexivity | lia ].
Qed.

Lemma setDate_far tz t x T :
  offsets_below_a_day tz -> (Z.abs t <= 8640000000000000)%Z ->
  truncate x = Some T -> (2 ^ 44 <= Z.abs T)%Z ->
  Date_setDate tz (Some t) x = None.
Proof.
  intros Hz Ht Hx HT.
  pose proof (DateFromTime_range (LocalTime tz t)) as Hd.
  rewrite (setDate_adds_days tz t x (T - DateFromTime (LocalTime tz t))%Z)
    by (rewrite Hx; f_equal; lia).
  apply plus_days_far; [ exact Hz | exact Ht | ].
  change (2 ^ 44)%Z with 17592186044416%Z in HT.
  change (2 ^ 43)%Z with 8796093022208%Z. lia.
Qed.

Lemma In_Zrange n : forall lo k,
  (lo <= k < lo + Z.of_nat n)%Z -> In k (Zrange lo n).
Proof.
  induction n as [ | n IH ]; intros lo k Hk.
  - lia.
  - cbn [Zrange]. destruct (Z.eq_dec lo k) as [ -> | Hne ].
    + now left.
    + right. apply IH. lia.
Qed.

Lemma forallb_Zrange (P : Z -> bool) lo n :
  forallb P (Zrange lo n) = true ->
  forall k, (lo <= k < lo + Z.of_nat n)%Z -> P k = true.
Proof.
  intros H k Hk. rewrite forallb_forall in H. apply H, In_Zrange, Hk.
Qed.

Lemma holds_integer_truncate x z :
  holds_integer x z = true -> truncate x = Some z.
Proof.
  unfold holds_integer. destruct (truncate x) as [ n | ]; [ | discriminate ].
  intros H. apply Z.eqb_eq in H. now subst.
Qed.

Lemma day_plus_28 dom :
  (1 <= dom <= 31)%Z -> truncate (Z2f dom + 28) = Some (dom + 28)%Z.
Proof.
  intros H. apply holds_integer_truncate.
  apply (forallb_Zrange (fun dom => holds_integer (Z2f dom + 28) (dom + 28)) 1 31);
    [ vm_compute; reflexivity | lia ].
Qed.

(** *** Numbers that hold integers *)

Lemma SFinteger_opp x v : SFinteger x v -> SFinteger (SFopp x) (- v).
Proof.
  destruct x as [ s | s | | s m e ]; cbn; try tauto.
  - intros ->. reflexivity.
  - intros (He & Hm & Hs). rewrite Z.abs_opp. repeat split; try assumption.
    destruct s; cbn; lia.
Qed.

Lemma Prim2SF_of_Z n :
  (0 <= n < 2 ^ 53)%Z -> SFinteger (Prim2SF (of_uint63 (Uint63.of_Z n))) n.
Proof.
  intros Hn. rewrite of_uint63_spec, Uint63.of_Z_spec.
  rewrite Z.mod_small
    by (change Uint63.wB with (2 ^ 63)%Z; change (2 ^ 53)%Z with 9007199254740992%Z in Hn;
        change (2 ^ 63)%Z with 9223372036854775808%Z; lia).
  destruct n as [ | p | p ]; [ reflexivity | | lia ].
  cbn [binary_normalize].
  pose proof (SFinteger_round false (Zpos p) 0 ltac:(lia) ltac:(lia)) as H.
  cbn [Z.pow Z.opp] in H. rewrite Z.mul_1_r in H. exact H.
Qed.

Lemma Prim2SF_Z2f n :
  (Z.abs n < 2 ^ 53)%Z -> SFinteger (Prim2SF (Z2f n)) n.
Proof.
  intros Hn. unfold Z2f. destruct (Z.ltb_spec n 0) as [Hneg | Hpos].
  - rewrite opp_spec. rewrite <- (Z.opp_involutive n) at 2.
    apply SFinteger_opp, Prim2SF_of_Z. lia.
  - apply Prim2SF_of_Z. lia.
Qed.

Lemma truncate_SFinteger x v : SFinteger (Prim2SF x) v -> truncate x = Some v.
Proof.
  unfold truncate. destruct (Prim2SF x) as [ s | s | | s m e ]; cbn [SFinteger];
    try contradiction.
  - now intros ->.
  - intros (He & Hm & Hs). f_equal.
    assert (Hp : (0 < 2 ^ (- e))%Z) by (apply Z.pow_pos_nonneg; lia).
    assert (Ha : (if (0 <=? e)%Z then Z.shiftl (Zpos m) e else Z.shiftr (Zpos m) (- e))
                 = Z.abs v).
    { destruct (Z.leb_spec 0 e).
      - replace e with 0%Z in * by lia. cbn [Z.shiftl]. cbn in Hm. lia.
      - rewrite Z.shiftr_div_pow2 by lia. rewrite Hm. apply Z.div_mul. lia. }
    rewrite Ha. destruct s; lia.
Qed.

Lemma add_exact x y vx vy :
  SFinteger (Prim2SF x) vx -> SFinteger (Prim2SF y) vy ->
  (Z.abs (vx + vy) < 2 ^ 53)%Z ->
  SFinteger (Prim2SF (x + y)) (vx + vy).
Proof. intros Hx Hy H. rewrite add_spec. now apply SFadd_exact. Qed.

Lemma add_big x y s lo vy :
  SFbig (Prim2SF x) s lo -> (-8 <= lo)%Z ->
  SFinteger (Prim2SF y) vy -> (Z.abs vy <= 2 ^ 40)%Z ->
  SFbig (Prim2SF (x + y)) s (lo - 1) /\ SFbig (Prim2SF (y + x)) s (lo - 1).
Proof.
  intros Hx Hlo Hy Hvy. rewrite !add_spec.
  apply (SFadd_big _ _ _ _ vy (Prim2SF_valid x)); assumption.
Qed.

Lemma truncate_big x s lo :
  SFbig (Prim2SF x) s lo -> (-8 <= lo)%Z ->
  truncate x = None \/ exists T, truncate x = Some T /\ (2 ^ 44 <= Z.abs T)%Z.
Proof.
  intros H Hlo. unfold truncate. pose proof (Prim2SF_valid x) as Hv.
  destruct H as [ -> | (m & e & E & He) ]; [ now left | right ].
  rewrite E in *. destruct (valid_mantissa _ _ _ Hv) as [_ Hm].
  specialize (Hm ltac:(lia)).
  eexists. split; [ reflexivity | ].
  assert (Ha : (2 ^ 44 <= if (0 <=? e)%Z then Z.shiftl (Zpos m) e
                          else Z.shiftr (Zpos m) (- e))%Z).
  { destruct (Z.leb_spec 0 e).
    - rewrite Z.shiftl_mul_pow2 by lia.
      assert (0 < 2 ^ e)%Z by (apply Z.pow_pos_nonneg; lia).
      change (2 ^ 44)%Z with 17592186044416%Z.
      change (2 ^ 52)%Z with 4503599627370496%Z in Hm. nia.
    - rewrite Z.shiftr_div_pow2 by lia.
      transitivity (Zpos m / 2 ^ 8)%Z.
      + change (2 ^ 44)%Z with (2 ^ 52 / 2 ^ 8)%Z.
        apply Z.div_le_mono; [ reflexivity | exact Hm ].
      + apply Z.div_le_compat_l; [ lia | ]. split; [ apply Z.pow_pos_nonneg; lia | ].
        apply Z.pow_le_mono_r; lia. }
  destruct s; lia.
Qed.

Lemma Prim2SF_nan_add_l x y : Prim2SF x = S754_nan -> Prim2SF (x + y) = S754_nan.
Proof. intros H. rewrite add_spec, H. reflexivity. Qed.

Lemma Prim2SF_nan_add_r x y : Prim2SF y = S754_nan -> Prim2SF (x + y) = S754_nan.
Proof. intros H. rewrite add_spec, H. now destruct (Prim2SF x). Qed.

(** [Math.round] returns NaN, an integer of at most [2^52] either way,
    or a number of at least [2^52] (an infinity included). *)
Lemma Math_round_cases w :
  Prim2SF (Math_round w) = S754_nan \/
  (exists k, SFinteger (Prim2SF (Math_round w)) k /\ (Z.abs k <= 2 ^ 52)%Z) \/
  (exists s, SFbig (Prim2SF (Math_round w)) s 0).
Proof.
  unfold Math_round. pose proof (Prim2SF_valid w) as Hv.
  destruct (Prim2SF w) as [ s | s | | s m e ] eqn:E.
  - right; left. exists 0%Z. rewrite E. split; [ reflexivity | discriminate ].
  - right; right. exists s. left. exact E.
  - now left.
  - destruct (Z.leb_spec 0 e) as [He | He].
    + right; right. exists s. right. exists m, e. now split.
    + right; left.
      destruct (valid_mantissa _ _ _ Hv) as [Hm _].
      set (v := if s then Z.neg m else Z.pos m).
      set (n := Z.shiftr (2 * v + Z.shiftl 1 (- e)) (1 - e)).
      assert (Hn : (Z.abs n <= 2 ^ 52)%Z).
      { subst n. rewrite Z.shiftr_div_pow2, Z.shiftl_mul_pow2, Z.mul_1_l by lia.
        replace (1 - e)%Z with (Z.succ (- e)) by lia.
        rewrite Z.pow_succ_r by lia.
        assert (HP : (2 <= 2 ^ (- e))%Z).
        { change 2%Z with (2 ^ 1)%Z at 1. apply Z.pow_le_mono_r; lia. }
        set (P := (2 ^ (- e))%Z) in *.
        assert (Hvb : (Z.abs v < 2 ^ 53)%Z) by (subst v; destruct s; lia).
        pose proof (Z.mul_div_le (2 * v + P) (2 * P) ltac:(lia)) as H1.
        pose proof (Z.mul_succ_div_gt (2 * v + P) (2 * P) ltac:(lia)) as H2.
        set (q := ((2 * v + P) / (2 * P))%Z) in *.
        change (2 ^ 53)%Z with 9007199254740992%Z in Hvb.
        change (2 ^ 52)%Z with 4503599627370496%Z. nia. }
      destruct (Z.eqb_spec n 0) as [Hz | Hnz].
      * exists 0%Z. split; [ now destruct s | discriminate ].
      * exists n. split; [ | exact Hn ].
        apply Prim2SF_Z2f. change (2 ^ 52)%Z with 4503599627370496%Z in Hn.
        change (2 ^ 53)%Z with 9007199254740992%Z. lia.
Qed.

(** The argument of [setDate]: the day of the month plus a rounded
    length plus a delay.  As numbers the sum is exact when the length is
    an integer of at most [2^52] days, and beyond it is far out of the
    range of dates. *)
Lemma day_sum_exact dom a k j :
  (1 <= dom <= 31)%Z -> SFinteger (Prim2SF a) k -> (Z.abs k <= 2 ^ 52)%Z ->
  (0 <= j <= 3)%Z ->
  truncate (Z2f dom + a + Z2f j) = Some (dom + (k + j))%Z.
Proof.
  intros Hd Ha Hk Hj.
  change (2 ^ 52)%Z with 4503599627370496%Z in Hk.
  assert (H53 : (2 ^ 53 = 9007199254740992)%Z) by reflexivity.
  apply truncate_SFinteger. rewrite Z.add_assoc.
  apply add_exact; [ apply add_exact | | ]; try exact Ha;
    try apply Prim2SF_Z2f; rewrite H53; lia.
Qed.

Lemma day_sum_big dom a s j :
  (1 <= dom <= 31)%Z -> SFbig (Prim2SF a) s 0 -> (0 <= j <= 3)%Z ->
  SFbig (Prim2SF (Z2f dom + a + Z2f j)) s (-2).
Proof.
  intros Hd Ha Hj.
  assert (H53 : (2 ^ 53 = 9007199254740992)%Z) by reflexivity.
  assert (H40 : (2 ^ 40 = 1099511627776)%Z) by reflexivity.
  assert (H1 : SFbig (Prim2SF (Z2f dom + a)) s (-1)).
  { apply (add_big a (Z2f dom) s 0 dom); [ exact Ha | lia | | rewrite H40; lia ].
    apply Prim2SF_Z2f. rewrite H53. lia. }
  apply (add_big (Z2f dom + a) (Z2f j) s (-1) j); [ exact H1 | lia | | rewrite H40; lia ].
  apply Prim2SF_Z2f. rewrite H53. lia.
Qed.

Lemma truncate_nan x : Prim2SF x = S754_nan -> truncate x = None.
Proof. unfold truncate. now intros ->. Qed.

Lemma setDate_not_a_number tz d x : truncate x = None -> Date_setDate tz d x = None.
Proof. intros H. unfold Date_setDate. rewrite H. now destruct d. Qed.

(** [d.setDate(d.getDate() + Math.round(w) + j)] on a copy [d] of a
    date: the date that many calendar days later. *)
Lemma setDate_rounded_days tz (d : Date) w j :
  offsets_below_a_day tz -> (0 <= j <= 3)%Z ->
  Date_setDate tz (new_Date d) (Date_getDate tz (new_Date d) + Math_round w + Z2f j)
  = match truncate (Math_round w) with
    | Some k => Date_plus_days tz d (k + j)
    | None => None
    end.
Proof.
  intros Hz Hj. unfold new_Date, Date_plus_days.
  destruct (TimeClip d) as [ t | ] eqn:Ed;
    [ | now destruct (truncate (Math_round w)) ].
  destruct (TimeClip_Some _ _ Ed) as [_ Ht].
  cbn [Date_getDate].
  pose proof (DateFromTime_range (LocalTime tz t)) as Hd.
  destruct (Math_round_cases w) as [Hnan | [(k & Hk & Hkb) | (s & Hbig)]].
  - rewrite (truncate_nan _ Hnan). apply setDate_not_a_number, truncate_nan.
    apply Prim2SF_nan_add_l, Prim2SF_nan_add_r, Hnan.
  - rewrite (truncate_SFinteger _ _ Hk).
    apply setDate_adds_days, day_sum_exact; assumption.
  - pose proof (day_sum_big _ _ s j Hd Hbig Hj) as Hsum.
    assert (LHS : Date_setDate tz (Some t)
                    (Z2f (DateFromTime (LocalTime tz t)) + Math_round w + Z2f j) = None).
    { destruct (truncate_big _ _ _ Hsum ltac:(lia)) as [Hn | (T & HT & HTb)].
      - now apply setDate_not_a_number.
      - now apply (setDate_far tz t _ T). }
    rewrite LHS.
    destruct (truncate_big _ _ _ Hbig ltac:(lia)) as [Hn | (k & Hk & Hkb)].
    + now rewrite Hn.
    + rewrite Hk. symmetry. apply plus_days_far; [ exact Hz | exact Ht | ].
      change (2 ^ 44)%Z with 17592186044416%Z in Hkb.
      change (2 ^ 43)%Z with 8796093022208%Z. lia.
Qed.

(** ** Cycle prediction *)

(** In a zone without daylight saving, a calendar day is 24 hours. *)
Lemma Date_plus_days_constant_offset tz (d : Date) n :
  constant_offset tz -> Date_plus_days tz d n = Date_plus_hours_24 d n.
Proof.
  intros H. unfold Date_plus_days, Date_plus_hours_24.
  destruct (TimeClip d) as [ t | ]; [ | reflexivity ].
  unfold UTC, LocalTime.
  rewrite (H (t + LocalTZA tz t true + n * msPerDay)%Z t false true).
  do 2 f_equal. lia.
Qed.

(** [d.setDate(d.getDate() + 28)] on a copy [d] of a date. *)
Lemma setDate_28_days tz (d : Date) :
  Date_setDate tz (new_Date d) (Date_getDate tz (new_Date d) + 28)
  = Date_plus_days tz d 28.
Proof.
  unfold new_Date, Date_plus_days.
  destruct (TimeClip d) as [ t | ]; [ | reflexivity ].
  apply setDate_adds_days. cbn [Date_getDate].
  apply day_plus_28, DateFromTime_range.
Qed.

(** C9: with an empty [cycleHistory], [predictNextCycle] returns the
    default prediction: [lastPeriodStart] plus 28 days, confidence
    ['low'], average length 28, variability 0, not irregular, no PCOS
    flag, no delay.  The 28 days are calendar days on the clock of the
    host: the same local time of day 28 days on, which is the instant
    28 times 24 hours later unless the zone changes its offset in
    between. *)
Theorem predictNextCycle_no_history tz (data : Cycle.CycleData) :
  Cycle.cycleHistory data = [] ->
  Cycle.predictNextCycle tz data =
  {| Cycle.predictedStartDate := Date_plus_days tz (Cycle.lastPeriodStart data) 28;
     Cycle.confidenceLevel := Cycle.low;
     Cycle.averageCycleLength := 28;
     Cycle.cycleVariability := 0;
     Cycle.isIrregular := false;
     Cycle.pcosRiskFlag := Some false;
     Cycle.delayAdjustment := 0 |} /\
  (constant_offset tz ->
   Cycle.predictedStartDate (Cycle.predictNextCycle tz data)
   = Date_plus_hours_24 (Cycle.lastPeriodStart data) 28).
Proof.
  intros H. unfold Cycle.predictNextCycle. rewrite H. split.
  - f_equal. apply setDate_28_days.
  - intros Hz. cbn [Cycle.predictedStartDate].
    rewrite setDate_28_days. now apply Date_plus_days_constant_offset.
Qed.

(* From 1 March 2024, 10:00 in New York, to 29 March, 10:00 in New York:
   28 days less the hour the clocks skipped on 10 March. *)
Lemma predictNextCycle_no_history_witness :
  Cycle.predictedStartDate (Cycle.predictNextCycle new_york_2024 early_march_input)
  = Some (1709305200000 + 28 * 86400000 - 3600000)%Z.
Proof.
  rewrite (proj1 (predictNextCycle_no_history new_york_2024 early_march_input eq_refl)).
  reflexivity.
Defined.

(** Comparisons with NaN and zero, from the specification of the
    primitive comparisons. *)
Lemma SFcompare_refl x : x <> S754_nan -> SFcompare x x = Some Eq.
Proof.
  destruct x as [ s | s | | s m e ]; intros H; try congruence.
  - now destruct s.
  - now destruct s.
  - cbn. rewrite Z.compare_refl.
    change (Pcompare m m Eq) with (Pos.compare m m).
    rewrite Pos.compare_refl. now destruct s.
Qed.

Lemma is_nan_Prim2SF s : is_nan s = false -> Prim2SF s <> S754_nan.
Proof.
  unfold is_nan. rewrite FloatAxioms.eqb_spec. intros H E.
  rewrite E in H. discriminate H.
Qed.

Lemma Prim2SF_is_nan s : Prim2SF s <> S754_nan -> is_nan s = false.
Proof.
  intros H. unfold is_nan. rewrite FloatAxioms.eqb_spec. unfold SFeqb.
  now rewrite SFcompare_refl.
Qed.

Lemma at_least_4_truthy s : (s >=? 4) = true -> truthy s = true.
Proof.
  intros H. rewrite leb_spec in H.
  unfold truthy, is_zero. rewrite (FloatAxioms.eqb_spec s zero).
  assert (Hn : Prim2SF s <> S754_nan).
  { intros E. rewrite E in H. vm_compute in H. discriminate H. }
  rewrite (Prim2SF_is_nan _ Hn). cbn [orb].
  let v := eval vm_compute in (Prim2SF 4) in change (Prim2SF 4) with v in H.
  let v := eval vm_compute in (Prim2SF zero) in change (Prim2SF zero) with v.
  destruct (Prim2SF s) as [ b | b | | b m e ]; try congruence;
    destruct b; try reflexivity; discriminate H.
Qed.

Lemma below_6_not_nan s : (s <? 6) = true -> is_nan s = false.
Proof.
  intros H. rewrite ltb_spec in H. apply Prim2SF_is_nan.
  intros E. rewrite E in H. vm_compute in H. discriminate H.
Qed.

Lemma stress_condition s : truthy s && (s >=? 4) = (s >=? 4).
Proof.
  destruct (s >=? 4) eqn:E.
  - now rewrite (at_least_4_truthy _ E).
  - apply andb_false_r.
Qed.

Lemma sleep_condition s : truthy s && (s <? 6) = negb (s =? 0) && (s <? 6).
Proof.
  destruct (s <? 6) eqn:E.
  - unfold truthy. rewrite (below_6_not_nan _ E). reflexivity.
  - now rewrite !andb_false_r.
Qed.

Lemma delayAdjustment_spec (data : Cycle.CycleData) :
  (if match Cycle.sleepHours data with
      | Some sleepHours => truthy sleepHours && (sleepHours <? 6)
      | None => false
      end
   then (if match Cycle.stressLevel data with
            | Some stressLevel => truthy stressLevel && (stressLevel >=? 4)
            | None => false
            end
         then 0 + 2 else 0) + 1
   else (if match Cycle.stressLevel data with
            | Some stressLevel => truthy stressLevel && (stressLevel >=? 4)
            | None => false
            end
         then 0 + 2 else 0))
  = Z2f (spec_delay data) /\ (0 <= spec_delay data <= 3)%Z.
Proof.
  unfold spec_delay, stress_is_high, sleep_is_short.
  destruct (Cycle.stressLevel data) as [ s | ];
    destruct (Cycle.sleepHours data) as [ h | ];
    rewrite ?stress_condition, ?sleep_condition;
    split_if_conditions; split; (reflexivity || lia).
Qed.

(** The predicted date of a history that is not empty: the rounded
    average plus the delay, in calendar days on the clock of the host,
    after [lastPeriodStart]; no date when the average is NaN or
    infinite. *)
Lemma predictedStartDate_by_days tz (data : Cycle.CycleData) :
  Cycle.cycleHistory data <> [] -> offsets_below_a_day tz ->
  let r := Cycle.predictNextCycle tz data in
  Cycle.predictedStartDate r =
  match truncate (Cycle.averageCycleLength r) with
  | Some k => Date_plus_days tz (Cycle.lastPeriodStart data) (k + spec_delay data)
  | None => None
  end.
Proof.
  intros Hne Hz r; subst r.
  unfold Cycle.predictNextCycle.
  destruct (Cycle.cycleHistory data) as [ | c cs ] eqn:Hh; [ congruence | ].
  cbn [Cycle.predictedStartDate Cycle.averageCycleLength].
  destruct (delayAdjustment_spec data) as [-> Hrange].
  now apply setDate_rounded_days.
Qed.

(** C10: with a non-empty [cycleHistory], [delayAdjustment] is 2 when
    [stressLevel] is given and at least 4, plus 1 when [sleepHours] is
    given, not zero and below 6; it is one of 0, 1, 2, 3; and
    [predictedStartDate] is [lastPeriodStart] plus
    [averageCycleLength] plus [delayAdjustment] days: the same local
    time of day that many calendar days later on the clock of the
    host, for every average, which is that many times 24 hours later
    in a zone without daylight saving; no date when the average is NaN
    or infinite. *)
Theorem predictNextCycle_delay tz (data : Cycle.CycleData) :
  Cycle.cycleHistory data <> [] ->
  let r := Cycle.predictNextCycle tz data in
  Cycle.delayAdjustment r = Z2f (spec_delay data) /\
  In (Cycle.delayAdjustment r) [0; 1; 2; 3] /\
  (offsets_below_a_day tz ->
   Cycle.predictedStartDate r =
   match truncate (Cycle.averageCycleLength r) with
   | Some k => Date_plus_days tz (Cycle.lastPeriodStart data) (k + spec_delay data)
   | None => None
   end) /\
  (offsets_below_a_day tz -> constant_offset tz ->
   Cycle.predictedStartDate r =
   match truncate (Cycle.averageCycleLength r) with
   | Some k => Date_plus_hours_24 (Cycle.lastPeriodStart data) (k + spec_delay data)
   | None => None
   end).
Proof.
  intros Hne r.
  split; [ | split; [ | split ] ].
  - subst r. unfold Cycle.predictNextCycle.
    destruct (Cycle.cycleHistory data) as [ | c cs ] eqn:Hh; [ congruence | ].
    cbn [Cycle.delayAdjustment]. apply delayAdjustment_spec.
  - subst r. unfold Cycle.predictNextCycle.
    destruct (Cycle.cycleHistory data) as [ | c cs ] eqn:Hh; [ congruence | ].
    cbn [Cycle.delayAdjustment].
    destruct (delayAdjustment_spec data) as [-> Hrange].
    assert (Hj : In (spec_delay data) [0; 1; 2; 3]%Z) by (cbn [In]; lia).
    each_member Hj; vm_compute; pick_member.
  - intros Hz. now apply predictedStartDate_by_days.
  - intros Hz Hc. subst r. rewrite (predictedStartDate_by_days tz data Hne Hz).
    destruct (truncate _); [ | reflexivity ].
    now apply Date_plus_days_constant_offset.
Qed.

Lemma new_york_2024_offsets : offsets_below_a_day new_york_2024.
Proof.
  intros t isUTC. unfold new_york_2024, msPerDay. cbn [LocalTZA].
  destruct isUTC; split_if_conditions; lia.
Qed.

Lemma fixed_zone_offsets offset :
  (Z.abs offset <= msPerDay)%Z -> offsets_below_a_day (fixed_zone offset).
Proof. intros H t isUTC. exact H. Qed.

(* Stress 4 and five hours of sleep delay the period by 3 days; the
   average of 29 days and the delay move 1 March, 10:00 in New York, to
   2 April, 10:00 in New York: 32 days less the hour the clocks
   skipped. *)
Lemma predictNextCycle_delay_witness :
  Cycle.delayAdjustment (Cycle.predictNextCycle new_york_2024 march_input) = 3 /\
  Cycle.predictedStartDate (Cycle.predictNextCycle new_york_2024 march_input)
    = Some (1709305200000 + 32 * 86400000 - 3600000)%Z.
Proof.
  pose proof (predictNextCycle_delay new_york_2024 march_input
                ltac:(discriminate)) as (Hdelay & _ & Hdate & _).
  split; [ exact Hdelay | ].
  rewrite (Hdate new_york_2024_offsets). reflexivity.
Defined.

(** *** The array operations as folds *)

Lemma reducei_from_fold_left {A B} (f : B -> A -> B) (a : list A) :
  forall i0 init,
    reducei_from (fun acc x _ => f acc x) i0 init a = fold_left f a init.
Proof.
  induction a as [ | x a IH ]; intros i0 init; cbn; [ reflexivity | apply IH ].
Qed.

Lemma reduce_fold_left {A B} (f : B -> A -> B) init (a : list A) :
  reduce f init a = fold_left f a init.
Proof. apply reducei_from_fold_left. Qed.

Lemma fold_left_add_map {A} (g : A -> float) (l : list A) :
  forall init,
    fold_left PrimFloat.add (map g l) init = fold_left (fun s x => s + g x) l init.
Proof.
  induction l as [ | x l IH ]; intros init; cbn; [ reflexivity | apply IH ].
Qed.

Lemma mapi_from_seq {A B} (g : nat -> B) (a : list A) :
  forall i0, mapi_from (fun _ i => g i) i0 a = map g (seq i0 (List.length a)).
Proof.
  induction a as [ | x a IH ]; intros i0; cbn; [ reflexivity | now rewrite IH ].
Qed.

Lemma next_weight i : (i < 6)%nat -> nat2f i + 1 = nat2f (S i).
Proof.
  intros H. do 6 (destruct i as [ | i ]; [ reflexivity | ]). lia.
Qed.

Lemma weights_of_recent (a : list float) :
  (List.length a <= 6)%nat ->
  mapi (fun _ i => nat2f i + 1) a = weights_1_to (List.length a).
Proof.
  intros H. unfold mapi, weights_1_to.
  rewrite mapi_from_seq, <- seq_shift, map_map.
  apply map_ext_in. intros i Hi. apply in_seq in Hi. apply next_weight. lia.
Qed.

Lemma reducei_from_weighted (a : list float) :
  forall (pre ws : list float) init,
    List.length ws = List.length a ->
    reducei_from (fun s c i => s + c * index (pre ++ ws) i) (List.length pre) init a
    = fold_left (fun s p => s + fst p * snd p) (combine a ws) init.
Proof.
  induction a as [ | c a IH ]; intros pre ws init Hlen.
  - reflexivity.
  - destruct ws as [ | w ws ]; [ discriminate Hlen | ].
    cbn [reducei_from combine fold_left fst snd].
    unfold index at 2. rewrite nth_middle.
    specialize (IH (pre ++ [w]) ws (init + c * w) ltac:(cbn in Hlen; lia)).
    rewrite <- app_assoc, length_app, Nat.add_1_r in IH. exact IH.
Qed.

Lemma slice_last_last_entries {A} (k : nat) (l : list A) :
  slice_last k l = last_entries k l.
Proof.
  unfold slice_last, last_entries. now rewrite firstn_rev, rev_involutive.
Qed.

Lemma last_entries_min {A} (k : nat) (l : list A) :
  last_entries (Nat.min k (List.length l)) l = last_entries k l.
Proof.
  rewrite <- !slice_last_last_entries. unfold slice_last. f_equal. lia.
Qed.

Lemma length_last_entries {A} (k : nat) (l : list A) :
  List.length (last_entries k l) = Nat.min k (List.length l).
Proof.
  rewrite <- slice_last_last_entries. unfold slice_last.
  rewrite length_skipn. lia.
Qed.

Lemma weightedAverage_spec (h : list float) :
  Cycle.weightedAverage h =
  weighted_mean (last_entries 6 h) (weights_1_to (Nat.min 6 (List.length h))).
Proof.
  unfold Cycle.weightedAverage, Cycle.totalWeight, Cycle.weights, Cycle.recentCycles,
    weighted_mean, sum.
  rewrite slice_last_last_entries, weights_of_recent, length_last_entries
    by (rewrite length_last_entries; lia).
  rewrite reduce_fold_left, fold_left_add_map. f_equal.
  apply (reducei_from_weighted _ []).
  unfold weights_1_to. now rewrite length_map, length_seq, length_last_entries.
Qed.

Lemma variability_spec (h : list float) :
  Cycle.variability h = population_std (last_entries 6 h).
Proof.
  unfold Cycle.variability, Cycle.variance, Cycle.mean, Cycle.recentCycles,
    population_std, sum, Math_sqrt, Math_pow_2.
  rewrite slice_last_last_entries, !reduce_fold_left, fold_left_add_map.
  reflexivity.
Qed.

(** C3: with a non-empty [cycleHistory] of [n] entries,
    [averageCycleLength] is the rounded weighted mean of the last
    [min 6 n] cycle lengths with weights 1, 2, ..., and
    [cycleVariability] is the population standard deviation of the same
    entries rounded to one decimal place; both depend on the last six
    entries of the history only. *)
Theorem predictNextCycle_statistics tz (data : Cycle.CycleData) :
  Cycle.cycleHistory data <> [] ->
  let r := Cycle.predictNextCycle tz data in
  let k := Nat.min 6 (List.length (Cycle.cycleHistory data)) in
  let xs := last_entries k (Cycle.cycleHistory data) in
  List.length xs = k /\
  Cycle.averageCycleLength r = Math_round (weighted_mean xs (weights_1_to k)) /\
  Cycle.cycleVariability r = round_1_decimal (population_std xs) /\
  (forall data' : Cycle.CycleData,
     Cycle.cycleHistory data' <> [] ->
     last_entries 6 (Cycle.cycleHistory data') = last_entries 6 (Cycle.cycleHistory data) ->
     Cycle.averageCycleLength (Cycle.predictNextCycle tz data')
       = Cycle.averageCycleLength r /\
     Cycle.cycleVariability (Cycle.predictNextCycle tz data')
       = Cycle.cycleVariability r).
Proof.
  intros Hne r k xs.
  assert (Hr : forall d, Cycle.cycleHistory d <> [] ->
            Cycle.averageCycleLength (Cycle.predictNextCycle tz d)
              = Math_round (Cycle.weightedAverage (Cycle.cycleHistory d)) /\
            Cycle.cycleVariability (Cycle.predictNextCycle tz d)
              = round_1_decimal (Cycle.variability (Cycle.cycleHistory d))).
  { intros d Hd. unfold Cycle.predictNextCycle.
    destruct (Cycle.cycleHistory d); [ congruence | split; reflexivity ]. }
  subst r xs k. rewrite last_entries_min.
  destruct (Hr data Hne) as [Ha Hv]. rewrite Ha, Hv, weightedAverage_spec, variability_spec.
  split; [ rewrite length_last_entries; reflexivity | ].
  split; [ reflexivity | split; [ reflexivity | ] ].
  intros data' Hne' Hsame.
  destruct (Hr data' Hne') as [Ha' Hv']. rewrite Ha', Hv', weightedAverage_spec, variability_spec.
  rewrite Hsame.
  assert (Hlen : Nat.min 6 (List.length (Cycle.cycleHistory data'))
                 = Nat.min 6 (List.length (Cycle.cycleHistory data))).
  { rewrite <- !length_last_entries. now rewrite Hsame. }
  rewrite Hlen. split; reflexivity.
Qed.

Lemma predictNextCycle_statistics_witness :
  Cycle.averageCycleLength (Cycle.predictNextCycle kolkata stressed_input) = 29
  /\ Cycle.cycleVariability (Cycle.predictNextCycle kolkata stressed_input) = 11 / 10.
Proof.
  pose proof (predictNextCycle_statistics kolkata stressed_input
                ltac:(discriminate)) as H.
  cbv zeta in H. destruct H as (_ & Ha & Hv & _).
  split; [ rewrite Ha | rewrite Hv ]; vm_compute; reflexivity.
Defined.

(** *** Irregular cycles and the PCOS flag *)

Lemma predictNextCycle_isIrregular tz (data : Cycle.CycleData) :
  Cycle.cycleHistory data <> [] ->
  let xs := last_entries 6 (Cycle.cycleHistory data) in
  Cycle.isIrregular (Cycle.predictNextCycle tz data) = true <->
  (population_std xs >? 7) = true \/
  (exists c, In c xs /\ ((c <? 21) = true \/ (c >? 35) = true)).
Proof.
  intros Hne xs; subst xs. unfold Cycle.predictNextCycle.
  destruct (Cycle.cycleHistory data) as [ | c0 cs ] eqn:Hh; [ congruence | ].
  cbn [Cycle.isIrregular].
  rewrite variability_spec. unfold Cycle.recentCycles.
  rewrite slice_last_last_entries, orb_true_iff, existsb_exists.
  setoid_rewrite orb_true_iff. reflexivity.
Qed.

Lemma predictNextCycle_pcosRiskFlag_true tz (data : Cycle.CycleData) :
  Cycle.cycleHistory data <> [] ->
  let r := Cycle.predictNextCycle tz data in
  let xs := last_entries 6 (Cycle.cycleHistory data) in
  Cycle.pcosRiskFlag r = Some true <->
  (3 <= List.length (filter (fun c => c >? 35) xs))%nat \/
  (Cycle.isIrregular r = true /\
   Cycle.symptoms_acne (Cycle.symptoms data) = Some true /\
   (Cycle.cramps_is_severe (Cycle.symptoms data) = true \/
    Cycle.mood_is_irritable (Cycle.symptoms data) = true)).
Proof.
  intros Hne r xs; subst r xs. unfold Cycle.predictNextCycle.
  destruct (Cycle.cycleHistory data) as [ | c0 cs ] eqn:Hh; [ congruence | ].
  cbn [Cycle.isIrregular Cycle.pcosRiskFlag].
  unfold Cycle.longCycles, Cycle.recentCycles.
  rewrite slice_last_last_entries.
  generalize (List.length (filter (fun c => c >? 35) (last_entries 6 (c0 :: cs)))).
  intros n. destruct (Nat.leb_spec 3 n).
  - cbn. intuition.
  - match goal with
    | |- context [Cycle.js_and (Cycle.js_and (Some ?b) _) _] => destruct b
    end;
      destruct (Cycle.symptoms_acne (Cycle.symptoms data)) as [ [ | ] | ];
      destruct (Cycle.cramps_is_severe (Cycle.symptoms data));
      destruct (Cycle.mood_is_irritable (Cycle.symptoms data));
      cbn; intuition (try congruence; try lia).
Qed.

(** When the flag is not true it is [false], or it is [undefined]: the
    latter exactly when fewer than three of the recent cycles are long,
    the cycle is irregular and no [acne] answer was given. *)
Lemma predictNextCycle_pcosRiskFlag_undefined_iff tz (data : Cycle.CycleData) :
  Cycle.cycleHistory data <> [] ->
  let r := Cycle.predictNextCycle tz data in
  Cycle.pcosRiskFlag r = None <->
  (Cycle.longCycles (Cycle.cycleHistory data) < 3)%nat /\
  Cycle.isIrregular r = true /\
  Cycle.symptoms_acne (Cycle.symptoms data) = None.
Proof.
  intros Hne r; subst r. unfold Cycle.predictNextCycle.
  destruct (Cycle.cycleHistory data) as [ | c0 cs ] eqn:Hh; [ congruence | ].
  cbn [Cycle.isIrregular Cycle.pcosRiskFlag].
  generalize (Cycle.longCycles (c0 :: cs)).
  intros n. destruct (Nat.leb_spec 3 n).
  - cbn. intuition (try congruence; try lia).
  - match goal with
    | |- context [Cycle.js_and (Cycle.js_and (Some ?b) _) _] => destruct b
    end;
      destruct (Cycle.symptoms_acne (Cycle.symptoms data)) as [ [ | ] | ];
      cbn; intuition (try congruence; try lia).
Qed.

(** C7, at an input where the program departs from it: one cycle of 40
    days and no symptoms.  The cycle is irregular (40 > 35), fewer than
    three recent cycles are long and no acne is reported, so the flag
    should be [false]; the program stores [undefined], the value of
    [isIrregular && symptoms?.acne]. *)
Theorem predictNextCycle_pcosRiskFlag_undefined :
  let r := Cycle.predictNextCycle kolkata long_cycle_input in
  Cycle.isIrregular r = true /\
  Cycle.longCycles (Cycle.cycleHistory long_cycle_input) = 1%nat /\
  Cycle.symptoms_acne (Cycle.symptoms long_cycle_input) = None /\
  Cycle.pcosRiskFlag r = None /\
  Cycle.pcosRiskFlag r <> Some false.
Proof.
  vm_compute. repeat split; try reflexivity. discriminate.
Qed.

(** ** What the local functions depend on *)

Lemma predictPCOS_reads (p1 p2 : PCOS.PCOSInputData) :
  PCOS_factors p1 = PCOS_factors p2 -> PCOS.predictPCOS p1 = PCOS.predictPCOS p2.
Proof.
  unfold PCOS_factors. intros H.
  injection H as H1 H2 H3 H4 H5 H6 H7 H8 H9 H10.
  apply (f_equal negb) in H1, H10. rewrite !negb_involutive in H1, H10.
  unfold PCOS.predictPCOS, PCOS.totalScore, PCOS.cycleScore, PCOS.ultrasoundScore,
    PCOS.totalFollicles, PCOS.hormonalScore, PCOS.metabolicScore, PCOS.lifestyleScore.
  rewrite H1, H2, H3, H4, H5, H6, H7, H8, H9, H10. reflexivity.
Qed.

Lemma predictMenopause_reads (m1 m2 : Menopause.MenopauseInputData) :
  Menopause_reads m1 = Menopause_reads m2 ->
  Menopause.predictMenopause m1 = Menopause.predictMenopause m2.
Proof.
  unfold Menopause_reads, Menopause_symptoms. cbn [app]. intros H.
  injection H as A40 A45 A50 A55 F40 F25 E30 E50 Y2 Y1 Y05 Y0 S1 S2 S3 S4 S5 S6 S7.
  unfold Menopause.predictMenopause, Menopause.stage_of, Menopause.totalScore,
    Menopause.ageScore, Menopause.hormoneScore, Menopause.symptomScore,
    Menopause.periodScore.
  rewrite A40, A45, A50, A55, F40, F25, E30, E50, Y2, Y1, Y05, Y0,
    S1, S2, S3, S4, S5, S6, S7.
  reflexivity.
Qed.

Lemma integer_of_Z2f n : (Z.abs n < 2 ^ 53)%Z -> integer_of (Z2f n) = n.
Proof.
  intros H. unfold integer_of.
  now rewrite (truncate_SFinteger _ _ (Prim2SF_Z2f n H)).
Qed.

Lemma Date_plus_days_same_offsets tz1 tz2 (d : Date) n :
  (forall t, TimeClip d = Some t -> same_offsets tz1 tz2 t n) ->
  Date_plus_days tz1 d n = Date_plus_days tz2 d n.
Proof.
  unfold Date_plus_days. intros H.
  destruct (TimeClip d) as [ t | ]; [ | reflexivity ].
  destruct (H t eq_refl) as [H1 H2].
  assert (E : LocalTime tz1 t = LocalTime tz2 t) by (unfold LocalTime; now rewrite H1).
  unfold UTC. rewrite <- E, H2. reflexivity.
Qed.

(** C6, as the program has it: two runs of [predictNextCycle] on equal
    inputs need not return the same [predictedStartDate].  On a host in
    New York and on a host in Bogota the input of 1 March 2024, 15:00
    UTC, without history gives 29 March 14:00 UTC and 29 March 15:00
    UTC: [setDate] counts calendar days on the clock of the host. *)
Lemma predictedStartDate_differs_by_host :
  Cycle.predictedStartDate (Cycle.predictNextCycle new_york_2024 early_march_input)
  = Some 1711720800000%Z /\
  Cycle.predictedStartDate (Cycle.predictNextCycle bogota early_march_input)
  = Some 1711724400000%Z /\
  (1711720800000 =? 1711724400000)%Z = false.
Proof. vm_compute. repeat split. Qed.

(** C6, amended: the local functions read their argument and, for the
    predicted date, the time zone of the host; nothing else.
    [predictPCOS] and [predictMenopause] take nothing from the host,
    and their results are determined by the comparisons and flags they
    read from the input; [predictNextCycle] returns the same
    [confidenceLevel], [averageCycleLength], [cycleVariability],
    [isIrregular], [pcosRiskFlag] and [delayAdjustment] on every host,
    and the same [predictedStartDate] on two hosts whose zones give the
    same offset at [lastPeriodStart] and at the predicted local time. *)
Theorem local_predictions_inputs_and_zone (tz1 tz2 : TimeZone) (data : Cycle.CycleData) :
  let r1 := Cycle.predictNextCycle tz1 data in
  let r2 := Cycle.predictNextCycle tz2 data in
  (forall p1 p2, PCOS_factors p1 = PCOS_factors p2 ->
                 PCOS.predictPCOS p1 = PCOS.predictPCOS p2) /\
  (forall m1 m2, Menopause_reads m1 = Menopause_reads m2 ->
                 Menopause.predictMenopause m1 = Menopause.predictMenopause m2) /\
  Cycle.confidenceLevel r1 = Cycle.confidenceLevel r2 /\
  Cycle.averageCycleLength r1 = Cycle.averageCycleLength r2 /\
  Cycle.cycleVariability r1 = Cycle.cycleVariability r2 /\
  Cycle.isIrregular r1 = Cycle.isIrregular r2 /\
  Cycle.pcosRiskFlag r1 = Cycle.pcosRiskFlag r2 /\
  Cycle.delayAdjustment r1 = Cycle.delayAdjustment r2 /\
  (offsets_below_a_day tz1 -> offsets_below_a_day tz2 ->
   (forall t, TimeClip (Cycle.lastPeriodStart data) = Some t ->
      same_offsets tz1 tz2 t
        (integer_of (Cycle.averageCycleLength r1)
         + integer_of (Cycle.delayAdjustment r1))) ->
   Cycle.predictedStartDate r1 = Cycle.predictedStartDate r2).
Proof.
  intros r1 r2.
  split; [ exact predictPCOS_reads | ].
  split; [ exact predictMenopause_reads | ].
  assert (Hfields :
    Cycle.confidenceLevel r1 = Cycle.confidenceLevel r2 /\
    Cycle.averageCycleLength r1 = Cycle.averageCycleLength r2 /\
    Cycle.cycleVariability r1 = Cycle.cycleVariability r2 /\
    Cycle.isIrregular r1 = Cycle.isIrregular r2 /\
    Cycle.pcosRiskFlag r1 = Cycle.pcosRiskFlag r2 /\
    Cycle.delayAdjustment r1 = Cycle.delayAdjustment r2).
  { subst r1 r2. unfold Cycle.predictNextCycle.
    destruct (Cycle.cycleHistory data); repeat split. }
  destruct Hfields as (Hc & Ha & Hv & Hi & Hp & Hd).
  repeat (split; [ assumption | ]).
  intros Hz1 Hz2 Hsame.
  destruct (Cycle.cycleHistory data) as [ | c cs ] eqn:Hh.
  - subst r1 r2. unfold Cycle.predictNextCycle in *. rewrite Hh in *.
    cbn [Cycle.predictedStartDate Cycle.averageCycleLength Cycle.delayAdjustment] in *.
    rewrite !setDate_28_days.
    apply Date_plus_days_same_offsets. exact Hsame.
  - assert (Hne : Cycle.cycleHistory data <> []) by (rewrite Hh; discriminate).
    pose proof (predictedStartDate_by_days tz1 data Hne Hz1) as E1.
    pose proof (predictedStartDate_by_days tz2 data Hne Hz2) as E2.
    cbv zeta in E1, E2. fold r1 in E1. fold r2 in E2.
    rewrite E1, E2, <- Ha.
    destruct (truncate (Cycle.averageCycleLength r1)) as [ k | ] eqn:Ek; [ | reflexivity ].
    apply Date_plus_days_same_offsets. intros t Ht.
    specialize (Hsame t Ht). unfold integer_of in Hsame at 1. rewrite Ek in Hsame.
    assert (Hdelay : integer_of (Cycle.delayAdjustment r1) = spec_delay data).
    { subst r1. unfold Cycle.predictNextCycle. rewrite Hh.
      cbn [Cycle.delayAdjustment].
      destruct (delayAdjustment_spec data) as [-> Hrange].
      apply integer_of_Z2f. change (2 ^ 53)%Z with 9007199254740992%Z. lia. }
    rewrite Hdelay in Hsame. exact Hsame.
Qed.

(* In January the clocks of New York and Bogota agree: the prediction
   for 15 January plus 32 days is the same on both hosts. *)
Lemma local_predictions_inputs_and_zone_witness :
  Cycle.predictedStartDate (Cycle.predictNextCycle new_york_2024 stressed_input)
  = Cycle.predictedStartDate (Cycle.predictNextCycle bogota stressed_input).
Proof.
  pose proof (local_predictions_inputs_and_zone new_york_2024 bogota stressed_input)
    as (_ & _ & _ & _ & _ & _ & _ & _ & Hdate).
  apply Hdate.
  - exact new_york_2024_offsets.
  - apply fixed_zone_offsets. vm_compute. discriminate.
  - intros t Ht. vm_compute in Ht. injection Ht as <-. vm_compute. split; reflexivity.
Defined.

(** ** The remote model and the fallback *)

Import Api.

(** Running a wrapper: the steps of the [try] block one by one. *)
Ltac run_remote :=
  unfold try_catch, bind, await, throw, ret, insert; cbn.

(** C5: when the remote call fails, because [fetch] throws or because
    the response is not ok, each wrapper returns the result of its local
    function on the same input together with [_meta.usedAPI = false]
    (and the message of the error), and inserts no row. *)
Theorem api_failure_falls_back tz (h : Host) (userId : option string) :
  (forall data : PCOS.PCOSInputData,
     fetch_fails (e := predict_pcos) h data ->
     exists message,
       predictPCOSFromAPI h data userId =
       ([], {| spread := PCOS.predictPCOS data;
               _meta := {| usedAPI := false; error := Some message |} |})) /\
  (forall data : Menopause.MenopauseInputData,
     fetch_fails (e := predict_menopause) h data ->
     exists message,
       predictMenopauseFromAPI h data userId =
       ([], {| spread := Menopause.predictMenopause data;
               _meta := {| usedAPI := false; error := Some message |} |})) /\
  (forall data : Cycle.CycleData,
     (forall iso, toISOString (Cycle.lastPeriodStart data) = Normal iso ->
                  fetch_fails (e := predict_cycle) h (data, iso)) ->
     exists message,
       predictCycleFromAPI tz h data userId =
       ([], {| spread := Cycle.predictNextCycle tz data;
               _meta := {| usedAPI := false; error := Some message |} |})).
Proof.
  split; [ | split ].
  - intros data Hf. unfold fetch_fails in Hf. unfold predictPCOSFromAPI. run_remote.
    destruct (fetch h predict_pcos data) as [ response | message ]; cbn in *; [ | eauto ].
    rewrite Hf. cbn. destruct (text response); cbn; eauto.
  - intros data Hf. unfold fetch_fails in Hf. unfold predictMenopauseFromAPI. run_remote.
    destruct (fetch h predict_menopause data) as [ response | message ]; cbn in *; [ | eauto ].
    rewrite Hf. cbn. destruct (text response); cbn; eauto.
  - intros data Hf. unfold predictCycleFromAPI. run_remote.
    destruct (toISOString (Cycle.lastPeriodStart data)) as [ iso | message ];
      cbn; [ | eauto ].
    specialize (Hf iso eq_refl). unfold fetch_fails in Hf.
    destruct (fetch h predict_cycle (data, iso)) as [ response | message ];
      cbn in *; [ | eauto ].
    rewrite Hf. cbn. eauto.
Qed.

Lemma api_failure_falls_back_witness :
  exists message,
    predictPCOSFromAPI offline_host every_factor_input (Some "user-1"%string) =
    ([], {| spread := PCOS.predictPCOS every_factor_input;
            _meta := {| usedAPI := false; error := Some message |} |}).
Proof.
  apply (proj1 (api_failure_falls_back kolkata offline_host (Some "user-1"%string))).
  exact I.
Defined.

(** * Further properties of the prediction module *)

(** ** More on the PCOS score *)

(** X1: the severity of [predictPCOS] read off the weighted total:
    ['none'] below 4, ['low'] at exactly 4, ['medium'] from 4.5 to 6 and
    ['high'] from 6.5. *)
Theorem predictPCOS_severity_by_total (data : PCOS.PCOSInputData) :
  let r := PCOS.predictPCOS data in
  let t := PCOS.totalScore data in
  (PCOS.severity r = PCOS.none <-> (t <? 4) = true) /\
  (PCOS.severity r = PCOS.low <-> (t =? 4) = true) /\
  (PCOS.severity r = PCOS.medium <-> (t >=? 4.5) = true /\ (t <=? 6) = true) /\
  (PCOS.severity r = PCOS.high <-> (t >=? 6.5) = true).
Proof.
  intros r t; subst r t.
  by_total_score data;
    vm_compute; repeat split; intros; intuition congruence.
Qed.

(** X2: the two verdicts of [predictPCOS] never share a percentage:
    [hasPCOS] holds exactly when [riskPercentage] is at least 44, and
    without it the percentage is at most 39.  Hence the floor of 30 that
    [Math.max] applies under [hasPCOS] never changes the value. *)
Theorem predictPCOS_verdict_gap (data : PCOS.PCOSInputData) :
  let r := PCOS.predictPCOS data in
  PCOS.hasPCOS r = (PCOS.riskPercentage r >=? 44) /\
  PCOS.hasPCOS r = negb (PCOS.riskPercentage r <=? 39) /\
  PCOS.riskPercentage r
    = Math_min 100 (Math_round ((PCOS.totalScore data / 9) * 100)).
Proof.
  intros r; subst r.
  by_total_score data; vm_compute; repeat split.
Qed.

(** X3: the recommendations of [predictPCOS] advise seeing a doctor
    exactly when [riskPercentage] is at least 50, that is when the
    weighted total is at least 4.5. *)
Theorem predictPCOS_needsDoctor (data : PCOS.PCOSInputData) :
  let r := PCOS.predictPCOS data in
  PCOS.needsDoctor (PCOS.recommendations r) = (PCOS.riskPercentage r >=? 50) /\
  PCOS.needsDoctor (PCOS.recommendations r) = (PCOS.totalScore data >=? 4.5).
Proof.
  intros r; subst r.
  unfold PCOS.predictPCOS.
  cbn [PCOS.recommendations PCOS.riskPercentage].
  generalize (PCOS_totalScore_values data).
  generalize (PCOS.totalScore data).
  intros t Ht. unfold half_scores in Ht.
  each_member Ht; vm_compute; split; reflexivity.
Qed.

(** X4: which factors decide the PCOS verdict.  An irregular cycle
    together with ten or more follicles always gives [hasPCOS]; so do
    the four hormonal symptoms together; and with a regular cycle, fewer
    than ten follicles and no hormonal symptom, [hasPCOS] is false
    whatever the weight and the lifestyle. *)
Theorem predictPCOS_deciding_factors (data : PCOS.PCOSInputData) :
  let r := PCOS.predictPCOS data in
  implb (negb (PCOS.cycleRegular data)
         && (PCOS.follicleLeft data + PCOS.follicleRight data >=? 10))
        (PCOS.hasPCOS r) = true /\
  implb (PCOS.hairGrowth data && PCOS.skinDarkening data
         && PCOS.hairLoss data && PCOS.pimples data)
        (PCOS.hasPCOS r) = true /\
  implb (PCOS.cycleRegular data
         && negb (PCOS.follicleLeft data + PCOS.follicleRight data >=? 10)
         && negb (PCOS.hairGrowth data || PCOS.skinDarkening data
                  || PCOS.hairLoss data || PCOS.pimples data))
        (negb (PCOS.hasPCOS r)) = true.
Proof.
  intros r; subst r. unfold PCOS.predictPCOS. cbn [PCOS.hasPCOS].
  unfold PCOS.totalScore, PCOS.cycleScore, PCOS.ultrasoundScore,
    PCOS.hormonalScore, PCOS.metabolicScore, PCOS.lifestyleScore,
    PCOS.totalFollicles.
  destruct (PCOS.cycleRegular data), (PCOS.hairGrowth data),
    (PCOS.skinDarkening data), (PCOS.hairLoss data), (PCOS.pimples data),
    (PCOS.weightGain data), (PCOS.fastFood data), (PCOS.regularExercise data),
    (PCOS.bmi data >=? 25),
    (PCOS.follicleLeft data + PCOS.follicleRight data >=? 10);
    vm_compute; repeat split.
Qed.

Lemma PCOS_totalScore_half_points (data : PCOS.PCOSInputData) :
  PCOS.totalScore data = Z2f (PCOS_half_points data) / 2 /\
  (0 <= PCOS_half_points data <= 21)%Z.
Proof.
  unfold PCOS.totalScore, PCOS.cycleScore, PCOS.ultrasoundScore,
    PCOS.hormonalScore, PCOS.metabolicScore, PCOS.lifestyleScore,
    PCOS.totalFollicles, PCOS_half_points, PCOS_factors.
  destruct (PCOS.cycleRegular data), (PCOS.hairGrowth data),
    (PCOS.skinDarkening data), (PCOS.hairLoss data), (PCOS.pimples data),
    (PCOS.weightGain data), (PCOS.fastFood data), (PCOS.regularExercise data),
    (PCOS.bmi data >=? 25),
    (PCOS.follicleLeft data + PCOS.follicleRight data >=? 10);
    vm_compute; (split; [ reflexivity | split; discriminate ]).
Qed.

Lemma weighted_count_no_fewer (ws : list Z) :
  Forall (fun w => (0 <= w)%Z) ws ->
  forall bs bs', no_fewer bs bs' = true ->
    (weighted_count ws bs <= weighted_count ws bs')%Z.
Proof.
  induction 1 as [ | w ws Hw _ IH ]; intros bs bs' H.
  - destruct bs; reflexivity.
  - destruct bs as [ | b bs ], bs' as [ | b' bs' ]; try discriminate H.
    + reflexivity.
    + cbn in H. apply andb_prop in H. destruct H as [Hb Hrest].
      specialize (IH _ _ Hrest). cbn [weighted_count].
      destruct b, b'; try discriminate Hb; lia.
Qed.

Lemma PCOS_verdict_monotone :
  forallb (fun a =>
    forallb (fun b =>
      implb (a <=? b)%Z
            (verdict_no_lower (PCOS_verdict (Z2f a / 2)) (PCOS_verdict (Z2f b / 2))))
      (Zrange 0 22))
    (Zrange 0 22) = true.
Proof. vm_compute. reflexivity. Qed.

Lemma predictPCOS_verdict (data : PCOS.PCOSInputData) :
  let r := PCOS.predictPCOS data in
  (PCOS.riskPercentage r, PCOS.hasPCOS r, PCOS.severity r)
  = PCOS_verdict (PCOS.totalScore data).
Proof. reflexivity. Qed.

(** X5: [predictPCOS] is monotone in the risk factors.  If every factor
    counted for [data] (irregular cycle, ten or more follicles, each
    hormonal symptom, [bmi >= 25], weight gain, fast food, no regular
    exercise) is also counted for [data'], then [data'] gets no lower a
    [riskPercentage], keeps [hasPCOS] if [data] had it, and gets no
    lower a severity. *)
Theorem predictPCOS_monotone (data data' : PCOS.PCOSInputData) :
  no_fewer (PCOS_factors data) (PCOS_factors data') = true ->
  let r := PCOS.predictPCOS data in
  let r' := PCOS.predictPCOS data' in
  (PCOS.riskPercentage r <=? PCOS.riskPercentage r') = true /\
  implb (PCOS.hasPCOS r) (PCOS.hasPCOS r') = true /\
  (severity_rank (PCOS.severity r) <= severity_rank (PCOS.severity r'))%Z.
Proof.
  intros Hf r r'.
  pose proof (predictPCOS_verdict data) as Hv.
  pose proof (predictPCOS_verdict data') as Hv'.
  cbv zeta in Hv, Hv'. fold r in Hv. fold r' in Hv'.
  destruct (PCOS_totalScore_half_points data) as [Ht Hr].
  destruct (PCOS_totalScore_half_points data') as [Ht' Hr'].
  rewrite Ht in Hv. rewrite Ht' in Hv'.
  assert (Hle : (PCOS_half_points data <= PCOS_half_points data')%Z).
  { apply weighted_count_no_fewer; [ | exact Hf ].
    unfold PCOS_weights. repeat constructor; discriminate. }
  pose proof (forallb_Zrange _ _ _ PCOS_verdict_monotone
                (PCOS_half_points data) ltac:(lia)) as H1.
  cbv beta in H1.
  pose proof (forallb_Zrange _ _ _ H1 (PCOS_half_points data') ltac:(lia)) as H2.
  cbv beta in H2.
  apply Z.leb_le in Hle. rewrite Hle in H2. cbn [implb] in H2.
  rewrite <- Hv, <- Hv' in H2. unfold verdict_no_lower in H2.
  apply andb_prop in H2. destruct H2 as [H2 Hs].
  apply andb_prop in H2. destruct H2 as [H2 Hh].
  repeat split; [ exact H2 | exact Hh | now apply Z.leb_le ].
Qed.

Lemma predictPCOS_monotone_witness :
  (PCOS.riskPercentage (PCOS.predictPCOS few_factors_input)
   <=? PCOS.riskPercentage (PCOS.predictPCOS every_factor_input)) = true.
Proof.
  exact (proj1 (predictPCOS_monotone few_factors_input every_factor_input
                  ltac:(vm_compute; reflexivity))).
Defined.

(** X6: the [breakdown] of [predictPCOS] holds the cycle score (0 or 2),
    the hormonal score (0 to 4), the ultrasound score (0 or 2) and the
    metabolic score (0 or 1); the lifestyle score (0 to 1.5) is not part
    of it, and the four fields plus the lifestyle score add up to the
    total that decides the verdict. *)
Theorem predictPCOS_breakdown (data : PCOS.PCOSInputData) :
  let b := PCOS.breakdown (PCOS.predictPCOS data) in
  In (PCOS.Breakdown.cycleScore b) [0; 2] /\
  In (PCOS.Breakdown.hormonalScore b) [0; 1; 2; 3; 4] /\
  In (PCOS.Breakdown.ultrasoundScore b) [0; 2] /\
  In (PCOS.Breakdown.metabolicScore b) [0; 1] /\
  In (PCOS.lifestyleScore data) [0; 0.5; 1; 1.5] /\
  PCOS.Breakdown.cycleScore b + PCOS.Breakdown.hormonalScore b
    + PCOS.Breakdown.ultrasoundScore b + PCOS.Breakdown.metabolicScore b
    + PCOS.lifestyleScore data
  = PCOS.totalScore data.
Proof.
  intros b; subst b. unfold PCOS.predictPCOS.
  cbn [PCOS.breakdown PCOS.Breakdown.cycleScore PCOS.Breakdown.hormonalScore
       PCOS.Breakdown.ultrasoundScore PCOS.Breakdown.metabolicScore].
  unfold PCOS.totalScore, PCOS.cycleScore, PCOS.ultrasoundScore,
    PCOS.hormonalScore, PCOS.metabolicScore, PCOS.lifestyleScore.
  split_if_conditions; vm_compute;
    repeat (split; [ pick_member | ]); reflexivity.
Qed.

(** ** The order on numbers *)

Lemma SFleb_trans x y z :
  SFleb x y = true -> SFleb y z = true -> SFleb x z = true.
Proof.
  unfold SFleb, SFcompare.
  destruct x as [ [ | ] | [ | ] | | [ | ] mx ex ],
           y as [ [ | ] | [ | ] | | [ | ] my ey ],
           z as [ [ | ] | [ | ] | | [ | ] mz ez ];
    try (intros; reflexivity); try (intros; discriminate);
    change (Pcompare ?a ?b Eq) with (Pos.compare a b);
    destruct (Z.compare_spec ex ey), (Z.compare_spec ey ez), (Z.compare_spec ex ez);
    try (intros; reflexivity); try (intros; discriminate); try lia;
    subst;
    destruct (Pos.compare_spec mx my), (Pos.compare_spec my mz), (Pos.compare_spec mx mz);
    cbn; try (intros; reflexivity); try (intros; discriminate); try lia.
Qed.

Lemma SFltb_leb_trans x y z :
  SFltb x y = true -> SFleb y z = true -> SFltb x z = true.
Proof.
  unfold SFleb, SFltb, SFcompare.
  destruct x as [ [ | ] | [ | ] | | [ | ] mx ex ],
           y as [ [ | ] | [ | ] | | [ | ] my ey ],
           z as [ [ | ] | [ | ] | | [ | ] mz ez ];
    try (intros; reflexivity); try (intros; discriminate);
    change (Pcompare ?a ?b Eq) with (Pos.compare a b);
    destruct (Z.compare_spec ex ey), (Z.compare_spec ey ez), (Z.compare_spec ex ez);
    try (intros; reflexivity); try (intros; discriminate); try lia;
    subst;
    destruct (Pos.compare_spec mx my), (Pos.compare_spec my mz), (Pos.compare_spec mx mz);
    cbn; try (intros; reflexivity); try (intros; discriminate); try lia.
Qed.

Lemma leb_trans x y z :
  (x <=? y) = true -> (y <=? z) = true -> (x <=? z) = true.
Proof. rewrite !leb_spec. apply SFleb_trans. Qed.

Lemma ltb_leb_trans x y z :
  (x <? y) = true -> (y <=? z) = true -> (x <? z) = true.
Proof. rewrite !ltb_spec, leb_spec. apply SFltb_leb_trans. Qed.

(** ** More on the menopause score *)

Lemma Menopause_totalScore_points (data : Menopause.MenopauseInputData) :
  Menopause.ageScore data = Z2f (integer_of (Menopause.ageScore data)) /\
  Menopause.hormoneScore data = Z2f (integer_of (Menopause.hormoneScore data)) /\
  Menopause.symptomScore data = Z2f (integer_of (Menopause.symptomScore data)) /\
  Menopause.periodScore data = Z2f (integer_of (Menopause.periodScore data)) /\
  Menopause.totalScore data = Z2f (Menopause_points data) /\
  (0 <= Menopause_points data <= 19)%Z.
Proof.
  unfold Menopause.totalScore, Menopause_points.
  generalize (Menopause_ageScore_values data), (Menopause_hormoneScore_values data),
    (Menopause_symptomScore_values data), (Menopause_periodScore_values data).
  generalize (Menopause.ageScore data), (Menopause.hormoneScore data),
    (Menopause.symptomScore data), (Menopause.periodScore data).
  intros a h s p Ha Hh Hs Hp.
  each_member Ha; each_member Hh; each_member Hs; each_member Hp;
    vm_compute; repeat (split; [ reflexivity | ]); split; discriminate.
Qed.

(** X7: the [riskPercentage] of [predictMenopause] is explained by its
    [breakdown]: the four fields are integers that sum to at most 19,
    and the percentage is the exact rounding of 100 times their sum
    over 19, which the clamp to 0..100 never changes. *)
Theorem predictMenopause_risk_from_breakdown (data : Menopause.MenopauseInputData) :
  let r := Menopause.predictMenopause data in
  let b := Menopause.breakdown r in
  let n := (integer_of (Menopause.Breakdown.ageScore b)
            + integer_of (Menopause.Breakdown.hormoneScore b)
            + integer_of (Menopause.Breakdown.symptomScore b)
            + integer_of (Menopause.Breakdown.periodScore b))%Z in
  Menopause.Breakdown.ageScore b = Z2f (integer_of (Menopause.Breakdown.ageScore b)) /\
  Menopause.Breakdown.hormoneScore b = Z2f (integer_of (Menopause.Breakdown.hormoneScore b)) /\
  Menopause.Breakdown.symptomScore b = Z2f (integer_of (Menopause.Breakdown.symptomScore b)) /\
  Menopause.Breakdown.periodScore b = Z2f (integer_of (Menopause.Breakdown.periodScore b)) /\
  (0 <= n <= 19)%Z /\
  Menopause.riskPercentage r = Z2f (round_half_up (inject_Z n * 100 / 19)%Q) /\
  Menopause.riskPercentage r
    = Math_round ((Menopause.totalScore data / Menopause.maxScore) * 100).
Proof.
  intros r b n; subst r b n. unfold Menopause.predictMenopause.
  cbn [Menopause.breakdown Menopause.riskPercentage Menopause.Breakdown.ageScore
       Menopause.Breakdown.hormoneScore Menopause.Breakdown.symptomScore
       Menopause.Breakdown.periodScore].
  destruct (Menopause_totalScore_points data) as (Ha & Hh & Hs & Hp & Ht & Hr).
  fold (Menopause_points data).
  repeat (split; [ assumption | ]).
  rewrite Ht. revert Hr. generalize (Menopause_points data). intros n Hn.
  assert (Hin : In n (Zrange 0 20)) by (apply In_Zrange; lia).
  cbn [Zrange Z.add] in Hin.
  each_member Hin; vm_compute; split; reflexivity.
Qed.

Lemma Menopause_scores_by_stage (data : Menopause.MenopauseInputData) :
  match Menopause.stage_of data with
  | Menopause.Post_Menopause => In (Menopause.periodScore data) [3; 4]
  | Menopause.Peri_Menopause =>
      In (Menopause.ageScore data) [1; 2; 3; 4] /\
      In (Menopause.symptomScore data) [1; 2; 3; 4; 5; 6; 7] /\
      In (Menopause.periodScore data) [0; 1; 2]
  | Menopause.Pre_Menopause => In (Menopause.periodScore data) [0; 1; 2]
  end.
Proof.
  assert (Hp : (Menopause.yearsSinceLastPeriod data >=? 1) = false ->
               In (Menopause.periodScore data) [0; 1; 2]).
  { intros H1. unfold Menopause.periodScore. rewrite H1.
    destruct (Menopause.yearsSinceLastPeriod data >=? 2) eqn:H2.
    - rewrite (leb_trans 1 2 _ eq_refl H2) in H1. discriminate H1.
    - split_if_conditions; pick_member. }
  unfold Menopause.stage_of.
  destruct (Menopause.yearsSinceLastPeriod data >=? 1) eqn:H1.
  - unfold Menopause.periodScore. rewrite H1. split_if_conditions; pick_member.
  - specialize (Hp eq_refl).
    destruct (Menopause.age data >=? 40) eqn:Ha; [ | exact Hp ].
    destruct (Menopause.irregularPeriods data || Menopause.missedPeriods data
              || Menopause.hotFlashes data) eqn:Hs; [ | exact Hp ].
    cbn [andb]. split; [ | split; [ | exact Hp ] ].
    + unfold Menopause.ageScore. rewrite Ha. split_if_conditions; pick_member.
    + unfold Menopause.symptomScore. revert Hs.
      destruct (Menopause.irregularPeriods data), (Menopause.missedPeriods data),
        (Menopause.hotFlashes data); try discriminate; intros _;
        split_if_conditions; vm_compute; pick_member.
Qed.

(** X8: the stage and the scores of [predictMenopause] agree.  In
    ['Post-Menopause'] the period score is at least 3 and the percentage
    at least 16; in ['Peri-Menopause'] the age and symptom scores are at
    least 1, the period score at most 2 and the percentage at least 11;
    in ['Pre-Menopause'] the period score is at most 2.  The
    recommendations advise seeing a doctor exactly when
    [hasMenopauseSymptoms] is true. *)
Theorem predictMenopause_stage_and_scores (data : Menopause.MenopauseInputData) :
  let r := Menopause.predictMenopause data in
  let b := Menopause.breakdown r in
  Menopause.needsDoctor (Menopause.recommendations r)
    = Menopause.hasMenopauseSymptoms r /\
  match Menopause.stage r with
  | Menopause.Post_Menopause =>
      (Menopause.Breakdown.periodScore b >=? 3) && (Menopause.riskPercentage r >=? 16)
  | Menopause.Peri_Menopause =>
      (Menopause.Breakdown.ageScore b >=? 1) && (Menopause.Breakdown.symptomScore b >=? 1)
      && (Menopause.Breakdown.periodScore b <=? 2) && (Menopause.riskPercentage r >=? 11)
  | Menopause.Pre_Menopause => Menopause.Breakdown.periodScore b <=? 2
  end = true.
Proof.
  intros r b; subst r b. unfold Menopause.predictMenopause.
  cbn [Menopause.breakdown Menopause.riskPercentage Menopause.stage
       Menopause.recommendations Menopause.hasMenopauseSymptoms
       Menopause.Breakdown.ageScore Menopause.Breakdown.symptomScore
       Menopause.Breakdown.periodScore].
  split; [ destruct (Menopause.stage_of data); reflexivity | ].
  unfold Menopause.totalScore.
  generalize (Menopause_scores_by_stage data).
  generalize (Menopause_ageScore_values data), (Menopause_hormoneScore_values data),
    (Menopause_symptomScore_values data), (Menopause_periodScore_values data).
  generalize (Menopause.ageScore data), (Menopause.hormoneScore data),
    (Menopause.symptomScore data), (Menopause.periodScore data).
  intros a h s p Ha Hh Hs Hp Hst.
  destruct (Menopause.stage_of data).
  - clear Ha Hs Hh. each_member Hst; reflexivity.
  - clear Ha Hs Hp. destruct Hst as (Ha & Hs & Hp).
    each_member Ha; each_member Hh; each_member Hs; each_member Hp; reflexivity.
  - clear Hp. each_member Ha; each_member Hh; each_member Hs; each_member Hst; reflexivity.
Qed.

Ltac use_implications :=
  repeat match goal with
         | H : true = true -> _ |- _ => specialize (H eq_refl)
         | H : false = true -> _ |- _ => clear H
         end;
  try discriminate.

Lemma Menopause_symptoms_count (data : Menopause.MenopauseInputData) :
  integer_of (Menopause.symptomScore data)
  = weighted_count [1; 1; 1; 1; 1; 1; 1]%Z (Menopause_symptoms data).
Proof.
  unfold Menopause.symptomScore, Menopause_symptoms.
  split_if_conditions; vm_compute; reflexivity.
Qed.

Lemma Menopause_risk_monotone :
  forallb (fun a =>
    forallb (fun b =>
      implb (a <=? b)%Z (Menopause_risk (Z2f a) <=? Menopause_risk (Z2f b)))
      (Zrange 0 20))
    (Zrange 0 20) = true.
Proof. vm_compute. reflexivity. Qed.

(** X9: [predictMenopause] is monotone.  A woman who is no younger, has
    no lower FSH and no higher estrogen, is no closer to her last period
    and reports every symptom the other reports gets no lower a
    [riskPercentage]. *)
Theorem predictMenopause_monotone (data data' : Menopause.MenopauseInputData) :
  (Menopause.age data <=? Menopause.age data') = true ->
  (Menopause.fshLevel data <=? Menopause.fshLevel data') = true ->
  (Menopause.estrogenLevel data' <=? Menopause.estrogenLevel data) = true ->
  (Menopause.yearsSinceLastPeriod data <=? Menopause.yearsSinceLastPeriod data') = true ->
  no_fewer (Menopause_symptoms data) (Menopause_symptoms data') = true ->
  (Menopause.riskPercentage (Menopause.predictMenopause data)
   <=? Menopause.riskPercentage (Menopause.predictMenopause data')) = true.
Proof.
  intros Hage Hfsh Hest Hyears Hsym.
  assert (Ha : (integer_of (Menopause.ageScore data)
                <= integer_of (Menopause.ageScore data'))%Z).
  { unfold Menopause.ageScore.
    pose proof (fun H => leb_trans 55 _ _ H Hage) as H55.
    pose proof (fun H => leb_trans 50 _ _ H Hage) as H50.
    pose proof (fun H => leb_trans 45 _ _ H Hage) as H45.
    pose proof (fun H => leb_trans 40 _ _ H Hage) as H40.
    destruct (Menopause.age data >=? 55), (Menopause.age data >=? 50),
      (Menopause.age data >=? 45), (Menopause.age data >=? 40);
      use_implications;
      repeat match goal with H : _ = true |- _ => rewrite H end;
      split_if_conditions; vm_compute; discriminate. }
  assert (Hh : (integer_of (Menopause.hormoneScore data)
                <= integer_of (Menopause.hormoneScore data'))%Z).
  { unfold Menopause.hormoneScore.
    pose proof (fun H => leb_trans 40 _ _ H Hfsh) as H40.
    pose proof (fun H => leb_trans 25 _ _ H Hfsh) as H25.
    pose proof (fun H => leb_trans _ _ 30 Hest H) as H30.
    pose proof (fun H => leb_trans _ _ 50 Hest H) as H50.
    destruct (Menopause.fshLevel data >=? 40), (Menopause.fshLevel data >=? 25),
      (Menopause.estrogenLevel data <=? 30), (Menopause.estrogenLevel data <=? 50);
      use_implications;
      repeat match goal with H : _ = true |- _ => rewrite H end;
      split_if_conditions; vm_compute; discriminate. }
  assert (Hp : (integer_of (Menopause.periodScore data)
                <= integer_of (Menopause.periodScore data'))%Z).
  { unfold Menopause.periodScore.
    pose proof (fun H => leb_trans 2 _ _ H Hyears) as H2.
    pose proof (fun H => leb_trans 1 _ _ H Hyears) as H1.
    pose proof (fun H => leb_trans 0.5 _ _ H Hyears) as Hhalf.
    pose proof (fun H => ltb_leb_trans 0 _ _ H Hyears) as H0.
    destruct (Menopause.yearsSinceLastPeriod data >=? 2),
      (Menopause.yearsSinceLastPeriod data >=? 1),
      (Menopause.yearsSinceLastPeriod data >=? 0.5),
      (Menopause.yearsSinceLastPeriod data >? 0);
      use_implications;
      repeat match goal with H : _ = true |- _ => rewrite H end;
      split_if_conditions; vm_compute; discriminate. }
  assert (Hs : (integer_of (Menopause.symptomScore data)
                <= integer_of (Menopause.symptomScore data'))%Z).
  { rewrite !Menopause_symptoms_count.
    apply weighted_count_no_fewer; [ repeat constructor; discriminate | exact Hsym ]. }
  unfold Menopause.predictMenopause. cbn [Menopause.riskPercentage].
  destruct (Menopause_totalScore_points data) as (_ & _ & _ & _ & Ht & Hr).
  destruct (Menopause_totalScore_points data') as (_ & _ & _ & _ & Ht' & Hr').
  rewrite Ht, Ht'.
  assert (Hle : (Menopause_points data <= Menopause_points data')%Z)
    by (unfold Menopause_points; lia).
  pose proof (forallb_Zrange _ _ _ Menopause_risk_monotone
                (Menopause_points data) ltac:(lia)) as H1.
  cbv beta in H1.
  pose proof (forallb_Zrange _ _ _ H1 (Menopause_points data') ltac:(lia)) as H2.
  cbv beta in H2.
  apply Z.leb_le in Hle. rewrite Hle in H2. exact H2.
Qed.

Lemma predictMenopause_monotone_witness :
  (Menopause.riskPercentage (Menopause.predictMenopause perimenopause_input)
   <=? Menopause.riskPercentage (Menopause.predictMenopause postmenopause_input)) = true.
Proof.
  apply (predictMenopause_monotone perimenopause_input postmenopause_input);
    vm_compute; reflexivity.
Defined.

(** ** More on the cycle prediction *)

(** X10: the confidence of [predictNextCycle] on a non-empty history of
    [n] cycles, in terms of the standard deviation of the last six:
    ['high'] exactly when it is at most 2 and [n >= 3]; otherwise
    ['medium'] exactly when it is at most 5 or [n >= 6]; otherwise
    ['low'].  So six recorded cycles or more never give ['low'], and
    fewer than three never give ['high']. *)
Theorem predictNextCycle_confidence tz (data : Cycle.CycleData) :
  Cycle.cycleHistory data <> [] ->
  let r := Cycle.predictNextCycle tz data in
  let n := List.length (Cycle.cycleHistory data) in
  let sd := population_std (last_entries 6 (Cycle.cycleHistory data)) in
  (Cycle.confidenceLevel r = Cycle.high <-> (sd <=? 2) = true /\ (3 <= n)%nat) /\
  (Cycle.confidenceLevel r = Cycle.low <->
     ((sd <=? 2) = false \/ (n < 3)%nat) /\ (sd <=? 5) = false /\ (n < 6)%nat) /\
  ((6 <= n)%nat -> Cycle.confidenceLevel r <> Cycle.low) /\
  ((n < 3)%nat -> Cycle.confidenceLevel r <> Cycle.high).
Proof.
  intros Hne r n sd; subst r n sd. unfold Cycle.predictNextCycle.
  destruct (Cycle.cycleHistory data) as [ | c0 cs ] eqn:Hh; [ congruence | ].
  cbn [Cycle.confidenceLevel].
  rewrite variability_spec.
  generalize (population_std (last_entries 6 (c0 :: cs))). intros sd.
  generalize (List.length (c0 :: cs)). intros n.
  destruct (sd <=? 2), (sd <=? 5), (Nat.leb_spec 3 n), (Nat.leb_spec 6 n);
    cbn; repeat split; intros; try discriminate; try lia;
    intuition (try discriminate; try congruence; try lia).
Qed.

Lemma predictNextCycle_confidence_witness :
  Cycle.confidenceLevel (Cycle.predictNextCycle kolkata stressed_input) = Cycle.high.
Proof.
  apply (proj1 (predictNextCycle_confidence kolkata stressed_input
                  ltac:(discriminate))).
  split; [ vm_compute; reflexivity | cbn; lia ].
Defined.

(** X11: a history whose last six cycles have a standard deviation above
    7, which alone makes the cycle irregular, never gets ['high']
    confidence: the confidence is ['medium'] with six recorded cycles or
    more and ['low'] with fewer. *)
Theorem predictNextCycle_variable_history tz (data : Cycle.CycleData) :
  Cycle.cycleHistory data <> [] ->
  (population_std (last_entries 6 (Cycle.cycleHistory data)) >? 7) = true ->
  let r := Cycle.predictNextCycle tz data in
  Cycle.isIrregular r = true /\
  Cycle.confidenceLevel r =
    (if (6 <=? List.length (Cycle.cycleHistory data))%nat then Cycle.medium
     else Cycle.low).
Proof.
  intros Hne Hsd r; subst r. unfold Cycle.predictNextCycle.
  destruct (Cycle.cycleHistory data) as [ | c0 cs ] eqn:Hh; [ congruence | ].
  cbn [Cycle.isIrregular Cycle.confidenceLevel].
  rewrite variability_spec, Hsd.
  set (sd := population_std (last_entries 6 (c0 :: cs))) in *.
  assert (H2 : (sd <=? 2) = false).
  { destruct (sd <=? 2) eqn:E; [ | reflexivity ].
    pose proof (ltb_leb_trans 7 sd 2 Hsd E) as H. discriminate H. }
  assert (H5 : (sd <=? 5) = false).
  { destruct (sd <=? 5) eqn:E; [ | reflexivity ].
    pose proof (ltb_leb_trans 7 sd 5 Hsd E) as H. discriminate H. }
  rewrite H2, H5. split; reflexivity.
Qed.

Lemma predictNextCycle_variable_history_witness :
  Cycle.isIrregular (Cycle.predictNextCycle kolkata erratic_input) = true /\
  Cycle.confidenceLevel (Cycle.predictNextCycle kolkata erratic_input) = Cycle.low.
Proof.
  apply (predictNextCycle_variable_history kolkata erratic_input);
    [ discriminate | vm_compute; reflexivity ].
Defined.

Lemma no_long_cycle (xs : list float) :
  existsb (fun c => (c <? 21) || (c >? 35)) xs = false ->
  filter (fun c => c >? 35) xs = [].
Proof.
  induction xs as [ | c xs IH ]; [ reflexivity | ].
  cbn. intros H. apply orb_false_elim in H. destruct H as [Hc Hxs].
  apply orb_false_elim in Hc. destruct Hc as [_ Hc].
  rewrite Hc. now apply IH.
Qed.

(** X12: on a non-empty history, a cycle that [predictNextCycle] does
    not report as irregular never raises the PCOS flag: the flag is then
    [false], whatever the symptoms; and a flag that is [true] comes with
    [isIrregular]. *)
Theorem predictNextCycle_regular_no_flag tz (data : Cycle.CycleData) :
  Cycle.cycleHistory data <> [] ->
  let r := Cycle.predictNextCycle tz data in
  (Cycle.isIrregular r = false -> Cycle.pcosRiskFlag r = Some false) /\
  (Cycle.pcosRiskFlag r = Some true -> Cycle.isIrregular r = true).
Proof.
  intros Hne r.
  assert (H : Cycle.isIrregular r = false -> Cycle.pcosRiskFlag r = Some false).
  { subst r. unfold Cycle.predictNextCycle.
    destruct (Cycle.cycleHistory data) as [ | c0 cs ] eqn:Hh; [ congruence | ].
    cbn [Cycle.isIrregular Cycle.pcosRiskFlag].
    intros Hirr. rewrite Hirr.
    apply orb_false_elim in Hirr. destruct Hirr as [_ Hrange].
    unfold Cycle.longCycles. rewrite (no_long_cycle _ Hrange). reflexivity. }
  split; [ exact H | ].
  intros Hflag. destruct (Cycle.isIrregular r); [ reflexivity | ].
  rewrite (H eq_refl) in Hflag. discriminate Hflag.
Qed.

Lemma predictNextCycle_regular_no_flag_witness :
  Cycle.pcosRiskFlag (Cycle.predictNextCycle kolkata stressed_input) = Some false.
Proof.
  apply (proj1 (predictNextCycle_regular_no_flag kolkata stressed_input
                  ltac:(discriminate))).
  vm_compute. reflexivity.
Defined.

Lemma firstn_of_repeat {A} (x : A) (k : nat) :
  forall n, firstn k (repeat x n) = repeat x (Nat.min k n).
Proof.
  induction k as [ | k IH ]; intros [ | n ]; cbn; try reflexivity.
  now rewrite IH.
Qed.

Lemma last_entries_repeat {A} (x : A) (k n : nat) :
  last_entries k (repeat x n) = repeat x (Nat.min k n).
Proof.
  unfold last_entries. now rewrite rev_repeat, firstn_of_repeat, rev_repeat.
Qed.

Lemma existsb_repeat {A} (f : A -> bool) (x : A) (k : nat) :
  (1 <= k)%nat -> existsb f (repeat x k) = f x.
Proof.
  induction k as [ | k IH ]; [ lia | ]. intros _. cbn.
  destruct k as [ | k ]; [ apply orb_false_r | ].
  rewrite IH by lia. apply orb_diag.
Qed.

(** A history of equal cycles of [c] days, for every length of the
    window and every [c] up to 1000: the weighted mean rounds to [c],
    the standard deviation is 0, and the range test on numbers is the
    one on integers. *)
Lemma constant_window_exact :
  forallb (fun c =>
    forallb (fun k =>
      Leibniz.eqb (Math_round (weighted_mean (repeat (Z2f c) k) (weights_1_to k))) (Z2f c)
      && Leibniz.eqb (population_std (repeat (Z2f c) k)) 0
      && Bool.eqb ((Z2f c <? 21) || (Z2f c >? 35)) ((c <? 21) || (35 <? c))%Z)
      [1; 2; 3; 4; 5; 6]%nat)
    (Zrange 1 1000) = true.
Proof. vm_compute. reflexivity. Qed.

(** X13: a history made of [n >= 1] equal cycles of [c] days, [c] an
    integer from 1 to 1000, predicts exactly that: [averageCycleLength]
    is [c], [cycleVariability] is 0, the cycle is irregular exactly when
    [c] is outside 21..35, and the confidence is ['high'] from three
    cycles on and ['medium'] before. *)
Theorem predictNextCycle_constant_history tz (data : Cycle.CycleData) (c : Z) (n : nat) :
  (1 <= c <= 1000)%Z -> (1 <= n)%nat ->
  Cycle.cycleHistory data = repeat (Z2f c) n ->
  let r := Cycle.predictNextCycle tz data in
  Cycle.averageCycleLength r = Z2f c /\
  Cycle.cycleVariability r = 0 /\
  Cycle.isIrregular r = ((c <? 21) || (35 <? c))%Z /\
  Cycle.confidenceLevel r = (if (3 <=? n)%nat then Cycle.high else Cycle.medium).
Proof.
  intros Hc Hn Hh r; subst r. unfold Cycle.predictNextCycle.
  rewrite Hh. destruct n as [ | n ]; [ lia | ]. cbn [repeat].
  change (Z2f c :: repeat (Z2f c) n) with (repeat (Z2f c) (S n)).
  cbn [Cycle.averageCycleLength Cycle.cycleVariability Cycle.isIrregular
       Cycle.confidenceLevel].
  rewrite weightedAverage_spec, variability_spec.
  unfold Cycle.recentCycles. rewrite slice_last_last_entries.
  rewrite last_entries_repeat, repeat_length.
  set (k := Nat.min 6 (S n)).
  assert (Hk : In k [1; 2; 3; 4; 5; 6]%nat) by (cbn [In]; lia).
  pose proof (forallb_Zrange _ _ _ constant_window_exact c ltac:(lia)) as H.
  cbv beta in H. rewrite forallb_forall in H. specialize (H k Hk).
  apply andb_prop in H. destruct H as [H Hrange].
  apply andb_prop in H. destruct H as [Havg Hsd].
  apply FloatAxioms.Leibniz.eqb_spec in Havg, Hsd.
  apply Bool.eqb_prop in Hrange.
  rewrite Havg, Hsd, existsb_repeat, Hrange by (subst k; lia).
  split; [ reflexivity | ]. split; [ reflexivity | ]. split; [ reflexivity | ].
  change (0 <=? 2) with true. cbn [andb]. reflexivity.
Qed.

(* Five cycles of 28 days. *)
Lemma predictNextCycle_constant_history_witness :
  Cycle.averageCycleLength (Cycle.predictNextCycle kolkata steady_input) = 28 /\
  Cycle.cycleVariability (Cycle.predictNextCycle kolkata steady_input) = 0.
Proof.
  pose proof (predictNextCycle_constant_history kolkata steady_input 28 5
                ltac:(lia) ltac:(lia) eq_refl) as H.
  cbv zeta in H. destruct H as (Ha & Hv & _).
  split; [ exact Ha | exact Hv ].
Defined.

(** *** NaN in the history *)

Lemma Prim2SF_nan_eq x : Prim2SF x = S754_nan -> x = nan.
Proof. intros H. apply Prim2SF_inj. exact H. Qed.

Lemma add_nan_l x : nan + x = nan.
Proof.
  apply Prim2SF_nan_eq. rewrite add_spec. reflexivity.
Qed.

Lemma add_nan_r x : x + nan = nan.
Proof.
  apply Prim2SF_nan_eq. rewrite add_spec.
  change (Prim2SF nan) with S754_nan. now destruct (Prim2SF x).
Qed.

Lemma sub_nan_r x : x - nan = nan.
Proof.
  apply Prim2SF_nan_eq. rewrite sub_spec.
  change (Prim2SF nan) with S754_nan. now destruct (Prim2SF x).
Qed.

Lemma mul_nan_l x : nan * x = nan.
Proof.
  apply Prim2SF_nan_eq. rewrite mul_spec. reflexivity.
Qed.

Lemma div_nan_l x : nan / x = nan.
Proof.
  apply Prim2SF_nan_eq. rewrite div_spec. reflexivity.
Qed.

Lemma sum_from_nan (l : list float) : fold_left PrimFloat.add l nan = nan.
Proof.
  induction l as [ | x l IH ]; [ reflexivity | ].
  cbn [fold_left]. now rewrite add_nan_l.
Qed.

Lemma sum_with_nan (l : list float) :
  In nan l -> forall init, fold_left PrimFloat.add l init = nan.
Proof.
  induction l as [ | x l IH ]; intros Hin init; [ contradiction | ].
  cbn [fold_left]. destruct Hin as [ -> | Hin ].
  - rewrite add_nan_r. apply sum_from_nan.
  - now apply IH.
Qed.

Lemma In_combine_with {A B} (x : A) (xs : list A) :
  In x xs -> forall ys : list B, List.length ys = List.length xs ->
  exists y, In (x, y) (combine xs ys).
Proof.
  induction xs as [ | a xs IH ]; intros Hin ys Hlen; [ contradiction | ].
  destruct ys as [ | y ys ]; [ discriminate Hlen | ].
  destruct Hin as [ -> | Hin ].
  - exists y. now left.
  - destruct (IH Hin ys ltac:(cbn in Hlen; lia)) as [y' Hy']. exists y'. now right.
Qed.

Lemma weighted_mean_nan (xs ws : list float) :
  In nan xs -> List.length ws = List.length xs -> weighted_mean xs ws = nan.
Proof.
  intros Hin Hlen. unfold weighted_mean, sum.
  destruct (In_combine_with _ _ Hin ws Hlen) as [w Hw].
  rewrite (sum_with_nan (map _ _)).
  - apply div_nan_l.
  - apply in_map_iff. exists (nan, w). split; [ apply mul_nan_l | exact Hw ].
Qed.

Lemma population_std_nan (xs : list float) :
  In nan xs -> population_std xs = nan.
Proof.
  intros Hin. unfold population_std, sum.
  rewrite (sum_with_nan xs Hin), div_nan_l.
  rewrite (sum_with_nan (map _ _)).
  - now rewrite div_nan_l.
  - apply in_map_iff. exists nan. split; [ | exact Hin ].
    now rewrite sub_nan_r, mul_nan_l.
Qed.

Lemma setDate_nan tz (d : Date) : Date_setDate tz d nan = None.
Proof. destruct d; reflexivity. Qed.

(** X14: a NaN among the last six entries of the history spoils the
    prediction without an error: [averageCycleLength] and
    [cycleVariability] are NaN, [predictedStartDate] is an invalid date,
    and the confidence is ['medium'] with six recorded cycles or more
    and ['low'] with fewer. *)
Theorem predictNextCycle_NaN_entry tz (data : Cycle.CycleData) :
  In nan (last_entries 6 (Cycle.cycleHistory data)) ->
  let r := Cycle.predictNextCycle tz data in
  Cycle.averageCycleLength r = nan /\
  Cycle.cycleVariability r = nan /\
  Cycle.predictedStartDate r = None /\
  Cycle.confidenceLevel r =
    (if (6 <=? List.length (Cycle.cycleHistory data))%nat then Cycle.medium
     else Cycle.low).
Proof.
  intros Hin r; subst r. unfold Cycle.predictNextCycle.
  destruct (Cycle.cycleHistory data) as [ | c0 cs ] eqn:Hh; [ contradiction | ].
  cbn [Cycle.averageCycleLength Cycle.cycleVariability Cycle.predictedStartDate
       Cycle.confidenceLevel].
  rewrite weightedAverage_spec, variability_spec.
  rewrite (weighted_mean_nan _ _ Hin), (population_std_nan _ Hin)
    by (unfold weights_1_to;
        now rewrite length_map, length_seq, length_last_entries).
  change (Math_round nan) with nan.
  rewrite add_nan_r, add_nan_l, setDate_nan.
  repeat split.
Qed.

Lemma predictNextCycle_NaN_entry_witness :
  Cycle.predictedStartDate (Cycle.predictNextCycle kolkata gap_input) = None /\
  Cycle.confidenceLevel (Cycle.predictNextCycle kolkata gap_input) = Cycle.low.
Proof.
  pose proof (predictNextCycle_NaN_entry kolkata gap_input
                ltac:(vm_compute; right; right; left; reflexivity)) as H.
  cbv zeta in H. destruct H as (_ & _ & Hd & Hc).
  split; [ exact Hd | exact Hc ].
Defined.

(** ** The notification schedule *)



(* A period predicted for 11 March 2024, 10:00 in New York, the day
   after the clocks changed: the reminder three days ahead is dated
   8 March, 10:00 in New York, three days less one hour earlier. *)
Example getNotificationSchedule_new_york :
  map Notification.date
      (Notification.getNotificationSchedule new_york_2024 (Some 1710165600000%Z) false)
  = [ Some (1710165600000 - 3 * 86400000 + 3600000)%Z;
      Some (1710165600000 - 2 * 86400000 + 3600000)%Z;
      Some (1710165600000 - 1 * 86400000)%Z ].
Proof. vm_compute. reflexivity. Qed.


(** ** More on the wrappers around the remote model *)

Lemma given_not_empty userId u : given userId = Some u -> userId = Some u /\ u <> EmptyString.
Proof.
  unfold given. destruct userId as [ v | ]; [ | discriminate ].
  destruct (String.eqb_spec v ""%string); [ discriminate | ].
  intros H. injection H as ->. now split.
Qed.





(** Case analysis over the steps of a wrapper's [try] block. *)
Ltac api_steps :=
  repeat match goal with
         | |- context [if negb (ok ?r) then _ else _] =>
             let E := fresh "Hok" in destruct (ok r) eqn:E; cbn in *
         | |- context [match api_recommendations ?r with Some _ => _ | None => _ end] =>
             let E := fresh "Hrecs" in destruct (api_recommendations r) eqn:E; cbn in *
         | |- context [match given ?u with Some _ => _ | None => _ end] =>
             let E := fresh "Hgiven" in destruct (given u) eqn:E; cbn in *
         | |- context [match ?d with Some _ => _ | None => _ end] =>
             let E := fresh "Hdate" in destruct d eqn:E; cbn in *
         | |- context [match ?c with Normal _ => _ | Throw _ => _ end] =>
             let E := fresh "Hstep" in destruct c eqn:E; cbn in *
         end.


Ltac requests :=
  repeat match goal with
         | H : _ = _ |- _ => discriminate H
         | H : [_] = [_] |- _ => injection H as H; subst
         | H : Some _ = Some _ |- _ => injection H as H; subst
         | |- _ /\ _ => split
         | |- forall _, _ => intro
         end;
  try congruence; try reflexivity;
  try (left; reflexivity);
  try (right;
       match goal with
       | Hg : given _ = Some _ |- _ =>
           destruct (given_not_empty _ _ Hg) as [? ?]
       end;
       do 2 eexists; repeat split; eauto).



(** X17: a wrapper asks the database for at most one insertion, and
    only for a user id that is given and not empty; when it returns the
    model's answer for such a user, the row it asked to insert carries
    that id and records the result it returns.  What the database
    answers is not looked at: whenever the awaited insertion resolves,
    be it with an [error], the wrapper returns the model's result with
    [usedAPI = true] and no error message. *)
Theorem api_insert_requests tz (h : Host) (userId : option string) :
  (forall data : PCOS.PCOSInputData,
     let out := predictPCOSFromAPI h data userId in
     one_row_for userId (fst out) /\
     (forall u, usedAPI (_meta (snd out)) = true -> given userId = Some u ->
        fst out = [PCOS_row u data (spread (snd out)) (now h)]) /\
     (forall row answer,
        fst out = [row] -> supabase_insert h row = Normal answer ->
        usedAPI (_meta (snd out)) = true /\ error (_meta (snd out)) = None)) /\
  (forall data : Menopause.MenopauseInputData,
     let out := predictMenopauseFromAPI h data userId in
     one_row_for userId (fst out) /\
     (forall u, usedAPI (_meta (snd out)) = true -> given userId = Some u ->
        fst out = [Menopause_row u data (spread (snd out)) (now h)]) /\
     (forall row answer,
        fst out = [row] -> supabase_insert h row = Normal answer ->
        usedAPI (_meta (snd out)) = true /\ error (_meta (snd out)) = None)) /\
  (forall data : Cycle.CycleData,
     let out := predictCycleFromAPI tz h data userId in
     one_row_for userId (fst out) /\
     (forall u, usedAPI (_meta (snd out)) = true -> given userId = Some u ->
        fst out = [Cycle_row u (spread (snd out)) (now h)]) /\
     (forall row answer,
        fst out = [row] -> supabase_insert h row = Normal answer ->
        usedAPI (_meta (snd out)) = true /\ error (_meta (snd out)) = None)).
Proof.
  split; [ | split ]; intros data out; subst out.
  - unfold predictPCOSFromAPI, one_row_for, PCOS_row. run_remote.
    api_steps; requests.
  - unfold predictMenopauseFromAPI, one_row_for, Menopause_row. run_remote.
    api_steps; requests.
  - unfold predictCycleFromAPI, one_row_for, Cycle_row, toISOString,
      Date_toISOString, new_Date. run_remote.
    api_steps; requests.
Qed.

(* The database refuses the row; the caller is not told. *)
Lemma api_insert_requests_witness :
  usedAPI (_meta (snd (predictPCOSFromAPI refusing_host every_factor_input
                         (Some "user-1"%string)))) = true /\
  error (_meta (snd (predictPCOSFromAPI refusing_host every_factor_input
                       (Some "user-1"%string)))) = None.
Proof.
  pose proof (proj1 (api_insert_requests kolkata refusing_host (Some "user-1"%string))
                every_factor_input) as (_ & _ & H).
  eapply H; reflexivity.
Defined.
